(** * Floor-plan canvas designer: geometry kernel, pointer handlers, import

    A shallow embedding of the interactive polygon/furniture editor of
    [src/components/CanvasDesigner.tsx] (desktop), of the component
    [MobileCanvasDesignerV2] and of [src/components/MobilePolygonCanvas.tsx].

    Conventions.
    - A JavaScript [number] is modelled by an exact rational [Q]; rounding of
      IEEE doubles is not modelled.  [Math.round v] is [floor (v + 1/2)].
    - [Math.sqrt(s) < t] and [Math.hypot(dx, dy) <= t] for a positive [t] are
      written on the squares, [s < t * t] and [s <= t * t].
    - A React component is a record of its [useState] cells; a handler is a
      function from the cells (as seen by the handler) and the event to the
      cells after the handler's setter calls.  [toast(...)] appends to a log.
    - [Date.now()] is an argument of the handlers that read the clock; in the
      mobile handlers one reading serves a whole handler run.
    - The canvas element is mounted ([canvasRef.current] is not null).
      Drawing code ([drawCanvas], the Fabric objects) is not modelled. *)

From Stdlib Require Import QArith Qround Qabs ZArith List String Ascii Bool Lia Lqa.
From Stdlib Require Import DecimalString.
Import ListNotations.

Local Open Scope string_scope.
Local Open Scope list_scope.
Local Open Scope Q_scope.

(** ** Numbers *)

Definition Qlt_bool (a b : Q) : bool := negb (Qle_bool b a).
Definition Qgt_bool (a b : Q) : bool := Qlt_bool b a.
Definition Qge_bool (a b : Q) : bool := Qle_bool b a.

(** [Math.round]: the nearest integer, halves rounded towards +infinity. *)
Definition Math_round (v : Q) : Q := inject_Z (Qfloor (v + (1#2))).

Definition Math_max (a b : Q) : Q := if Qle_bool a b then b else a.
Definition Math_min (a b : Q) : Q := if Qle_bool a b then a else b.

(** [`${n}`] for an integral number. *)
Definition show_Z (n : Z) : string := NilZero.string_of_int (Z.to_int n).

(** ** Data model (interfaces [Point], [FurnitureItem], [AreaData]) *)

Module Point.
Record t : Type := mk { x : Q; y : Q }.
End Point.

Module Size.
Record t : Type := mk { width : Q; height : Q }.
End Size.

Module FurnitureItem.
Record t : Type := mk {
  id : string;
  name : string;
  position : Point.t;
  areaId : string;
  size : Size.t;
  color : option string      (* [color?: string] *)
}.
End FurnitureItem.

Module AreaData.
Record t : Type := mk {
  id : string;
  type : string;
  points : list Point.t;
  areaSqFt : Q;
  color : string;
  furniture : option (list FurnitureItem.t)   (* [furniture?: ...] *)
}.
End AreaData.

(** [area.furniture || []] *)
Definition furniture_or_empty (a : AreaData.t) : list FurnitureItem.t :=
  match AreaData.furniture a with Some l => l | None => [] end.

(** What a mouse event or one touch carries, and the canvas' bounding
    rectangle as [getBoundingClientRect()] returns it. *)
Record ClientPoint : Type := mkClient { clientX : Q; clientY : Q }.
Record DOMRect : Type := mkRect { left : Q; top : Q }.

(** ** Geometry kernel *)

Definition GRID_SIZE : Q := 20.

Definition snapToGrid (value : Q) : Q := Math_round (value / GRID_SIZE) * GRID_SIZE.

Definition getAreaColor (areaType : string) : string :=
  if String.eqb areaType "bedroom" then "#3b82f6"
  else if String.eqb areaType "washroom" then "#06b6d4"
  else if String.eqb areaType "kitchen" then "#ef4444"
  else if String.eqb areaType "living-room" then "#10b981"
  else if String.eqb areaType "balcony" then "#84cc16"
  else if String.eqb areaType "lobby" then "#f59e0b"
  else if String.eqb areaType "stairs" then "#6b7280"
  else if String.eqb areaType "entrance" then "#8b5cf6"
  else "#6b7280".

Definition getAreaName (areaType : string) : string :=
  if String.eqb areaType "bedroom" then "Bedroom"
  else if String.eqb areaType "washroom" then "Washroom"
  else if String.eqb areaType "kitchen" then "Kitchen"
  else if String.eqb areaType "living-room" then "Living Room"
  else if String.eqb areaType "balcony" then "Balcony"
  else if String.eqb areaType "lobby" then "Lobby"
  else if String.eqb areaType "stairs" then "Stairs"
  else if String.eqb areaType "entrance" then "Entrance"
  else "Area".

(** The shoelace loop [for i: j = (i+1) % n; area += xi*yj; area -= xj*yi]:
    [first] is [points[0]], the wrap-around partner of the last vertex. *)
Fixpoint shoelace (first : Point.t) (pts : list Point.t) (area : Q) : Q :=
  match pts with
  | [] => area
  | pi :: rest =>
      let pj := match rest with [] => first | q :: _ => q end in
      shoelace first rest
        (area + Point.x pi * Point.y pj - Point.x pj * Point.y pi)
  end.

Definition calculatePolygonArea (points : list Point.t) : Q :=
  if (List.length points <? 3)%nat then 0
  else
    let area := shoelace (hd (Point.mk 0 0) points) points 0 in
    let area := Qabs area / 2 in
    let areaInSqFt := area / (GRID_SIZE * GRID_SIZE) in
    Math_round areaInSqFt.

(** The test of one edge [(polygon[i], polygon[j])] in [isPointInPolygon].
    [&&] short-circuits, so the division only happens when the two
    ordinates differ. *)
Definition edge_crossed (point pi pj : Point.t) : bool :=
  negb (Bool.eqb (Qgt_bool (Point.y pi) (Point.y point))
                 (Qgt_bool (Point.y pj) (Point.y point)))
  && Qlt_bool (Point.x point)
       ((Point.x pj - Point.x pi) * (Point.y point - Point.y pi)
          / (Point.y pj - Point.y pi) + Point.x pi).

(** [for (i = 0, j = n - 1; i < n; j = i++)]: [pj] is the previous vertex. *)
Fixpoint crossing_loop (point pj : Point.t) (rest : list Point.t) (inside : bool) : bool :=
  match rest with
  | [] => inside
  | pi :: rest' =>
      crossing_loop point pi rest'
        (if edge_crossed point pi pj then negb inside else inside)
  end.

Definition isPointInPolygon (point : Point.t) (polygon : list Point.t) : bool :=
  crossing_loop point (last polygon (Point.mk 0 0)) polygon false.

Definition getFurnitureCorners (center : Point.t) (size : Size.t) : list Point.t :=
  let halfW := Size.width size / 2 in
  let halfH := Size.height size / 2 in
  [ Point.mk (Point.x center - halfW) (Point.y center - halfH);
    Point.mk (Point.x center + halfW) (Point.y center - halfH);
    Point.mk (Point.x center - halfW) (Point.y center + halfH);
    Point.mk (Point.x center + halfW) (Point.y center + halfH) ].

Definition areCornersInsideArea (areaPoints : list Point.t) (center : Point.t)
    (size : Size.t) : bool :=
  forallb (fun corner => isPointInPolygon corner areaPoints)
          (getFurnitureCorners center size).


(** [dx * dx + dy * dy], the square of [Math.hypot(dx, dy)] and of
    [Math.sqrt(Math.pow(dx, 2) + Math.pow(dy, 2))]. *)
Definition dist2 (p q : Point.t) : Q :=
  (Point.x p - Point.x q) * (Point.x p - Point.x q)
  + (Point.y p - Point.y q) * (Point.y p - Point.y q).

(** ** JavaScript values, as [JSON.parse] returns them *)

Module Js.

#[warnings="-register-all"]
Inductive value : Type :=
| Undefined
| Null
| Bool (b : bool)
| Num (n : Q)
| Str (s : string)
| Arr (items : list value)
| Obj (props : list (string * value)).   (* own properties, keys distinct *)

(** The value as a condition: [undefined], [null], [false], [0] and the
    empty string are falsy. *)
Definition truthy (v : value) : bool :=
  match v with
  | Undefined | Null => false
  | Bool b => b
  | Num n => negb (Qeq_bool n 0)
  | Str s => negb (String.eqb s EmptyString)
  | Arr _ | Obj _ => true
  end.

Definition isArray (v : value) : bool :=
  match v with Arr _ => true | _ => false end.

Definition isNullish (v : value) : bool :=
  match v with Undefined | Null => true | _ => false end.

Fixpoint lookup (key : string) (props : list (string * value)) : value :=
  match props with
  | [] => Undefined
  | (k, v) :: rest => if String.eqb k key then v else lookup key rest
  end.

(** The run of a piece of handler code: it completes with a value, throws
    (a [TypeError], caught by the handler's [try]), or leaves the fragment
    this development types ([NaN], a non-string in a string field, a
    coercion of a string or object to a number). *)
Inductive outcome (A : Type) : Type :=
| Done (a : A)
| Throws
| Unmodelled.
Arguments Done {A} a.
Arguments Throws {A}.
Arguments Unmodelled {A}.

Definition bind {A B : Type} (m : outcome A) (k : A -> outcome B) : outcome B :=
  match m with
  | Done a => k a
  | Throws => Throws
  | Unmodelled => Unmodelled
  end.

Fixpoint mapM {A B : Type} (f : A -> outcome B) (l : list A) : outcome (list B) :=
  match l with
  | [] => Done []
  | a :: rest => bind (f a) (fun b => bind (mapM f rest) (fun bs => Done (b :: bs)))
  end.

(** [v.key] for a data key (none of the keys read here is a member of a
    built-in prototype): a [TypeError] on [null] and [undefined]. *)
Definition get (key : string) (v : value) : outcome value :=
  match v with
  | Undefined | Null => Throws
  | Obj props => Done (lookup key props)
  | _ => Done Undefined
  end.

(** [v?.key] *)
Definition getOpt (key : string) (v : value) : value :=
  match v with
  | Obj props => lookup key props
  | _ => Undefined
  end.

(** [a ?? b] *)
Definition nullish (a b : value) : value := if isNullish a then b else a.

(** A value used as a number operand; only numbers are in the fragment. *)
Definition asNum (v : value) : outcome Q :=
  match v with Num n => Done n | _ => Unmodelled end.

(** [v || fallback] in a string field. *)
Definition strOr (v : value) (fallback : string) : outcome string :=
  if truthy v then match v with Str s => Done s | _ => Unmodelled end
  else Done fallback.

(** [(v || []).map(f)] *)
Definition mapOrEmpty {B : Type} (v : value) (f : value -> outcome B) : outcome (list B) :=
  if truthy v then match v with Arr items => mapM f items | _ => Throws end
  else Done [].

End Js.

Notation "x <- m ;; k" := (Js.bind m (fun x => k))
  (at level 61, m at next level, right associativity).

(** ** The desktop component [CanvasDesigner] *)

Module Desktop.

Inductive Handle : Type := NW | NE | SW | SE.

(** [resizeHandle.includes(c)] for the four handle keys. *)
Definition includes_e (h : Handle) : bool := match h with NE | SE => true | _ => false end.
Definition includes_w (h : Handle) : bool := match h with NW | SW => true | _ => false end.
Definition includes_s (h : Handle) : bool := match h with SW | SE => true | _ => false end.
Definition includes_n (h : Handle) : bool := match h with NW | NE => true | _ => false end.

Inductive InteractionMode : Type := ModeArea | ModeFurniture | ModeEditing.


Record State : Type := mkState {
  areas : list AreaData.t;
  zoomLevel : Q;
  panOffset : Point.t;
  selectedAreaType : string;
  isDrawingPolygon : bool;
  currentPolygon : list Point.t;
  selectedFurniture : option string;
  selectedArea : option string;
  isPlacingFurniture : bool;
  draggedFurniture : option string;
  isDraggingFurniture : bool;
  dragStartPos : Point.t;
  selectedFurnitureItem : option string;
  isResizingFurniture : bool;
  resizingFurnitureId : option string;
  resizeHandle : option Handle;
  showResizeHandles : option string;
  interactionMode : InteractionMode;
  lastClickTime : Z;
  toasts : list string
}.

(** The [useState] setters. *)
Definition setAreas (v : list AreaData.t) (s : State) : State :=
  mkState v (zoomLevel s) (panOffset s) (selectedAreaType s) (isDrawingPolygon s)
    (currentPolygon s) (selectedFurniture s) (selectedArea s) (isPlacingFurniture s)
    (draggedFurniture s) (isDraggingFurniture s) (dragStartPos s)
    (selectedFurnitureItem s) (isResizingFurniture s) (resizingFurnitureId s)
    (resizeHandle s) (showResizeHandles s) (interactionMode s) (lastClickTime s)
    (toasts s).
Definition setZoomLevel (v : Q) (s : State) : State :=
  mkState (areas s) v (panOffset s) (selectedAreaType s) (isDrawingPolygon s)
    (currentPolygon s) (selectedFurniture s) (selectedArea s) (isPlacingFurniture s)
    (draggedFurniture s) (isDraggingFurniture s) (dragStartPos s)
    (selectedFurnitureItem s) (isResizingFurniture s) (resizingFurnitureId s)
    (resizeHandle s) (showResizeHandles s) (interactionMode s) (lastClickTime s)
    (toasts s).
Definition setPanOffset (v : Point.t) (s : State) : State :=
  mkState (areas s) (zoomLevel s) v (selectedAreaType s) (isDrawingPolygon s)
    (currentPolygon s) (selectedFurniture s) (selectedArea s) (isPlacingFurniture s)
    (draggedFurniture s) (isDraggingFurniture s) (dragStartPos s)
    (selectedFurnitureItem s) (isResizingFurniture s) (resizingFurnitureId s)
    (resizeHandle s) (showResizeHandles s) (interactionMode s) (lastClickTime s)
    (toasts s).
Definition setSelectedAreaType (v : string) (s : State) : State :=
  mkState (areas s) (zoomLevel s) (panOffset s) v (isDrawingPolygon s)
    (currentPolygon s) (selectedFurniture s) (selectedArea s) (isPlacingFurniture s)
    (draggedFurniture s) (isDraggingFurniture s) (dragStartPos s)
    (selectedFurnitureItem s) (isResizingFurniture s) (resizingFurnitureId s)
    (resizeHandle s) (showResizeHandles s) (interactionMode s) (lastClickTime s)
    (toasts s).
Definition setIsDrawingPolygon (v : bool) (s : State) : State :=
  mkState (areas s) (zoomLevel s) (panOffset s) (selectedAreaType s) v
    (currentPolygon s) (selectedFurniture s) (selectedArea s) (isPlacingFurniture s)
    (draggedFurniture s) (isDraggingFurniture s) (dragStartPos s)
    (selectedFurnitureItem s) (isResizingFurniture s) (resizingFurnitureId s)
    (resizeHandle s) (showResizeHandles s) (interactionMode s) (lastClickTime s)
    (toasts s).
Definition setCurrentPolygon (v : list Point.t) (s : State) : State :=
  mkState (areas s) (zoomLevel s) (panOffset s) (selectedAreaType s)
    (isDrawingPolygon s) v (selectedFurniture s) (selectedArea s)
    (isPlacingFurniture s) (draggedFurniture s) (isDraggingFurniture s)
    (dragStartPos s) (selectedFurnitureItem s) (isResizingFurniture s)
    (resizingFurnitureId s) (resizeHandle s) (showResizeHandles s) (interactionMode s)
    (lastClickTime s) (toasts s).
Definition setSelectedFurniture (v : option string) (s : State) : State :=
  mkState (areas s) (zoomLevel s) (panOffset s) (selectedAreaType s)
    (isDrawingPolygon s) (currentPolygon s) v (selectedArea s) (isPlacingFurniture s)
    (draggedFurniture s) (isDraggingFurniture s) (dragStartPos s)
    (selectedFurnitureItem s) (isResizingFurniture s) (resizingFurnitureId s)
    (resizeHandle s) (showResizeHandles s) (interactionMode s) (lastClickTime s)
    (toasts s).
Definition setSelectedArea (v : option string) (s : State) : State :=
  mkState (areas s) (zoomLevel s) (panOffset s) (selectedAreaType s)
    (isDrawingPolygon s) (currentPolygon s) (selectedFurniture s) v
    (isPlacingFurniture s) (draggedFurniture s) (isDraggingFurniture s)
    (dragStartPos s) (selectedFurnitureItem s) (isResizingFurniture s)
    (resizingFurnitureId s) (resizeHandle s) (showResizeHandles s) (interactionMode s)
    (lastClickTime s) (toasts s).
Definition setIsPlacingFurniture (v : bool) (s : State) : State :=
  mkState (areas s) (zoomLevel s) (panOffset s) (selectedAreaType s)
    (isDrawingPolygon s) (currentPolygon s) (selectedFurniture s) (selectedArea s) v
    (draggedFurniture s) (isDraggingFurniture s) (dragStartPos s)
    (selectedFurnitureItem s) (isResizingFurniture s) (resizingFurnitureId s)
    (resizeHandle s) (showResizeHandles s) (interactionMode s) (lastClickTime s)
    (toasts s).
Definition setDraggedFurniture (v : option string) (s : State) : State :=
  mkState (areas s) (zoomLevel s) (panOffset s) (selectedAreaType s)
    (isDrawingPolygon s) (currentPolygon s) (selectedFurniture s) (selectedArea s)
    (isPlacingFurniture s) v (isDraggingFurniture s) (dragStartPos s)
    (selectedFurnitureItem s) (isResizingFurniture s) (resizingFurnitureId s)
    (resizeHandle s) (showResizeHandles s) (interactionMode s) (lastClickTime s)
    (toasts s).
Definition setIsDraggingFurniture (v : bool) (s : State) : State :=
  mkState (areas s) (zoomLevel s) (panOffset s) (selectedAreaType s)
    (isDrawingPolygon s) (currentPolygon s) (selectedFurniture s) (selectedArea s)
    (isPlacingFurniture s) (draggedFurniture s) v (dragStartPos s)
    (selectedFurnitureItem s) (isResizingFurniture s) (resizingFurnitureId s)
    (resizeHandle s) (showResizeHandles s) (interactionMode s) (lastClickTime s)
    (toasts s).
Definition setDragStartPos (v : Point.t) (s : State) : State :=
  mkState (areas s) (zoomLevel s) (panOffset s) (selectedAreaType s)
    (isDrawingPolygon s) (currentPolygon s) (selectedFurniture s) (selectedArea s)
    (isPlacingFurniture s) (draggedFurniture s) (isDraggingFurniture s) v
    (selectedFurnitureItem s) (isResizingFurniture s) (resizingFurnitureId s)
    (resizeHandle s) (showResizeHandles s) (interactionMode s) (lastClickTime s)
    (toasts s).
Definition setSelectedFurnitureItem (v : option string) (s : State) : State :=
  mkState (areas s) (zoomLevel s) (panOffset s) (selectedAreaType s)
    (isDrawingPolygon s) (currentPolygon s) (selectedFurniture s) (selectedArea s)
    (isPlacingFurniture s) (draggedFurniture s) (isDraggingFurniture s)
    (dragStartPos s) v (isResizingFurniture s) (resizingFurnitureId s)
    (resizeHandle s) (showResizeHandles s) (interactionMode s) (lastClickTime s)
    (toasts s).
Definition setIsResizingFurniture (v : bool) (s : State) : State :=
  mkState (areas s) (zoomLevel s) (panOffset s) (selectedAreaType s)
    (isDrawingPolygon s) (currentPolygon s) (selectedFurniture s) (selectedArea s)
    (isPlacingFurniture s) (draggedFurniture s) (isDraggingFurniture s)
    (dragStartPos s) (selectedFurnitureItem s) v (resizingFurnitureId s)
    (resizeHandle s) (showResizeHandles s) (interactionMode s) (lastClickTime s)
    (toasts s).
Definition setResizingFurnitureId (v : option string) (s : State) : State :=
  mkState (areas s) (zoomLevel s) (panOffset s) (selectedAreaType s)
    (isDrawingPolygon s) (currentPolygon s) (selectedFurniture s) (selectedArea s)
    (isPlacingFurniture s) (draggedFurniture s) (isDraggingFurniture s)
    (dragStartPos s) (selectedFurnitureItem s) (isResizingFurniture s) v
    (resizeHandle s) (showResizeHandles s) (interactionMode s) (lastClickTime s)
    (toasts s).
Definition setResizeHandle (v : option Handle) (s : State) : State :=
  mkState (areas s) (zoomLevel s) (panOffset s) (selectedAreaType s)
    (isDrawingPolygon s) (currentPolygon s) (selectedFurniture s) (selectedArea s)
    (isPlacingFurniture s) (draggedFurniture s) (isDraggingFurniture s)
    (dragStartPos s) (selectedFurnitureItem s) (isResizingFurniture s)
    (resizingFurnitureId s) v (showResizeHandles s) (interactionMode s)
    (lastClickTime s) (toasts s).
Definition setShowResizeHandles (v : option string) (s : State) : State :=
  mkState (areas s) (zoomLevel s) (panOffset s) (selectedAreaType s)
    (isDrawingPolygon s) (currentPolygon s) (selectedFurniture s) (selectedArea s)
    (isPlacingFurniture s) (draggedFurniture s) (isDraggingFurniture s)
    (dragStartPos s) (selectedFurnitureItem s) (isResizingFurniture s)
    (resizingFurnitureId s) (resizeHandle s) v (interactionMode s) (lastClickTime s)
    (toasts s).
Definition setInteractionMode (v : InteractionMode) (s : State) : State :=
  mkState (areas s) (zoomLevel s) (panOffset s) (selectedAreaType s)
    (isDrawingPolygon s) (currentPolygon s) (selectedFurniture s) (selectedArea s)
    (isPlacingFurniture s) (draggedFurniture s) (isDraggingFurniture s)
    (dragStartPos s) (selectedFurnitureItem s) (isResizingFurniture s)
    (resizingFurnitureId s) (resizeHandle s) (showResizeHandles s) v (lastClickTime s)
    (toasts s).
Definition setLastClickTime (v : Z) (s : State) : State :=
  mkState (areas s) (zoomLevel s) (panOffset s) (selectedAreaType s)
    (isDrawingPolygon s) (currentPolygon s) (selectedFurniture s) (selectedArea s)
    (isPlacingFurniture s) (draggedFurniture s) (isDraggingFurniture s)
    (dragStartPos s) (selectedFurnitureItem s) (isResizingFurniture s)
    (resizingFurnitureId s) (resizeHandle s) (showResizeHandles s) (interactionMode s)
    v (toasts s).
Definition setToasts (v : list string) (s : State) : State :=
  mkState (areas s) (zoomLevel s) (panOffset s) (selectedAreaType s)
    (isDrawingPolygon s) (currentPolygon s) (selectedFurniture s) (selectedArea s)
    (isPlacingFurniture s) (draggedFurniture s) (isDraggingFurniture s)
    (dragStartPos s) (selectedFurnitureItem s) (isResizingFurniture s)
    (resizingFurnitureId s) (resizeHandle s) (showResizeHandles s) (interactionMode s)
    (lastClickTime s) v.

Definition toast (msg : string) (s : State) : State := setToasts (toasts s ++ [msg]) s.

Definition initial : State :=
  mkState [] 1 (Point.mk 0 0) "bedroom" false [] None None false None false
    (Point.mk 0 0) None false None None None ModeArea 0%Z [].

(** A string-valued cell used as a condition: [null] and the empty string
    are falsy. *)
Definition truthy (o : option string) : option string :=
  match o with
  | Some s => if String.eqb s EmptyString then None else Some s
  | None => None
  end.

(** *** Coordinate transform *)

(** The local [x] / [y] of [getMousePos], before snapping. *)
Definition worldX (zoom : Q) (pan : Point.t) (rect : DOMRect) (e : ClientPoint) : Q :=
  (clientX e - left rect) / zoom - Point.x pan.
Definition worldY (zoom : Q) (pan : Point.t) (rect : DOMRect) (e : ClientPoint) : Q :=
  (clientY e - top rect) / zoom - Point.y pan.

Definition getMousePos (s : State) (rect : DOMRect) (e : ClientPoint) : Point.t :=
  Point.mk (snapToGrid (worldX (zoomLevel s) (panOffset s) rect e))
           (snapToGrid (worldY (zoomLevel s) (panOffset s) rect e)).

(** [toScreenX] / [toScreenY] of [drawCanvas]. *)
Definition toScreenX (zoom : Q) (pan : Point.t) (wx : Q) : Q := (wx + Point.x pan) * zoom.
Definition toScreenY (zoom : Q) (pan : Point.t) (wy : Q) : Q := (wy + Point.y pan) * zoom.

(** *** Furniture lookup *)

Definition allFurniture (areas : list AreaData.t) : list FurnitureItem.t :=
  flat_map furniture_or_empty areas.

Definition findFurniture (areas : list AreaData.t) (fid : string) : option FurnitureItem.t :=
  find (fun f => String.eqb (FurnitureItem.id f) fid) (allFurniture areas).

Definition findArea (areas : list AreaData.t) (aid : string) : option AreaData.t :=
  find (fun a => String.eqb (AreaData.id a) aid) areas.

Definition rectContains (point : Point.t) (furniture : FurnitureItem.t) : bool :=
  let halfWidth := Size.width (FurnitureItem.size furniture) / 2 in
  let halfHeight := Size.height (FurnitureItem.size furniture) / 2 in
  Qge_bool (Point.x point) (Point.x (FurnitureItem.position furniture) - halfWidth)
  && Qle_bool (Point.x point) (Point.x (FurnitureItem.position furniture) + halfWidth)
  && Qge_bool (Point.y point) (Point.y (FurnitureItem.position furniture) - halfHeight)
  && Qle_bool (Point.y point) (Point.y (FurnitureItem.position furniture) + halfHeight).

Fixpoint getFurnitureAtPoint (areas : list AreaData.t) (point : Point.t)
    : option FurnitureItem.t :=
  match areas with
  | [] => None
  | area :: rest =>
      match find (rectContains point) (furniture_or_empty area) with
      | Some furniture => Some furniture
      | None => getFurnitureAtPoint rest point
      end
  end.

(** *** Furniture edits: each maps over every area and every item *)

Definition mapFurniture (f : FurnitureItem.t -> FurnitureItem.t)
    (areas : list AreaData.t) : list AreaData.t :=
  map (fun area =>
         AreaData.mk (AreaData.id area) (AreaData.type area) (AreaData.points area)
           (AreaData.areaSqFt area) (AreaData.color area)
           (option_map (map f) (AreaData.furniture area)))
      areas.

Definition withPosition (p : Point.t) (f : FurnitureItem.t) : FurnitureItem.t :=
  FurnitureItem.mk (FurnitureItem.id f) (FurnitureItem.name f) p
    (FurnitureItem.areaId f) (FurnitureItem.size f) (FurnitureItem.color f).
Definition withSize (sz : Size.t) (f : FurnitureItem.t) : FurnitureItem.t :=
  FurnitureItem.mk (FurnitureItem.id f) (FurnitureItem.name f) (FurnitureItem.position f)
    (FurnitureItem.areaId f) sz (FurnitureItem.color f).
Definition withName (n : string) (f : FurnitureItem.t) : FurnitureItem.t :=
  FurnitureItem.mk (FurnitureItem.id f) n (FurnitureItem.position f)
    (FurnitureItem.areaId f) (FurnitureItem.size f) (FurnitureItem.color f).
Definition withColor (c : string) (f : FurnitureItem.t) : FurnitureItem.t :=
  FurnitureItem.mk (FurnitureItem.id f) (FurnitureItem.name f) (FurnitureItem.position f)
    (FurnitureItem.areaId f) (FurnitureItem.size f) (Some c).

Definition onItem (fid : string) (upd : FurnitureItem.t -> FurnitureItem.t)
    (f : FurnitureItem.t) : FurnitureItem.t :=
  if String.eqb (FurnitureItem.id f) fid then upd f else f.

Definition renameFurniture (furnitureId newName : string) (s : State) : State :=
  toast "Furniture renamed"
    (setAreas (mapFurniture (onItem furnitureId (withName newName)) (areas s)) s).

Definition resizeFurniture (furnitureId : string) (newSize : Size.t) (s : State) : State :=
  setAreas (mapFurniture (onItem furnitureId (withSize newSize)) (areas s)) s.

Definition changeFurnitureColor (furnitureId newColor : string) (s : State) : State :=
  setAreas (mapFurniture (onItem furnitureId (withColor newColor)) (areas s)) s.

Definition deleteFurniture (furnitureId : string) (s : State) : State :=
  toast "Furniture deleted"
    (setSelectedFurnitureItem None
       (setAreas
          (map (fun area =>
                  AreaData.mk (AreaData.id area) (AreaData.type area) (AreaData.points area)
                    (AreaData.areaSqFt area) (AreaData.color area)
                    (option_map
                       (filter (fun f => negb (String.eqb (FurnitureItem.id f) furnitureId)))
                       (AreaData.furniture area)))
               (areas s))
          s)).

(** *** Pointer move: handle resize and drag *)

Definition clampSize (v : Q) : Q := Math_max 20 (Math_min 300 v).

(** The candidate [{ width: newWidth, height: newHeight }] of the resize
    branch; the four [if]s run in the order e, w, s, n. *)
Definition proposedSize (h : Handle) (item : FurnitureItem.t) (point : Point.t) : Size.t :=
  let pos := FurnitureItem.position item in
  let newWidth := Size.width (FurnitureItem.size item) in
  let newHeight := Size.height (FurnitureItem.size item) in
  let newWidth := if includes_e h then clampSize ((Point.x point - Point.x pos) * 2) else newWidth in
  let newWidth := if includes_w h then clampSize ((Point.x pos - Point.x point) * 2) else newWidth in
  let newHeight := if includes_s h then clampSize ((Point.y point - Point.y pos) * 2) else newHeight in
  let newHeight := if includes_n h then clampSize ((Point.y pos - Point.y point) * 2) else newHeight in
  Size.mk newWidth newHeight.

(** The resize branch, entered when
    [isResizingFurniture && resizingFurnitureId && resizeHandle]. *)
Definition resizeMove (rid : string) (h : Handle) (point : Point.t) (s : State) : State :=
  match findFurniture (areas s) rid with
  | None => s
  | Some item =>
      match findArea (areas s) (FurnitureItem.areaId item) with
      | None => s
      | Some area =>
          let proposed := proposedSize h item point in
          if areCornersInsideArea (AreaData.points area) (FurnitureItem.position item) proposed
          then resizeFurniture (FurnitureItem.id item) proposed s
          else s
      end
  end.

(** The drag branch, entered when [isDraggingFurniture && draggedFurniture]. *)
Definition dragMove (did : string) (point : Point.t) (s : State) : State :=
  match findFurniture (areas s) did with
  | None => s
  | Some draggedItem =>
      match findArea (areas s) (FurnitureItem.areaId draggedItem) with
      | None => s
      | Some area =>
          if negb (areCornersInsideArea (AreaData.points area) point
                     (FurnitureItem.size draggedItem))
          then s
          else setAreas (mapFurniture (onItem did (withPosition point)) (areas s)) s
      end
  end.

(** [handleCanvasMouseMove] once [point = getMousePos(e)] is known. *)
Definition mouseMoveAt (point : Point.t) (s : State) : State :=
  match isResizingFurniture s, truthy (resizingFurnitureId s), resizeHandle s with
  | true, Some rid, Some h => resizeMove rid h point s
  | _, _, _ =>
      match isDraggingFurniture s, truthy (draggedFurniture s) with
      | true, Some did => dragMove did point s
      | _, _ => s
      end
  end.

Definition handleCanvasMouseMove (rect : DOMRect) (e : ClientPoint) (s : State) : State :=
  mouseMoveAt (getMousePos s rect e) s.

Definition handleCanvasMouseUp (s : State) : State :=
  setResizeHandle None
    (setResizingFurnitureId None
       (setIsResizingFurniture false
          (setDragStartPos (Point.mk 0 0)
             (setDraggedFurniture None (setIsDraggingFurniture false s))))).


(** *** Pointer down: resize handle first, then furniture *)


Definition handlesOf (furniture : FurnitureItem.t) : list (Handle * Point.t) :=
  let halfW := Size.width (FurnitureItem.size furniture) / 2 in
  let halfH := Size.height (FurnitureItem.size furniture) / 2 in
  let center := FurnitureItem.position furniture in
  [ (NW, Point.mk (Point.x center - halfW) (Point.y center - halfH));
    (NE, Point.mk (Point.x center + halfW) (Point.y center - halfH));
    (SW, Point.mk (Point.x center - halfW) (Point.y center + halfH));
    (SE, Point.mk (Point.x center + halfW) (Point.y center + halfH)) ].

Definition isSelected (sel : option string) (furniture : FurnitureItem.t) : bool :=
  match sel with
  | Some fid => String.eqb fid (FurnitureItem.id furniture)
  | None => false
  end.

Fixpoint handleHitIn (sel : option string) (hitRadius : Q) (point : Point.t)
    (items : list FurnitureItem.t) : option (string * Handle) :=
  match items with
  | [] => None
  | furniture :: rest =>
      if negb (isSelected sel furniture) then handleHitIn sel hitRadius point rest
      else
        match find (fun h => Qle_bool (dist2 point (snd h)) (hitRadius * hitRadius))
                   (handlesOf furniture) with
        | Some h => Some (FurnitureItem.id furniture, fst h)
        | None => handleHitIn sel hitRadius point rest
        end
  end.

Definition getResizeHandleHit (s : State) (point : Point.t) : option (string * Handle) :=
  let hitRadius := Math_max 30 (35 / zoomLevel s) in
  handleHitIn (selectedFurnitureItem s) hitRadius point (allFurniture (areas s)).

Definition mouseDownAt (point : Point.t) (s : State) : State :=
  match getResizeHandleHit s point with
  | Some (fid, h) =>
      setResizeHandle (Some h)
        (setResizingFurnitureId (Some fid)
           (setIsResizingFurniture true (setSelectedFurnitureItem (Some fid) s)))
  | None =>
      match getFurnitureAtPoint (areas s) point with
      | Some clickedFurniture =>
          setIsDraggingFurniture true
            (setDragStartPos point
               (setDraggedFurniture (Some (FurnitureItem.id clickedFurniture))
                  (setSelectedFurnitureItem (Some (FurnitureItem.id clickedFurniture)) s)))
      | None => setSelectedFurnitureItem None s
      end
  end.

Definition handleCanvasMouseDown (rect : DOMRect) (e : ClientPoint) (s : State) : State :=
  mouseDownAt (getMousePos s rect e) s.

(** *** Placement *)

Definition lower_ascii (c : ascii) : ascii :=
  let n := nat_of_ascii c in
  if ((65 <=? n) && (n <=? 90))%nat then ascii_of_nat (n + 32) else c.

(** [toLowerCase] on the ASCII letters, the only ones the colour table keys use. *)
Fixpoint toLowerCase (s : string) : string :=
  match s with
  | EmptyString => EmptyString
  | String c rest => String (lower_ascii c) (toLowerCase rest)
  end.

(** [defaultColors[key] || "#8B4513"] *)
Definition defaultColor (key : string) : string :=
  if String.eqb key "bed" then "#8B4513"
  else if String.eqb key "wardrobe" then "#654321"
  else if String.eqb key "dresser" then "#A0522D"
  else if String.eqb key "nightstand" then "#DEB887"
  else if String.eqb key "sofa" then "#4A90E2"
  else if String.eqb key "chair" then "#50C878"
  else if String.eqb key "table" then "#DEB887"
  else if String.eqb key "tv" then "#2C2C2C"
  else if String.eqb key "sink" then "#808080"
  else if String.eqb key "refrigerator" then "#2C3E50"
  else if String.eqb key "stove" then "#C0392B"
  else "#8B4513".

(** [{ ...area, furniture: [...(area.furniture || []), item] }] on every
    area whose id is [aid]. *)
Definition appendFurniture (aid : string) (item : FurnitureItem.t)
    (areas : list AreaData.t) : list AreaData.t :=
  map (fun area =>
         if String.eqb (AreaData.id area) aid
         then AreaData.mk (AreaData.id area) (AreaData.type area) (AreaData.points area)
                (AreaData.areaSqFt area) (AreaData.color area)
                (Some (furniture_or_empty area ++ [item]))
         else area)
      areas.

Definition newFurnitureItem (now : Z) (name : string) (position : Point.t)
    (aid : string) : FurnitureItem.t :=
  FurnitureItem.mk (String.append "furniture-" (show_Z now)) name position aid
    (Size.mk 30 30) (Some (defaultColor (toLowerCase name))).

Definition placeFurniture (position : Point.t) (now : Z) (s : State) : State :=
  match truthy (selectedFurniture s), truthy (selectedArea s) with
  | Some sf, Some sa =>
      match findArea (areas s) sa with
      | Some area =>
          if isPointInPolygon position (AreaData.points area)
          then
            toast (String.append sf (String.append " placed in " (getAreaName (AreaData.type area))))
              (setIsPlacingFurniture false
                 (setSelectedArea None
                    (setSelectedFurniture None
                       (setAreas (appendFurniture sa (newFurnitureItem now sf position sa)
                                    (areas s))
                          s))))
          else toast "Please click inside the selected area" s
      | None => toast "Please click inside the selected area" s
      end
  | _, _ => s
  end.

Definition handleFurnitureSelect (furnitureName areaId : string) (s : State) : State :=
  toast (String.append "Click inside the area to place " furnitureName)
    (setInteractionMode ModeFurniture
       (setIsPlacingFurniture true
          (setSelectedArea (Some areaId) (setSelectedFurniture (Some furnitureName) s)))).

(** *** Click: placement, selection, polygon drawing *)

Definition newArea (now : Z) (areaType : string) (pts : list Point.t) : AreaData.t :=
  AreaData.mk (String.append "area-" (show_Z now)) areaType pts
    (calculatePolygonArea pts) (getAreaColor areaType) None.

(** The close branch of the drawing session. *)
Definition closePolygon (now : Z) (s : State) : State :=
  let area := newArea now (selectedAreaType s) (currentPolygon s) in
  toast (String.append (getAreaName (selectedAreaType s))
           (String.append " created ("
              (String.append (show_Z (Qfloor (AreaData.areaSqFt area))) " sq ft)")))
    (setIsDrawingPolygon false
       (setCurrentPolygon [] (setAreas (areas s ++ [area]) s))).

(** [currentPolygon.length > 2] and [distance < 10] to [currentPolygon[0]]. *)
Definition closesPolygon (poly : list Point.t) (point : Point.t) : bool :=
  (2 <? List.length poly)%nat
  && match poly with
     | firstPoint :: _ => Qlt_bool (dist2 point firstPoint) (10 * 10)
     | [] => false
     end.

Definition drawingClick (point : Point.t) (now : Z) (s : State) : State :=
  if isDrawingPolygon s then
    if closesPolygon (currentPolygon s) point then closePolygon now s
    else setCurrentPolygon (currentPolygon s ++ [point]) s
  else setIsDrawingPolygon true (setCurrentPolygon [point] s).

Definition sameSelection (sel : option string) (fid : string) : bool :=
  match sel with Some x => String.eqb x fid | None => false end.

(** [handleCanvasClick] once [point = getMousePos(e)] is known;
    [currentTime] is the handler's [Date.now()], [now] the later reading
    that names a created item or area. *)
Definition clickAt (point : Point.t) (currentTime now : Z) (s : State) : State :=
  let isDoubleClick := (currentTime - lastClickTime s <? 300)%Z in
  let s1 := setLastClickTime currentTime s in
  if isPlacingFurniture s then placeFurniture point now s1
  else
    match getFurnitureAtPoint (areas s) point with
    | Some clickedFurniture =>
        let fid := FurnitureItem.id clickedFurniture in
        if isDoubleClick && sameSelection (selectedFurnitureItem s) fid then
          let shown := sameSelection (showResizeHandles s) fid in
          toast (String.append "Double-click detected - Resize handles "
                   (if shown then "hidden" else "shown"))
            (setShowResizeHandles (if shown then None else Some fid) s1)
        else
          setInteractionMode ModeFurniture
            (setShowResizeHandles None (setSelectedFurnitureItem (Some fid) s1))
    | None =>
        let s2 := setShowResizeHandles None (setSelectedFurnitureItem None s1) in
        match interactionMode s with
        | ModeArea => drawingClick point now s2
        | _ => s2
        end
    end.

Definition handleCanvasClick (rect : DOMRect) (e : ClientPoint) (currentTime now : Z)
    (s : State) : State :=
  clickAt (getMousePos s rect e) currentTime now s.

(** *** Session and view buttons *)

Definition cancelCurrentPolygon (s : State) : State :=
  setIsDrawingPolygon false (setCurrentPolygon [] s).

(** [prev.slice(0, n)] *)
Definition slice0 {A : Type} (n : nat) (l : list A) : list A := firstn n l.

Definition undoLastVertex (s : State) : State :=
  if (0 <? List.length (currentPolygon s))%nat then
    let s1 := setCurrentPolygon
                (slice0 (List.length (currentPolygon s) - 1) (currentPolygon s)) s in
    let s2 := if (List.length (currentPolygon s) =? 1)%nat
              then setIsDrawingPolygon false s1 else s1 in
    toast "Last vertex removed" s2
  else s.

Definition undoMultipleVertices (steps : nat) (s : State) : State :=
  if (0 <? List.length (currentPolygon s))%nat then
    let newLength := (List.length (currentPolygon s) - steps)%nat in
    let s1 := setCurrentPolygon (slice0 newLength (currentPolygon s)) s in
    let s2 := if (newLength =? 0)%nat then setIsDrawingPolygon false s1 else s1 in
    toast (String.append "Removed "
             (String.append (show_Z (Z.of_nat (Nat.min steps (List.length (currentPolygon s)))))
                " vertices")) s2
  else s.

Definition clearCanvas (s : State) : State :=
  toast "Canvas cleared"
    (setIsPlacingFurniture false
       (setSelectedArea None
          (setSelectedFurniture None
             (setIsDrawingPolygon false (setCurrentPolygon [] (setAreas [] s)))))).

Definition handleZoomIn (s : State) : State :=
  setZoomLevel (Math_min (zoomLevel s * (12 # 10)) 3) s.
Definition handleZoomOut (s : State) : State :=
  setZoomLevel (Math_max (zoomLevel s / (12 # 10)) (3 # 10)) s.


(** [onRoomTypeSelect] of the room toolbar and the placement card's Cancel. *)
Definition handleRoomTypeSelect (areaType : string) (s : State) : State :=
  toast "Area drawing mode enabled"
    (setSelectedFurnitureItem None
       (setInteractionMode ModeArea (setSelectedAreaType areaType s))).

Definition cancelPlacement (s : State) : State :=
  setSelectedArea None (setSelectedFurniture None (setIsPlacingFurniture false s)).

(** *** The interactive events of the component, as the JSX wires them.
    The wheel handler (zoom and pan only) and the JSON import are not among
    them; the import follows. *)
Inductive Event : Type :=
| Click (rect : DOMRect) (e : ClientPoint) (currentTime now : Z)
| MouseDown (rect : DOMRect) (e : ClientPoint)
| MouseMove (rect : DOMRect) (e : ClientPoint)
| MouseUp
| RenameFurniture (furnitureId newName : string)
| ResizeFurniture (furnitureId : string) (newSize : Size.t)
| ChangeFurnitureColor (furnitureId newColor : string)
| DeleteFurniture (furnitureId : string)
| FurnitureSelect (furnitureName areaId : string)
| RoomTypeSelect (areaType : string)
| CancelPlacement
| CancelCurrentPolygon
| UndoLastVertex
| UndoMultipleVertices
| ClearCanvas
| ZoomIn
| ZoomOut.

Definition step (ev : Event) (s : State) : State :=
  match ev with
  | Click rect e currentTime now => handleCanvasClick rect e currentTime now s
  | MouseDown rect e => handleCanvasMouseDown rect e s
  | MouseMove rect e => handleCanvasMouseMove rect e s
  | MouseUp => handleCanvasMouseUp s
  | RenameFurniture fid n => renameFurniture fid n s
  | ResizeFurniture fid sz => resizeFurniture fid sz s
  | ChangeFurnitureColor fid c => changeFurnitureColor fid c s
  | DeleteFurniture fid => deleteFurniture fid s
  | FurnitureSelect n aid => handleFurnitureSelect n aid s
  | RoomTypeSelect t => handleRoomTypeSelect t s
  | CancelPlacement => cancelPlacement s
  | CancelCurrentPolygon => cancelCurrentPolygon s
  | UndoLastVertex => undoLastVertex s
  | UndoMultipleVertices => undoMultipleVertices 2 s
  | ClearCanvas => clearCanvas s
  | ZoomIn => handleZoomIn s
  | ZoomOut => handleZoomOut s
  end.

(** *** JSON import *)

(** What the file input delivers: no file, a file whose text cannot be
    read, or a text on which [JSON.parse] throws ([None]) or returns. *)
Inductive FileInput : Type :=
| NoFile
| Unreadable
| Text (parsed : option Js.value).

(** The random tokens of [crypto.randomUUID()] for areas (by index) and
    furniture (by area and item index). *)
Record Entropy : Type := mkEntropy {
  areaToken : nat -> string;
  furnitureToken : nat -> nat -> string
}.

(** Member names of [Object.prototype]: on these a lookup in an object
    literal does not return a colour. *)
Definition protoKey (k : string) : bool :=
  existsb (String.eqb k)
    ["constructor"; "__proto__"; "hasOwnProperty"; "isPrototypeOf";
     "propertyIsEnumerable"; "toLocaleString"; "toString"; "valueOf";
     "__defineGetter__"; "__defineSetter__"; "__lookupGetter__"; "__lookupSetter__"].

(** [(Array.isArray(p) ? p[i] : p.kFt ?? p.k) * GRID_SIZE] *)
Definition importCoord (i : nat) (kFt k : string) (p : Js.value) : Js.outcome Q :=
  match p with
  | Js.Arr items => n <- Js.asNum (nth i items Js.Undefined) ;; Js.Done (n * GRID_SIZE)
  | _ =>
      a <- Js.get kFt p ;;
      b <- (if Js.isNullish a then Js.get k p else Js.Done a) ;;
      n <- Js.asNum b ;;
      Js.Done (n * GRID_SIZE)
  end.

Definition importPoint (p : Js.value) : Js.outcome Point.t :=
  px <- importCoord 0 "xFt" "x" p ;;
  py <- importCoord 1 "yFt" "y" p ;;
  Js.Done (Point.mk px py).

(** [obj?.kFt ?? (typeof obj?.k === 'number' ? obj.k / GRID_SIZE : dflt)] *)
Definition importFeet (obj : Js.value) (kFt k : string) (dflt : Q) : Js.outcome Q :=
  let a := Js.getOpt kFt obj in
  if Js.isNullish a then
    match Js.getOpt k obj with
    | Js.Num n => Js.Done (n / GRID_SIZE)
    | _ => Js.Done dflt
    end
  else Js.asNum a.

Definition importFurniture (areaId : string) (token : string) (f : Js.value)
    : Js.outcome FurnitureItem.t :=
  position <- Js.get "position" f ;;
  size <- Js.get "size" f ;;
  posXFt <- importFeet position "xFt" "x" 0 ;;
  posYFt <- importFeet position "yFt" "y" 0 ;;
  widthFt <- importFeet size "widthFt" "width" (15 # 10) ;;
  heightFt <- importFeet size "heightFt" "height" (15 # 10) ;;
  fid <- Js.strOr (Js.getOpt "id" f) (String.append "furniture-" token) ;;
  fname <- Js.strOr (Js.getOpt "name" f) "item" ;;
  fcolor <- (let c := Js.getOpt "color" f in
             if Js.truthy c then match c with Js.Str s => Js.Done (Some s) | _ => Js.Unmodelled end
             else Js.Done None) ;;
  Js.Done (FurnitureItem.mk fid fname
             (Point.mk (posXFt * GRID_SIZE) (posYFt * GRID_SIZE)) areaId
             (Size.mk (Math_max 10 (widthFt * GRID_SIZE)) (Math_max 10 (heightFt * GRID_SIZE)))
             fcolor).

Fixpoint importFurnitureList (areaId : string) (tokens : nat -> string) (j : nat)
    (fs : list Js.value) : Js.outcome (list FurnitureItem.t) :=
  match fs with
  | [] => Js.Done []
  | f :: rest =>
      item <- importFurniture areaId (tokens j) f ;;
      items <- importFurnitureList areaId tokens (S j) rest ;;
      Js.Done (item :: items)
  end.

Definition importArea (rnd : Entropy) (i : nat) (a : Js.value) : Js.outcome AreaData.t :=
  rawId <- Js.get "id" a ;;
  aid <- Js.strOr rawId (String.append "area-" (areaToken rnd i)) ;;
  pts <- Js.mapOrEmpty (Js.getOpt "points" a) importPoint ;;
  atype <- match Js.getOpt "type" a with Js.Str s => Js.Done s | _ => Js.Unmodelled end ;;
  areaColor <- (let c := Js.getOpt "color" a in
                if Js.truthy c then match c with Js.Str s => Js.Done s | _ => Js.Unmodelled end
                else if protoKey atype then Js.Unmodelled
                else Js.Done (getAreaColor atype)) ;;
  sqft <- (let v := Js.getOpt "areaSqFt" a in
           if Js.truthy v then Js.asNum v else Js.Done (calculatePolygonArea pts)) ;;
  furn <- (let v := Js.getOpt "furniture" a in
           if Js.truthy v then
             match v with
             | Js.Arr fs => importFurnitureList aid (furnitureToken rnd i) 0 fs
             | _ => Js.Throws
             end
           else Js.Done []) ;;
  Js.Done (AreaData.mk aid atype pts sqft areaColor (Some furn)).

Fixpoint importAreas (rnd : Entropy) (i : nat) (l : list Js.value)
    : Js.outcome (list AreaData.t) :=
  match l with
  | [] => Js.Done []
  | a :: rest =>
      area <- importArea rnd i a ;;
      areas <- importAreas rnd (S i) rest ;;
      Js.Done (area :: areas)
  end.

(** The body of the [try] once the text is parsed.  [targetAlive] tells
    whether [e.currentTarget] is still an element when the input is reset;
    [None] is a run that leaves the typed fragment. *)
Definition importParsed (rnd : Entropy) (targetAlive : bool) (data : Js.value)
    (s : State) : option State :=
  match Js.get "areas" data with
  | Js.Throws => Some (toast "Failed to import JSON" s)
  | Js.Unmodelled => None
  | Js.Done dataAreas =>
      if negb (Js.truthy dataAreas) || negb (Js.isArray dataAreas)
      then Some (toast "Invalid file format" s)
      else
        match dataAreas with
        | Js.Arr items =>
            match importAreas rnd 0 items with
            | Js.Done importedAreas =>
                let s1 := setIsPlacingFurniture false
                            (setSelectedFurnitureItem None (setAreas importedAreas s)) in
                Some (if targetAlive
                      then toast "Import successful (areas + furniture)" s1
                      else toast "Failed to import JSON" s1)
            | Js.Throws => Some (toast "Failed to import JSON" s)
            | Js.Unmodelled => None
            end
        | _ => Some (toast "Invalid file format" s)
        end
  end.

Definition handleImportFile (rnd : Entropy) (targetAlive : bool) (file : FileInput)
    (s : State) : option State :=
  match file with
  | NoFile => Some s
  | Unreadable => Some (toast "Failed to import JSON" s)
  | Text None => Some (toast "Failed to import JSON" s)
  | Text (Some data) => importParsed rnd targetAlive data s
  end.

(** *** Wheel zoom, anchored at the pointer.  [zoomFactor] stands for the
    value of [Math.exp(-e.deltaY * 0.001)]. *)
Definition handleWheel (rect : DOMRect) (e : ClientPoint) (zoomFactor : Q) (s : State)
    : State :=
  let mouseX := clientX e - left rect in
  let mouseY := clientY e - top rect in
  let minZ := 3 # 10 in
  let maxZ := 3 in
  let newZoom := Math_min maxZ (Math_max minZ (zoomLevel s * zoomFactor)) in
  let worldX := mouseX / zoomLevel s - Point.x (panOffset s) in
  let worldY := mouseY / zoomLevel s - Point.y (panOffset s) in
  let newPanX := mouseX / newZoom - worldX in
  let newPanY := mouseY / newZoom - worldY in
  setPanOffset (Point.mk newPanX newPanY) (setZoomLevel newZoom s).


(** *** JSON export.  The document is given as the value that
    [JSON.parse] reads back from the text [JSON.stringify] writes;
    [exportedAt] stands for [new Date().toISOString()]. *)






End Desktop.

(** ** The host's timers: [setTimeout] and [clearTimeout] *)

Module Timers.

Section Queue.
Context {C : Type}.

Record Timer : Type := mkTimer { handle : positive; due : Z; callback : C }.

(** The pending timers, kept in the order in which they come due. *)
Fixpoint enqueue (t : Timer) (q : list Timer) : list Timer :=
  match q with
  | [] => [t]
  | u :: rest => if (due u <=? due t)%Z then u :: enqueue t rest else t :: q
  end.

Definition clearTimeout (h : positive) (q : list Timer) : list Timer :=
  filter (fun t => negb (Pos.eqb (handle t) h)) q.

(** Split off the timers that are due at [now]. *)
Fixpoint takeDue (now : Z) (q : list Timer) : list Timer * list Timer :=
  match q with
  | [] => ([], [])
  | t :: rest =>
      if (due t <=? now)%Z
      then let '(d, r) := takeDue now rest in (t :: d, r)
      else ([], q)
  end.

End Queue.
Arguments Timer C : clear implicits.

End Timers.

(** ** The mobile component [MobileCanvasDesignerV2] *)

Module MobileV2.

(** [pendingFurniture: { name, areaId }] *)
Record Pending : Type := mkPending { pendingName : string; pendingAreaId : string }.

Record State : Type := mkState {
  areas : list AreaData.t;
  zoomLevel : Q;
  panOffset : Point.t;
  selectedAreaType : string;
  isDrawingPolygon : bool;
  currentPolygon : list Point.t;
  selectedFurnitureItem : option string;
  isPlacingFurniture : bool;
  pendingFurniture : option Pending;
  editPanelOpen : bool;
  editingFurniture : option FurnitureItem.t;
  longPressTimer : option positive;
  touchStartPos : Point.t;
  touchStartTime : Z;
  highlightedCell : option Point.t;
  toasts : list string
}.

Definition setAreas (v : list AreaData.t) (s : State) : State :=
  mkState v (zoomLevel s) (panOffset s) (selectedAreaType s) (isDrawingPolygon s)
    (currentPolygon s) (selectedFurnitureItem s) (isPlacingFurniture s)
    (pendingFurniture s) (editPanelOpen s) (editingFurniture s) (longPressTimer s)
    (touchStartPos s) (touchStartTime s) (highlightedCell s) (toasts s).
Definition setZoomLevel (v : Q) (s : State) : State :=
  mkState (areas s) v (panOffset s) (selectedAreaType s) (isDrawingPolygon s)
    (currentPolygon s) (selectedFurnitureItem s) (isPlacingFurniture s)
    (pendingFurniture s) (editPanelOpen s) (editingFurniture s) (longPressTimer s)
    (touchStartPos s) (touchStartTime s) (highlightedCell s) (toasts s).
Definition setPanOffset (v : Point.t) (s : State) : State :=
  mkState (areas s) (zoomLevel s) v (selectedAreaType s) (isDrawingPolygon s)
    (currentPolygon s) (selectedFurnitureItem s) (isPlacingFurniture s)
    (pendingFurniture s) (editPanelOpen s) (editingFurniture s) (longPressTimer s)
    (touchStartPos s) (touchStartTime s) (highlightedCell s) (toasts s).
Definition setSelectedAreaType (v : string) (s : State) : State :=
  mkState (areas s) (zoomLevel s) (panOffset s) v (isDrawingPolygon s)
    (currentPolygon s) (selectedFurnitureItem s) (isPlacingFurniture s)
    (pendingFurniture s) (editPanelOpen s) (editingFurniture s) (longPressTimer s)
    (touchStartPos s) (touchStartTime s) (highlightedCell s) (toasts s).
Definition setIsDrawingPolygon (v : bool) (s : State) : State :=
  mkState (areas s) (zoomLevel s) (panOffset s) (selectedAreaType s) v
    (currentPolygon s) (selectedFurnitureItem s) (isPlacingFurniture s)
    (pendingFurniture s) (editPanelOpen s) (editingFurniture s) (longPressTimer s)
    (touchStartPos s) (touchStartTime s) (highlightedCell s) (toasts s).
Definition setCurrentPolygon (v : list Point.t) (s : State) : State :=
  mkState (areas s) (zoomLevel s) (panOffset s) (selectedAreaType s)
    (isDrawingPolygon s) v (selectedFurnitureItem s) (isPlacingFurniture s)
    (pendingFurniture s) (editPanelOpen s) (editingFurniture s) (longPressTimer s)
    (touchStartPos s) (touchStartTime s) (highlightedCell s) (toasts s).
Definition setSelectedFurnitureItem (v : option string) (s : State) : State :=
  mkState (areas s) (zoomLevel s) (panOffset s) (selectedAreaType s)
    (isDrawingPolygon s) (currentPolygon s) v (isPlacingFurniture s)
    (pendingFurniture s) (editPanelOpen s) (editingFurniture s) (longPressTimer s)
    (touchStartPos s) (touchStartTime s) (highlightedCell s) (toasts s).
Definition setIsPlacingFurniture (v : bool) (s : State) : State :=
  mkState (areas s) (zoomLevel s) (panOffset s) (selectedAreaType s)
    (isDrawingPolygon s) (currentPolygon s) (selectedFurnitureItem s) v
    (pendingFurniture s) (editPanelOpen s) (editingFurniture s) (longPressTimer s)
    (touchStartPos s) (touchStartTime s) (highlightedCell s) (toasts s).
Definition setPendingFurniture (v : option Pending) (s : State) : State :=
  mkState (areas s) (zoomLevel s) (panOffset s) (selectedAreaType s)
    (isDrawingPolygon s) (currentPolygon s) (selectedFurnitureItem s)
    (isPlacingFurniture s) v (editPanelOpen s) (editingFurniture s) (longPressTimer s)
    (touchStartPos s) (touchStartTime s) (highlightedCell s) (toasts s).
Definition setEditPanelOpen (v : bool) (s : State) : State :=
  mkState (areas s) (zoomLevel s) (panOffset s) (selectedAreaType s)
    (isDrawingPolygon s) (currentPolygon s) (selectedFurnitureItem s)
    (isPlacingFurniture s) (pendingFurniture s) v (editingFurniture s)
    (longPressTimer s) (touchStartPos s) (touchStartTime s) (highlightedCell s)
    (toasts s).
Definition setEditingFurniture (v : option FurnitureItem.t) (s : State) : State :=
  mkState (areas s) (zoomLevel s) (panOffset s) (selectedAreaType s)
    (isDrawingPolygon s) (currentPolygon s) (selectedFurnitureItem s)
    (isPlacingFurniture s) (pendingFurniture s) (editPanelOpen s) v (longPressTimer s)
    (touchStartPos s) (touchStartTime s) (highlightedCell s) (toasts s).
Definition setLongPressTimer (v : option positive) (s : State) : State :=
  mkState (areas s) (zoomLevel s) (panOffset s) (selectedAreaType s)
    (isDrawingPolygon s) (currentPolygon s) (selectedFurnitureItem s)
    (isPlacingFurniture s) (pendingFurniture s) (editPanelOpen s) (editingFurniture s) v
    (touchStartPos s) (touchStartTime s) (highlightedCell s) (toasts s).
Definition setTouchStartPos (v : Point.t) (s : State) : State :=
  mkState (areas s) (zoomLevel s) (panOffset s) (selectedAreaType s)
    (isDrawingPolygon s) (currentPolygon s) (selectedFurnitureItem s)
    (isPlacingFurniture s) (pendingFurniture s) (editPanelOpen s) (editingFurniture s)
    (longPressTimer s) v (touchStartTime s) (highlightedCell s) (toasts s).
Definition setTouchStartTime (v : Z) (s : State) : State :=
  mkState (areas s) (zoomLevel s) (panOffset s) (selectedAreaType s)
    (isDrawingPolygon s) (currentPolygon s) (selectedFurnitureItem s)
    (isPlacingFurniture s) (pendingFurniture s) (editPanelOpen s) (editingFurniture s)
    (longPressTimer s) (touchStartPos s) v (highlightedCell s) (toasts s).
Definition setHighlightedCell (v : option Point.t) (s : State) : State :=
  mkState (areas s) (zoomLevel s) (panOffset s) (selectedAreaType s)
    (isDrawingPolygon s) (currentPolygon s) (selectedFurnitureItem s)
    (isPlacingFurniture s) (pendingFurniture s) (editPanelOpen s) (editingFurniture s)
    (longPressTimer s) (touchStartPos s) (touchStartTime s) v (toasts s).
Definition setToasts (v : list string) (s : State) : State :=
  mkState (areas s) (zoomLevel s) (panOffset s) (selectedAreaType s)
    (isDrawingPolygon s) (currentPolygon s) (selectedFurnitureItem s)
    (isPlacingFurniture s) (pendingFurniture s) (editPanelOpen s) (editingFurniture s)
    (longPressTimer s) (touchStartPos s) (touchStartTime s) (highlightedCell s) v.

Definition toast (msg : string) (s : State) : State := setToasts (toasts s ++ [msg]) s.

Definition initial : State :=
  mkState [] (4 # 10) (Point.mk 200 200) "bedroom" false [] None false None false None
    None (Point.mk 0 0) 0%Z None [].

(** The two delayed callbacks of the component.  The long-press closure
    keeps the [areas] of the render that scheduled it. *)
Inductive Callback : Type :=
| LongPress (point : Point.t) (areasSeen : list AreaData.t)
| ClearHighlight.

(** The component within its host: the cells, the pending timers, the next
    timer handle, and a record of every run of the long-press callback. *)
Record World : Type := mkWorld {
  cells : State;
  pending : list (Timers.Timer Callback);
  nextHandle : positive;
  longPressRuns : list Point.t
}.

Definition boot : World := mkWorld initial [] 1%positive [].

Definition onCells (f : State -> State) (w : World) : World :=
  mkWorld (f (cells w)) (pending w) (nextHandle w) (longPressRuns w).

(** [setTimeout(cb, delay)] at time [now]; returns the handle. *)
Definition setTimeout (cb : Callback) (delay now : Z) (w : World) : positive * World :=
  (nextHandle w,
   mkWorld (cells w)
     (Timers.enqueue (Timers.mkTimer (nextHandle w) (now + delay)%Z cb) (pending w))
     (Pos.succ (nextHandle w)) (longPressRuns w)).

Definition clearTimeout (h : positive) (w : World) : World :=
  mkWorld (cells w) (Timers.clearTimeout h (pending w)) (nextHandle w) (longPressRuns w).

(** What a touch or mouse event carries. *)
Inductive Phase : Type := PStart | PMove | PEnd.
Inductive CanvasEvent : Type :=
| TouchEvent (phase : Phase) (touches changedTouches : list ClientPoint)
| MouseEvent (phase : Phase) (pos : ClientPoint).

Definition getCanvasPoint (s : State) (rect : DOMRect) (c : ClientPoint) : Point.t :=
  Point.mk (snapToGrid ((clientX c - left rect) / zoomLevel s - Point.x (panOffset s)))
           (snapToGrid ((clientY c - top rect) / zoomLevel s - Point.y (panOffset s))).

Definition rectContains (point : Point.t) (furniture : FurnitureItem.t) : bool :=
  let halfWidth := Size.width (FurnitureItem.size furniture) / 2 in
  let halfHeight := Size.height (FurnitureItem.size furniture) / 2 in
  Qge_bool (Point.x point) (Point.x (FurnitureItem.position furniture) - halfWidth)
  && Qle_bool (Point.x point) (Point.x (FurnitureItem.position furniture) + halfWidth)
  && Qge_bool (Point.y point) (Point.y (FurnitureItem.position furniture) - halfHeight)
  && Qle_bool (Point.y point) (Point.y (FurnitureItem.position furniture) + halfHeight).

(** The nested [for ... of] scan for the first furniture under [point]. *)
Fixpoint furnitureUnder (areas : list AreaData.t) (point : Point.t)
    : option FurnitureItem.t :=
  match areas with
  | [] => None
  | area :: rest =>
      match find (rectContains point) (furniture_or_empty area) with
      | Some furniture => Some furniture
      | None => furnitureUnder rest point
      end
  end.

Definition handleLongPress (areasSeen : list AreaData.t) (point : Point.t) (s : State) : State :=
  match furnitureUnder areasSeen point with
  | Some furniture =>
      toast "Furniture selected"
        (setEditPanelOpen true
           (setEditingFurniture (Some furniture)
              (setSelectedFurnitureItem (Some (FurnitureItem.id furniture)) s)))
  | None => s
  end.

Definition runCallback (cb : Callback) (w : World) : World :=
  match cb with
  | LongPress point areasSeen =>
      mkWorld (handleLongPress areasSeen point (cells w)) (pending w) (nextHandle w)
        (longPressRuns w ++ [point])
  | ClearHighlight => onCells (setHighlightedCell None) w
  end.

(** The host lets time pass up to [now]: every timer due by then fires. *)
Definition advance (now : Z) (w : World) : World :=
  let '(dueNow, later) := Timers.takeDue now (pending w) in
  fold_left (fun acc t => runCallback (Timers.callback t) acc) dueNow
    (mkWorld (cells w) later (nextHandle w) (longPressRuns w)).

(** A handler run either completes or is cut short by an exception; the
    setter calls made before the exception still take effect. *)
Inductive Run : Type :=
| Completed (s : State)
| Aborted (s : State).

Definition appendFurniture (aid : string) (item : FurnitureItem.t)
    (areas : list AreaData.t) : list AreaData.t :=
  map (fun area =>
         if String.eqb (AreaData.id area) aid
         then AreaData.mk (AreaData.id area) (AreaData.type area) (AreaData.points area)
                (AreaData.areaSqFt area) (AreaData.color area)
                (Some (furniture_or_empty area ++ [item]))
         else area)
      areas.

Definition newFurniture (now : Z) (p : Pending) (point : Point.t) : FurnitureItem.t :=
  FurnitureItem.mk (String.append "furniture-" (show_Z now)) (pendingName p) point
    (pendingAreaId p) (Size.mk 60 40) (Some "#8B4513").

Definition newArea (now : Z) (areaType : string) (pts : list Point.t) : AreaData.t :=
  AreaData.mk (String.append "area-" (show_Z now)) areaType pts
    (calculatePolygonArea pts) (getAreaColor areaType) (Some []).

(** The polygon part of [handleCanvasTap].  Reading [firstPoint.x] throws
    when the working list is empty. *)
Definition drawingTap (point : Point.t) (now : Z) (s : State) : Run :=
  if negb (isDrawingPolygon s) then
    Completed
      (toast "Area started - tap to add points, tap start point to finish"
         (setCurrentPolygon [point] (setIsDrawingPolygon true s)))
  else
    match currentPolygon s with
    | [] => Aborted s
    | firstPoint :: _ =>
        if Qlt_bool (dist2 point firstPoint) (40 * 40)
           && (3 <=? List.length (currentPolygon s))%nat
        then
          let area := newArea now (selectedAreaType s) (currentPolygon s) in
          Completed
            (toast (String.append (selectedAreaType s)
                      (String.append " area created ("
                         (String.append (show_Z (Qfloor (AreaData.areaSqFt area))) " sq ft)")))
               (setIsDrawingPolygon false
                  (setCurrentPolygon [] (setAreas (areas s ++ [area]) s))))
        else Completed (setCurrentPolygon (currentPolygon s ++ [point]) s)
    end.

(** The placement branch of [handleCanvasTap], entered when
    [isPlacingFurniture && pendingFurniture]. *)
Definition placementTap (p : Pending) (point : Point.t) (now : Z) (s : State) : State :=
  match find (fun a => String.eqb (AreaData.id a) (pendingAreaId p)) (areas s) with
  | Some targetArea =>
      if isPointInPolygon point (AreaData.points targetArea) then
        toast (String.append (pendingName p) " placed")
          (setPendingFurniture None
             (setIsPlacingFurniture false
                (setAreas (appendFurniture (pendingAreaId p) (newFurniture now p point)
                             (areas s))
                   s)))
      else toast "Place furniture inside the area" s
  | None => toast "Place furniture inside the area" s
  end.

Definition handleCanvasTap (point : Point.t) (now : Z) (s : State) : Run :=
  match isPlacingFurniture s, pendingFurniture s with
  | true, Some p => Completed (placementTap p point now s)
  | _, _ =>
      match furnitureUnder (areas s) point with
      | Some furniture =>
          Completed (setSelectedFurnitureItem (Some (FurnitureItem.id furniture)) s)
      | None => drawingTap point now (setSelectedFurnitureItem None s)
      end
  end.

Definition stateOf (r : Run) : State :=
  match r with Completed s | Aborted s => s end.

(** [if (longPressTimer) { clearTimeout(longPressTimer); setLongPressTimer(null); }] *)
Definition cancelLongPress (w : World) : World :=
  match longPressTimer (cells w) with
  | Some h => onCells (setLongPressTimer None) (clearTimeout h w)
  | None => w
  end.

(** [handleCanvasTouch] from the branch on [e.type] on; [isTouchEvent] is
    ['touches' in e]. *)
Definition touchBody (isTouchEvent : bool) (phase : Phase) (point : Point.t) (now : Z)
    (w : World) : World :=
  let closure := cells w in
  match phase with
  | PStart =>
      let w1 := onCells (fun s => setHighlightedCell (Some point)
                                    (setTouchStartTime now (setTouchStartPos point s))) w in
      if isTouchEvent then
        let '(timer, w2) := setTimeout (LongPress point (areas closure)) 600 now w1 in
        onCells (setLongPressTimer (Some timer)) w2
      else w1
  | PEnd =>
      let w1 := cancelLongPress w in
      let timeDiff := (now - touchStartTime closure)%Z in
      if Qlt_bool (dist2 point (touchStartPos closure)) (20 * 20) && (timeDiff <? 500)%Z
      then
        match handleCanvasTap point now (cells w1) with
        | Completed s' => snd (setTimeout ClearHighlight 200 now (onCells (fun _ => s') w1))
        | Aborted s' => onCells (fun _ => s') w1
        end
      else snd (setTimeout ClearHighlight 200 now w1)
  | PMove =>
      onCells (setHighlightedCell (Some point)) (cancelLongPress w)
  end.

Definition handleCanvasTouch (now : Z) (rect : DOMRect) (e : CanvasEvent) (w : World)
    : World :=
  match e with
  | TouchEvent phase touches _ =>
      match touches with
      | [touch] => touchBody true phase (getCanvasPoint (cells w) rect touch) now w
      | _ => w
      end
  | MouseEvent phase pos => touchBody false phase (getCanvasPoint (cells w) rect pos) now w
  end.

(** The host delivers an event at time [now], after the timers due by then. *)
Definition deliver (now : Z) (rect : DOMRect) (e : CanvasEvent) (w : World) : World :=
  handleCanvasTouch now rect e (advance now w).

(** *** JSON import: the setter calls and toasts of [reader.onload] *)

Inductive Effect : Type :=
| SetAreas (v : Js.value)
| SetZoomLevel (v : Js.value)
| SetPanOffset (v : Js.value)
| Toast (msg : string).

(** [parsed] is [None] when [JSON.parse] throws. *)
Definition handleImportJSON (parsed : option Js.value) : list Effect :=
  match parsed with
  | None => [Toast "Invalid file format"]
  | Some data =>
      match Js.get "areas" data with
      | Js.Done dataAreas =>
          if Js.truthy dataAreas then
            [SetAreas dataAreas]
            ++ (if Js.truthy (Js.getOpt "zoomLevel" data)
                then [SetZoomLevel (Js.getOpt "zoomLevel" data)] else [])
            ++ (if Js.truthy (Js.getOpt "panOffset" data)
                then [SetPanOffset (Js.getOpt "panOffset" data)] else [])
            ++ [Toast "Floor plan imported"]
          else []
      | _ => [Toast "Invalid file format"]
      end
  end.

(** *** The toolbar actions of the mobile designer *)

(** [handleToolAction("clear-canvas")] *)
Definition handleClearCanvas (s : State) : State :=
  toast "Canvas cleared" (setIsDrawingPolygon false (setCurrentPolygon [] (setAreas [] s))).

Definition handleZoomIn (s : State) : State :=
  setZoomLevel (Math_min (zoomLevel s * (12 # 10)) 3) s.
Definition handleZoomOut (s : State) : State :=
  setZoomLevel (Math_max (zoomLevel s / (12 # 10)) (1 # 10)) s.
Definition handleResetZoom (s : State) : State :=
  toast "Zoom reset" (setPanOffset (Point.mk 200 200) (setZoomLevel (4 # 10) s)).


(** *** The edit panel's callbacks *)

(** [area.furniture?.map(f => f.id === updatedFurniture.id ? updatedFurniture : f)] *)
Definition handleFurnitureUpdate (updatedFurniture : FurnitureItem.t) (s : State) : State :=
  setAreas
    (map (fun area =>
            AreaData.mk (AreaData.id area) (AreaData.type area) (AreaData.points area)
              (AreaData.areaSqFt area) (AreaData.color area)
              (option_map
                 (map (fun f => if String.eqb (FurnitureItem.id f)
                                     (FurnitureItem.id updatedFurniture)
                                then updatedFurniture else f))
                 (AreaData.furniture area)))
         (areas s))
    s.

Definition handleFurnitureDelete (furnitureId : string) (s : State) : State :=
  setSelectedFurnitureItem None
    (setAreas
       (map (fun area =>
               AreaData.mk (AreaData.id area) (AreaData.type area) (AreaData.points area)
                 (AreaData.areaSqFt area) (AreaData.color area)
                 (option_map
                    (filter (fun f => negb (String.eqb (FurnitureItem.id f) furnitureId)))
                    (AreaData.furniture area)))
            (areas s))
       s).
End MobileV2.

(** ** The canvas of [MobilePolygonCanvas.tsx] *)

Module MobilePolygon.

(** The cells the touch handlers read or write; [activeTool] is a prop and
    [fabricCanvas] tells whether the Fabric canvas has been created.  The
    Fabric objects attached to an area are drawing state and are left out. *)
Record State : Type := mkState {
  activeTool : string;
  fabricCanvas : bool;
  zoomLevel : Q;
  panOffset : Point.t;
  selectedAreaType : string;
  isDrawingPolygon : bool;
  currentPolygonPoints : list Point.t;
  areas : list AreaData.t;
  touchStartTime : Z;
  touchStartPos : Point.t;
  longPressTimer : option positive;
  toasts : list string
}.

Definition setActiveTool (v : string) (s : State) : State :=
  mkState v (fabricCanvas s) (zoomLevel s) (panOffset s) (selectedAreaType s)
    (isDrawingPolygon s) (currentPolygonPoints s) (areas s) (touchStartTime s)
    (touchStartPos s) (longPressTimer s) (toasts s).
Definition setFabricCanvas (v : bool) (s : State) : State :=
  mkState (activeTool s) v (zoomLevel s) (panOffset s) (selectedAreaType s)
    (isDrawingPolygon s) (currentPolygonPoints s) (areas s) (touchStartTime s)
    (touchStartPos s) (longPressTimer s) (toasts s).
Definition setZoomLevel (v : Q) (s : State) : State :=
  mkState (activeTool s) (fabricCanvas s) v (panOffset s) (selectedAreaType s)
    (isDrawingPolygon s) (currentPolygonPoints s) (areas s) (touchStartTime s)
    (touchStartPos s) (longPressTimer s) (toasts s).
Definition setPanOffset (v : Point.t) (s : State) : State :=
  mkState (activeTool s) (fabricCanvas s) (zoomLevel s) v (selectedAreaType s)
    (isDrawingPolygon s) (currentPolygonPoints s) (areas s) (touchStartTime s)
    (touchStartPos s) (longPressTimer s) (toasts s).
Definition setSelectedAreaType (v : string) (s : State) : State :=
  mkState (activeTool s) (fabricCanvas s) (zoomLevel s) (panOffset s) v
    (isDrawingPolygon s) (currentPolygonPoints s) (areas s) (touchStartTime s)
    (touchStartPos s) (longPressTimer s) (toasts s).
Definition setIsDrawingPolygon (v : bool) (s : State) : State :=
  mkState (activeTool s) (fabricCanvas s) (zoomLevel s) (panOffset s)
    (selectedAreaType s) v (currentPolygonPoints s) (areas s) (touchStartTime s)
    (touchStartPos s) (longPressTimer s) (toasts s).
Definition setCurrentPolygonPoints (v : list Point.t) (s : State) : State :=
  mkState (activeTool s) (fabricCanvas s) (zoomLevel s) (panOffset s)
    (selectedAreaType s) (isDrawingPolygon s) v (areas s) (touchStartTime s)
    (touchStartPos s) (longPressTimer s) (toasts s).
Definition setAreas (v : list AreaData.t) (s : State) : State :=
  mkState (activeTool s) (fabricCanvas s) (zoomLevel s) (panOffset s)
    (selectedAreaType s) (isDrawingPolygon s) (currentPolygonPoints s) v
    (touchStartTime s) (touchStartPos s) (longPressTimer s) (toasts s).
Definition setTouchStartTime (v : Z) (s : State) : State :=
  mkState (activeTool s) (fabricCanvas s) (zoomLevel s) (panOffset s)
    (selectedAreaType s) (isDrawingPolygon s) (currentPolygonPoints s) (areas s) v
    (touchStartPos s) (longPressTimer s) (toasts s).
Definition setTouchStartPos (v : Point.t) (s : State) : State :=
  mkState (activeTool s) (fabricCanvas s) (zoomLevel s) (panOffset s)
    (selectedAreaType s) (isDrawingPolygon s) (currentPolygonPoints s) (areas s)
    (touchStartTime s) v (longPressTimer s) (toasts s).
Definition setLongPressTimer (v : option positive) (s : State) : State :=
  mkState (activeTool s) (fabricCanvas s) (zoomLevel s) (panOffset s)
    (selectedAreaType s) (isDrawingPolygon s) (currentPolygonPoints s) (areas s)
    (touchStartTime s) (touchStartPos s) v (toasts s).
Definition setToasts (v : list string) (s : State) : State :=
  mkState (activeTool s) (fabricCanvas s) (zoomLevel s) (panOffset s)
    (selectedAreaType s) (isDrawingPolygon s) (currentPolygonPoints s) (areas s)
    (touchStartTime s) (touchStartPos s) (longPressTimer s) v.

Definition toast (msg : string) (s : State) : State := setToasts (toasts s ++ [msg]) s.

Definition initial (tool : string) : State :=
  mkState tool true (4 # 10) (Point.mk 200 200) "bedroom" false [] [] 0%Z (Point.mk 0 0)
    None [].

(** The delayed callback only writes to the console. *)
Inductive Callback : Type := LogLongPress.

Record World : Type := mkWorld {
  cells : State;
  pending : list (Timers.Timer Callback);
  nextHandle : positive;
  longPressRuns : nat        (* runs of the long-press callback *)
}.

Definition boot (tool : string) : World := mkWorld (initial tool) [] 1%positive 0.

Definition onCells (f : State -> State) (w : World) : World :=
  mkWorld (f (cells w)) (pending w) (nextHandle w) (longPressRuns w).

Definition setTimeout (cb : Callback) (delay now : Z) (w : World) : positive * World :=
  (nextHandle w,
   mkWorld (cells w)
     (Timers.enqueue (Timers.mkTimer (nextHandle w) (now + delay)%Z cb) (pending w))
     (Pos.succ (nextHandle w)) (longPressRuns w)).

Definition clearTimeout (h : positive) (w : World) : World :=
  mkWorld (cells w) (Timers.clearTimeout h (pending w)) (nextHandle w) (longPressRuns w).

Definition runCallback (cb : Callback) (w : World) : World :=
  match cb with
  | LogLongPress => mkWorld (cells w) (pending w) (nextHandle w) (S (longPressRuns w))
  end.

Definition advance (now : Z) (w : World) : World :=
  let '(dueNow, later) := Timers.takeDue now (pending w) in
  fold_left (fun acc t => runCallback (Timers.callback t) acc) dueNow
    (mkWorld (cells w) later (nextHandle w) (longPressRuns w)).

Definition areaColor (areaType : string) : string :=
  if String.eqb areaType "bedroom" then "#3b82f6"
  else if String.eqb areaType "kitchen" then "#ef4444"
  else if String.eqb areaType "living-room" then "#10b981"
  else if String.eqb areaType "washroom" then "#06b6d4"
  else if String.eqb areaType "balcony" then "#84cc16"
  else if String.eqb areaType "entrance" then "#8b5cf6"
  else if String.eqb areaType "stairs" then "#6b7280"
  else if String.eqb areaType "lobby" then "#f59e0b"
  else "#6b7280".

(** [s.replace('-', ' ')]: the first dash only. *)
Fixpoint replaceDash (s : string) : string :=
  match s with
  | EmptyString => EmptyString
  | String c rest =>
      if Ascii.eqb c "-"%char then String " "%char rest else String c (replaceDash rest)
  end.

Definition getCanvasPoint (s : State) (rect : DOMRect) (c : ClientPoint) : Point.t :=
  if negb (fabricCanvas s) then Point.mk 0 0
  else
    let relativeX := clientX c - left rect in
    let relativeY := clientY c - top rect in
    let canvasX := relativeX / zoomLevel s - Point.x (panOffset s) in
    let canvasY := relativeY / zoomLevel s - Point.y (panOffset s) in
    Point.mk (snapToGrid canvasX) (snapToGrid canvasY).

Definition newArea (now : Z) (areaType : string) (pts : list Point.t) : AreaData.t :=
  AreaData.mk (String.append "area-" (show_Z now)) areaType pts
    (calculatePolygonArea pts) (areaColor areaType) None.

Inductive Run : Type :=
| Completed (s : State)
| Aborted (s : State).

Definition handleCanvasTap (point : Point.t) (now : Z) (s : State) : Run :=
  if negb (isDrawingPolygon s) then
    Completed
      (toast (String.append "Started drawing "
                (String.append (replaceDash (selectedAreaType s))
                   ". Tap to add points, tap near start to finish."))
         (setCurrentPolygonPoints [point] (setIsDrawingPolygon true s)))
  else
    match currentPolygonPoints s with
    | [] => Aborted s
    | firstPoint :: _ =>
        if Qlt_bool (dist2 point firstPoint) (60 * 60)
           && (3 <=? List.length (currentPolygonPoints s))%nat
        then
          let area := newArea now (selectedAreaType s) (currentPolygonPoints s) in
          Completed
            (toast (String.append (replaceDash (selectedAreaType s))
                      (String.append " created ("
                         (String.append (show_Z (Qfloor (AreaData.areaSqFt area))) " sq ft)")))
               (setIsDrawingPolygon false
                  (setCurrentPolygonPoints [] (setAreas (areas s ++ [area]) s))))
        else
          Completed
            (toast (String.append "Point "
                      (String.append (show_Z (Z.of_nat (List.length (currentPolygonPoints s) + 1)))
                         (String.append " added. "
                            (if (2 <=? List.length (currentPolygonPoints s))%nat
                             then "Tap near start point to finish." else EmptyString))))
               (setCurrentPolygonPoints (currentPolygonPoints s ++ [point]) s))
    end.

Inductive Phase : Type := PStart | PMove | PEnd.
Inductive CanvasEvent : Type :=
| TouchEvent (phase : Phase) (touches changedTouches : list ClientPoint)
| MouseEvent (phase : Phase) (pos : ClientPoint).

Definition cancelLongPress (w : World) : World :=
  match longPressTimer (cells w) with
  | Some h => onCells (setLongPressTimer None) (clearTimeout h w)
  | None => w
  end.

(** [handleCanvasTouch] from the branch on [e.type] on.  There is no
    branch for the move events. *)
Definition touchBody (isTouchEvent : bool) (phase : Phase) (point : Point.t) (now : Z)
    (w : World) : World :=
  let closure := cells w in
  match phase with
  | PStart =>
      let w1 := onCells (fun s => setTouchStartTime now (setTouchStartPos point s)) w in
      if isTouchEvent then
        let '(timer, w2) := setTimeout LogLongPress 600 now w1 in
        onCells (setLongPressTimer (Some timer)) w2
      else w1
  | PEnd =>
      let w1 := cancelLongPress w in
      let timeDiff := (now - touchStartTime closure)%Z in
      if Qlt_bool (dist2 point (touchStartPos closure)) (40 * 40) && (timeDiff <? 800)%Z
      then
        match handleCanvasTap point now (cells w1) with
        | Completed s' | Aborted s' => onCells (fun _ => s') w1
        end
      else w1
  | PMove => w
  end.

Definition handleCanvasTouch (now : Z) (rect : DOMRect) (e : CanvasEvent) (w : World)
    : World :=
  if negb (String.eqb (activeTool (cells w)) "area") then w
  else
    match e with
    | TouchEvent phase touches changedTouches =>
        (* [e.type === "touchend" ? e.changedTouches : e.touches] *)
        match (match phase with PEnd => changedTouches | _ => touches end) with
        | [touch] => touchBody true phase (getCanvasPoint (cells w) rect touch) now w
        | _ => w
        end
    | MouseEvent phase pos => touchBody false phase (getCanvasPoint (cells w) rect pos) now w
    end.

(** The listeners of the canvas element: [onTouchStart], [onTouchEnd],
    [onMouseDown] and [onMouseUp] call [handleCanvasTouch]; [onTouchMove]
    only prevents the default action; there is no [onMouseMove]. *)
Definition dispatch (now : Z) (rect : DOMRect) (e : CanvasEvent) (w : World) : World :=
  match e with
  | TouchEvent PMove _ _ => w
  | MouseEvent PMove _ => w
  | _ => handleCanvasTouch now rect e w
  end.

Definition deliver (now : Z) (rect : DOMRect) (e : CanvasEvent) (w : World) : World :=
  dispatch now rect e (advance now w).

End MobilePolygon.

(** ** The layout generator ([generateBasicLayout], [optimizeLayout]) *)

Module MapGenerator.

(** [Room] of the dimension form; sizes are in feet. *)
Record Room : Type := mkRoom {
  id : string;
  name : string;
  width : Q;
  height : Q;
  type : string
}.

(** [GeneratedRoom extends Room]: the room with its place and colour. *)
Record GeneratedRoom : Type := mkGenerated {
  room : Room;
  x : Q;
  y : Q;
  color : string
}.

(** An entry of [occupiedAreas]. *)
Record Occupied : Type := mkOccupied { ox : Q; oy : Q; owidth : Q; oheight : Q }.

(** [roomColors[type] || "#6b7280"] *)
Definition roomColor (type : string) : string :=
  if String.eqb type "Living Room" then "#f59e0b"
  else if String.eqb type "Bedroom" then "#8b5cf6"
  else if String.eqb type "Kitchen" then "#ef4444"
  else if String.eqb type "Bathroom" then "#06b6d4"
  else if String.eqb type "Dining Room" then "#f97316"
  else if String.eqb type "Study Room" then "#10b981"
  else if String.eqb type "Storage" then "#6b7280"
  else if String.eqb type "Balcony" then "#84cc16"
  else if String.eqb type "Entrance" then "#ec4899"
  else if String.eqb type "Corridor" then "#64748b"
  else "#6b7280".

Definition scale : Q := 15.

(** [Array.prototype.sort] with a comparator is a stable sort; [before a e]
    tells that the comparator does not put [e] before [a]. *)
Fixpoint insertSorted {A : Type} (before : A -> A -> bool) (a : A) (l : list A) : list A :=
  match l with
  | [] => [a]
  | e :: rest => if before a e then a :: l else e :: insertSorted before a rest
  end.

Definition stableSort {A : Type} (before : A -> A -> bool) (l : list A) : list A :=
  fold_right (insertSorted before) [] l.

(** [(a, b) => (b.width * b.height) - (a.width * a.height)]: largest first. *)
Definition largerFirst (a e : Room) : bool :=
  Qle_bool (width e * height e - width a * height a) 0.

(** The values of [for (v = 0; v <= bound; v += step)]. *)
Definition steps (step bound : Q) : list Q :=
  if Qlt_bool bound 0 then []
  else map (fun k => inject_Z (Z.of_nat k) * step)
           (seq 0 (Z.to_nat (Qfloor (bound / step)) + 1)).

(** The test inside [occupiedAreas.some(...)]. *)
Definition overlapsArea (x y roomWidth roomHeight : Q) (area : Occupied) : bool :=
  Qlt_bool x (ox area + owidth area)
  && Qgt_bool (x + roomWidth) (ox area)
  && Qlt_bool y (oy area + oheight area)
  && Qgt_bool (y + roomHeight) (oy area).

(** The two nested loops with their [break]s: the first free position in
    row order, rows from the top. *)
Definition firstFree (step canvasWidth canvasHeight roomWidth roomHeight : Q)
    (occupiedAreas : list Occupied) : option (Q * Q) :=
  find (fun pos => negb (existsb (overlapsArea (fst pos) (snd pos) roomWidth roomHeight)
                           occupiedAreas))
       (flat_map (fun y => map (fun x => (x, y)) (steps step (canvasWidth - roomWidth)))
                 (steps step (canvasHeight - roomHeight))).

(** One turn of [for (const room of sortedRooms)]. *)
Definition placeRoom (canvasWidth canvasHeight : Q)
    (acc : list GeneratedRoom * list Occupied) (r : Room)
    : list GeneratedRoom * list Occupied :=
  let roomWidth := width r * scale in
  let roomHeight := height r * scale in
  let put (pos : Q * Q) :=
    (fst acc ++ [mkGenerated r (fst pos) (snd pos) (roomColor (type r))],
     snd acc ++ [mkOccupied (fst pos) (snd pos) roomWidth roomHeight]) in
  match firstFree scale canvasWidth canvasHeight roomWidth roomHeight (snd acc) with
  | Some pos => put pos
  | None =>
      match firstFree 5 canvasWidth canvasHeight roomWidth roomHeight (snd acc) with
      | Some pos => put pos
      | None => acc
      end
  end.

Definition generateBasicLayout (rooms : list Room) (totalWidth totalHeight : Q)
    : list GeneratedRoom :=
  let canvasWidth := totalWidth * scale in
  let canvasHeight := totalHeight * scale in
  let sortedRooms := stableSort largerFirst rooms in
  fst (fold_left (placeRoom canvasWidth canvasHeight) sortedRooms ([], [])).

(** [(a, b) => a.y - b.y] *)
Definition higherFirst (a e : GeneratedRoom) : bool := Qle_bool (y a - y e) 0.

Definition withY (v : Q) (g : GeneratedRoom) : GeneratedRoom :=
  mkGenerated (room g) (x g) v (color g).

(** The alignment pass [for (i = 0; i < length - 1; i++)], with
    [currentRoom = optimized[i]] carried along: a room moved as [nextRoom]
    is the [currentRoom] of the next turn. *)
Fixpoint alignFrom (currentRoom : GeneratedRoom) (rest : list GeneratedRoom)
    : list GeneratedRoom :=
  match rest with
  | [] => [currentRoom]
  | nextRoom :: rest' =>
      if Qlt_bool (Qabs (y currentRoom - y nextRoom)) 30 then
        let alignY := Math_min (y currentRoom) (y nextRoom) in
        withY alignY currentRoom :: alignFrom (withY alignY nextRoom) rest'
      else currentRoom :: alignFrom nextRoom rest'
  end.

Definition alignRows (l : list GeneratedRoom) : list GeneratedRoom :=
  match l with
  | [] => []
  | first :: rest => alignFrom first rest
  end.

Definition optimizeLayout (rooms : list GeneratedRoom) : list GeneratedRoom :=
  alignRows (stableSort higherFirst rooms).

End MapGenerator.

(** ** The gesture wrapper [TouchCanvasWrapper] *)

Module TouchCanvasWrapper.

Record Props : Type := mkProps {
  zoomLevel : Q;
  panOffset : Point.t;
  disabled : bool
}.

(** The part of the drag state that [onDrag] reads. *)
Record DragState : Type := mkDrag {
  mx : Q;
  my : Q;
  touches : nat;
  first : bool;
  last : bool
}.

(** The quotients are those of a zoom other than 0. *)
Definition constrainPan (offset : Point.t) (zoom : Q) : Point.t :=
  let maxPanX := 2500 / zoom in
  let maxPanY := 2500 / zoom in
  let minPanX := (-2500) / zoom in
  let minPanY := (-2500) / zoom in
  Point.mk (Math_min (Math_max (Point.x offset) minPanX) maxPanX)
           (Math_min (Math_max (Point.y offset) minPanY) maxPanY).

(** The drag handler: the new [isDragging] and the offset handed to
    [onPanChange], if any. *)
Definition onDrag (props : Props) (g : DragState) (isDragging : bool)
    : bool * option Point.t :=
  if disabled props then (isDragging, None)
  else if negb (Nat.eqb (touches g) 2) then (isDragging, None)
  else
    let afterFirst := if first g then true else isDragging in
    let afterLast := if last g then false else afterFirst in
    let sensitivity := 15 # 10 in
    let newOffset :=
      Point.mk (Point.x (panOffset props) + (mx g * sensitivity) / zoomLevel props)
               (Point.y (panOffset props) + (my g * sensitivity) / zoomLevel props) in
    (afterLast, Some (constrainPan newOffset (zoomLevel props))).

End TouchCanvasWrapper.

(** * Vocabulary of the statements *)

Definition unit_square : list Point.t :=
  [Point.mk 0 0; Point.mk 10 0; Point.mk 10 10; Point.mk 0 10].


(** The item that a pointer move manipulates: the resized one when the
    resize branch is entered, else the dragged one. *)
Definition activeItem (s : Desktop.State) : option string :=
  match Desktop.isResizingFurniture s, Desktop.truthy (Desktop.resizingFurnitureId s),
        Desktop.resizeHandle s with
  | true, Some rid, Some _ => Some rid
  | _, _, _ =>
      match Desktop.isDraggingFurniture s, Desktop.truthy (Desktop.draggedFurniture s) with
      | true, Some did => Some did
      | _, _ => None
      end
  end.

(** What a pointer move at [point] proposes for [item]: a new size in the
    resize branch, a new position in the drag branch. *)
Definition proposal (s : Desktop.State) (point : Point.t) (item : FurnitureItem.t)
    : FurnitureItem.t :=
  match Desktop.isResizingFurniture s, Desktop.truthy (Desktop.resizingFurnitureId s),
        Desktop.resizeHandle s with
  | true, Some _, Some h => Desktop.withSize (Desktop.proposedSize h item point) item
  | _, _, _ => Desktop.withPosition point item
  end.

(** The four corners of the item [fid] lie in the polygon of the area its
    [areaId] names. *)
Definition contained (areas : list AreaData.t) (fid : string) : bool :=
  match Desktop.findFurniture areas fid with
  | Some item =>
      match Desktop.findArea areas (FurnitureItem.areaId item) with
      | Some area =>
          areCornersInsideArea (AreaData.points area) (FurnitureItem.position item)
            (FurnitureItem.size item)
      | None => false
      end
  | None => false
  end.

(** A sequence of pointer-move events, oldest first. *)
Definition moves (events : list (DOMRect * ClientPoint)) (s : Desktop.State)
    : Desktop.State :=
  fold_left (fun acc ev => Desktop.handleCanvasMouseMove (fst ev) (snd ev) acc) events s.

Definition demo_room : AreaData.t :=
  AreaData.mk "a1" "bedroom"
    [Point.mk 0 0; Point.mk 200 0; Point.mk 200 200; Point.mk 0 200] 100 "#3b82f6"
    (Some [FurnitureItem.mk "f1" "bed" (Point.mk 100 100) "a1" (Size.mk 30 30)
             (Some "#8B4513")]).

Definition demo_dragging : Desktop.State :=
  Desktop.setIsDraggingFurniture true
    (Desktop.setDraggedFurniture (Some "f1")
       (Desktop.setSelectedFurnitureItem (Some "f1")
          (Desktop.setAreas [demo_room] Desktop.initial))).

Definition demo_resizing : Desktop.State :=
  Desktop.setResizeHandle (Some Desktop.SE)
    (Desktop.setResizingFurnitureId (Some "f1")
       (Desktop.setIsResizingFurniture true
          (Desktop.setSelectedFurnitureItem (Some "f1")
             (Desktop.setAreas [demo_room] Desktop.initial)))).

Definition triangle_room : AreaData.t :=
  AreaData.mk "a1" "bedroom" [Point.mk 0 0; Point.mk 100 0; Point.mk 0 100] 13 "#3b82f6" None.

Definition placing_bed : Desktop.State :=
  Desktop.handleFurnitureSelect "bed" "a1" (Desktop.setAreas [triangle_room] Desktop.initial).

Definition three_points : list Point.t :=
  [Point.mk 0 0; Point.mk 100 0; Point.mk 100 100].

Definition drawing_three : Desktop.State :=
  Desktop.setCurrentPolygon three_points (Desktop.setIsDrawingPolygon true Desktop.initial).

(** Every area of the registry has at least three points. *)
Definition allPolygons (areas : list AreaData.t) : bool :=
  forallb (fun a => (3 <=? List.length (AreaData.points a))%nat) areas.

Definition two_point_file : Desktop.FileInput :=
  Desktop.Text (Some (Js.Obj
    [("areas", Js.Arr
        [Js.Obj [("id", Js.Str "a1"); ("type", Js.Str "bedroom");
                 ("points", Js.Arr [Js.Arr [Js.Num 0; Js.Num 0];
                                    Js.Arr [Js.Num 5; Js.Num 5]])]])])).

Definition some_entropy : Desktop.Entropy :=
  Desktop.mkEntropy (fun _ => "u1") (fun _ _ => "u2").

Definition finger : ClientPoint := mkClient 120 80.

Definition canvas_rect : DOMRect := mkRect 0 0.

(** Touch down at time 0, finger lifted at time 100 (the event's [touches]
    is then empty), then time passes to 600. *)
Definition v2_tap_trace : MobileV2.World :=
  MobileV2.advance 600
    (MobileV2.deliver 100 canvas_rect (MobileV2.TouchEvent MobileV2.PEnd [] [finger])
       (MobileV2.deliver 0 canvas_rect (MobileV2.TouchEvent MobileV2.PStart [finger] [finger])
          MobileV2.boot)).

(** Touch down at time 0, the finger moves at time 100, then time passes
    to 600. *)
Definition polygon_move_trace : MobilePolygon.World :=
  MobilePolygon.advance 600
    (MobilePolygon.deliver 100 canvas_rect
       (MobilePolygon.TouchEvent MobilePolygon.PMove [mkClient 300 200] [mkClient 300 200])
       (MobilePolygon.deliver 0 canvas_rect
          (MobilePolygon.TouchEvent MobilePolygon.PStart [finger] [finger])
          (MobilePolygon.boot "area"))).

(** The axis-aligned rectangle with corners [(x0, y0)] and [(x1, y1)], as a
    polygon drawn from the first corner along the [y0] side. *)
Definition rectangle (x0 y0 x1 y1 : Q) : list Point.t :=
  [Point.mk x0 y0; Point.mk x1 y0; Point.mk x1 y1; Point.mk x0 y1].



(** The drawing flag and the working point list agree: the session is
    drawing exactly when it holds at least one point. *)
Definition sessionConsistent (s : Desktop.State) : Prop :=
  Desktop.isDrawingPolygon s
  = match Desktop.currentPolygon s with [] => false | _ :: _ => true end.

(** The same agreement of flag and working list in the two mobile canvases. *)
Definition sessionConsistentV2 (s : MobileV2.State) : Prop :=
  MobileV2.isDrawingPolygon s
  = match MobileV2.currentPolygon s with [] => false | _ :: _ => true end.

Definition sessionConsistentPolygon (s : MobilePolygon.State) : Prop :=
  MobilePolygon.isDrawingPolygon s
  = match MobilePolygon.currentPolygonPoints s with [] => false | _ :: _ => true end.

(** The place a generated room takes on the canvas, in pixels. *)
Definition placeOf (g : MapGenerator.GeneratedRoom) : MapGenerator.Occupied :=
  MapGenerator.mkOccupied (MapGenerator.x g) (MapGenerator.y g)
    (MapGenerator.width (MapGenerator.room g) * MapGenerator.scale)
    (MapGenerator.height (MapGenerator.room g) * MapGenerator.scale).

(** The generator's own overlap test, between two placed rooms. *)
Definition roomsOverlap (later earlier : MapGenerator.GeneratedRoom) : bool :=
  MapGenerator.overlapsArea (MapGenerator.x later) (MapGenerator.y later)
    (MapGenerator.width (MapGenerator.room later) * MapGenerator.scale)
    (MapGenerator.height (MapGenerator.room later) * MapGenerator.scale)
    (placeOf earlier).

(** The room lies on the canvas of [totalWidth] by [totalHeight] feet. *)
Definition onCanvas (totalWidth totalHeight : Q) (g : MapGenerator.GeneratedRoom) : Prop :=
  0 <= MapGenerator.x g
  /\ MapGenerator.x g + MapGenerator.width (MapGenerator.room g) * MapGenerator.scale
     <= totalWidth * MapGenerator.scale
  /\ 0 <= MapGenerator.y g
  /\ MapGenerator.y g + MapGenerator.height (MapGenerator.room g) * MapGenerator.scale
     <= totalHeight * MapGenerator.scale.

(** No room of the list overlaps a room placed before it. *)
Definition noOverlap (l : list MapGenerator.GeneratedRoom) : Prop :=
  ForallOrdPairs (fun earlier later => roomsOverlap later earlier = false) l.

(** [g'] is [g] with the same room, abscissa and colour, not lower down. *)
Definition movedUp (g g' : MapGenerator.GeneratedRoom) : Prop :=
  MapGenerator.room g' = MapGenerator.room g
  /\ MapGenerator.x g' = MapGenerator.x g
  /\ MapGenerator.color g' = MapGenerator.color g
  /\ MapGenerator.y g' <= MapGenerator.y g.

(** What the generator's loop keeps true of its two lists. *)
Definition layoutInv (tw th : Q)
    (acc : list MapGenerator.GeneratedRoom * list MapGenerator.Occupied) : Prop :=
  snd acc = map placeOf (fst acc)
  /\ Forall (onCanvas tw th) (fst acc)
  /\ noOverlap (fst acc).


(** The floor area of a requested room, in square feet. *)
Definition roomArea (r : MapGenerator.Room) : Q :=
  MapGenerator.width r * MapGenerator.height r.

(** Two rooms of a canvas ten feet square, each one foot deep. *)
Definition strip (n : string) : MapGenerator.Room :=
  MapGenerator.mkRoom n n 10 1 "Corridor".









(** A two-finger drag by (2000, 10) on a wrapper at zoom 1, panned to
    (100, 100). *)
Definition two_finger_props : TouchCanvasWrapper.Props :=
  TouchCanvasWrapper.mkProps 1 (Point.mk 100 100) false.

Definition two_finger_drag : TouchCanvasWrapper.DragState :=
  TouchCanvasWrapper.mkDrag 2000 10 2 true false.

(** The mobile designer as it starts, zoomed to 2.9. *)
Definition v2_zoomed_in : MobileV2.State :=
  MobileV2.setZoomLevel (29 # 10) (MobileV2.cells MobileV2.boot).
(** * Properties *)

(** ** Geometry kernel *)

(** C6: on the square [(0,0),(10,0),(10,10),(0,10)] the crossing test
    answers [true] at (5,5), [false] at (15,5) and at (-1,-1), and the fixed
    value [true] at the boundary point (0,5): the edge from (10,10) to
    (10,0) is crossed, the edge from (0,0) to (0,10) is not, because the
    abscissa comparison is strict. *)
Theorem C6_point_in_square :
  isPointInPolygon (Point.mk 5 5) unit_square = true
  /\ isPointInPolygon (Point.mk 15 5) unit_square = false
  /\ isPointInPolygon (Point.mk (-1) (-1)) unit_square = false
  /\ isPointInPolygon (Point.mk 0 5) unit_square = true.
Proof. repeat split; vm_compute; reflexivity. Qed.

(** The two edges that decide the boundary point (0,5). *)
Lemma boundary_left_edge_not_crossed :
  edge_crossed (Point.mk 0 5) (Point.mk 0 0) (Point.mk 0 10) = false
  /\ edge_crossed (Point.mk 0 5) (Point.mk 10 10) (Point.mk 10 0) = true.
Proof. split; vm_compute; reflexivity. Qed.

(** ** Coordinate transform *)

Lemma Qle_bool_false_lt (a b : Q) : Qle_bool a b = false -> b < a.
Proof.
  intro H. destruct (Qlt_le_dec b a) as [Hl | Hl]; [exact Hl |].
  apply Qle_bool_iff in Hl. congruence.
Qed.

Lemma snapToGrid_near (v : Q) : Qabs (snapToGrid v - v) <= GRID_SIZE / 2.
Proof.
  unfold snapToGrid, Math_round, GRID_SIZE.
  pose proof (Qfloor_le (v / 20 + (1 # 2))) as Hlo.
  pose proof (Qlt_floor (v / 20 + (1 # 2))) as Hhi.
  rewrite inject_Z_plus in Hhi.
  change (inject_Z 1) with 1 in Hhi.
  generalize dependent (inject_Z (Qfloor (v / 20 + (1 # 2)))). intros k Hlo Hhi.
  assert (Hv : v / 20 == v * (1 # 20)) by field.
  rewrite Hv in Hlo, Hhi. clear Hv.
  assert (E : 20 / 2 == 10) by reflexivity. rewrite E.
  apply Qabs_Qle_condition. split; lra.
Qed.

Lemma toScreen_of_world (zoom pan c : Q) :
  0 < zoom -> (c / zoom - pan + pan) * zoom == c.
Proof. intro Hz. field. intro E. rewrite E in Hz. apply (Qlt_irrefl 0 Hz). Qed.

Lemma toScreen_snap_near (zoom pan c : Q) :
  0 < zoom ->
  Qabs ((snapToGrid (c / zoom - pan) + pan) * zoom - c) <= GRID_SIZE / 2 * zoom.
Proof.
  intro Hz.
  assert (E : (snapToGrid (c / zoom - pan) + pan) * zoom - c
              == (snapToGrid (c / zoom - pan) - (c / zoom - pan)) * zoom).
  { rewrite <- (toScreen_of_world zoom pan c Hz) at 2. ring. }
  rewrite E, Qabs_Qmult, (Qabs_pos zoom) by (apply Qlt_le_weak; exact Hz).
  apply Qmult_le_compat_r; [apply snapToGrid_near | apply Qlt_le_weak; exact Hz].
Qed.

(** C5: for a positive zoom level (every level of the clamped range is
    positive) and any pan offset, the drawing transform [toScreenX/Y] undoes
    the pointer transform of [getMousePos]: exactly on the unsnapped world
    coordinate, and within half a grid cell scaled by the zoom on the
    snapped point that [getMousePos] returns.  Numbers are exact rationals,
    the screen point is taken relative to the canvas rectangle. *)
Theorem C5_transform_round_trip (s : Desktop.State) (rect : DOMRect) (e : ClientPoint) :
  0 < Desktop.zoomLevel s ->
  let zoom := Desktop.zoomLevel s in
  let pan := Desktop.panOffset s in
  Desktop.toScreenX zoom pan (Desktop.worldX zoom pan rect e) == clientX e - left rect
  /\ Desktop.toScreenY zoom pan (Desktop.worldY zoom pan rect e) == clientY e - top rect
  /\ Qabs (Desktop.toScreenX zoom pan (Point.x (Desktop.getMousePos s rect e))
           - (clientX e - left rect)) <= GRID_SIZE / 2 * zoom
  /\ Qabs (Desktop.toScreenY zoom pan (Point.y (Desktop.getMousePos s rect e))
           - (clientY e - top rect)) <= GRID_SIZE / 2 * zoom.
Proof.
  intros Hz zoom pan.
  unfold Desktop.toScreenX, Desktop.toScreenY, Desktop.worldX, Desktop.worldY,
    Desktop.getMousePos; cbn [Point.x Point.y].
  repeat split.
  - apply toScreen_of_world; exact Hz.
  - apply toScreen_of_world; exact Hz.
  - apply toScreen_snap_near; exact Hz.
  - apply toScreen_snap_near; exact Hz.
Qed.

Lemma C5_transform_round_trip_witness :
  let s := Desktop.setPanOffset (Point.mk 7 (-3)) (Desktop.setZoomLevel (3 # 2) Desktop.initial) in
  let rect := mkRect 8 16 in
  let e := mkClient 131 77 in
  Desktop.toScreenX (3 # 2) (Point.mk 7 (-3)) (Desktop.worldX (3 # 2) (Point.mk 7 (-3)) rect e)
    == 131 - 8
  /\ Qabs (Desktop.toScreenX (3 # 2) (Point.mk 7 (-3)) (Point.x (Desktop.getMousePos s rect e))
           - (131 - 8)) <= GRID_SIZE / 2 * (3 # 2).
Proof.
  intros s rect e.
  assert (Hz : 0 < Desktop.zoomLevel s) by (vm_compute; reflexivity).
  destruct (C5_transform_round_trip s rect e Hz) as (H1 & _ & H3 & _).
  split; [exact H1 | exact H3].
Defined.

(** ** Furniture edits *)

Section FurnitureMaps.

Variable fid : string.
Variable upd : FurnitureItem.t -> FurnitureItem.t.
Hypothesis upd_id : forall f, FurnitureItem.id (upd f) = FurnitureItem.id f.

Lemma allFurniture_mapFurniture (g : FurnitureItem.t -> FurnitureItem.t)
    (areas : list AreaData.t) :
  Desktop.allFurniture (Desktop.mapFurniture g areas) = map g (Desktop.allFurniture areas).
Proof.
  unfold Desktop.allFurniture, Desktop.mapFurniture.
  induction areas as [| a rest IH]; [reflexivity |].
  cbn [map flat_map]. rewrite IH, map_app. f_equal.
  unfold furniture_or_empty; cbn [AreaData.furniture].
  destruct (AreaData.furniture a); reflexivity.
Qed.

Lemma find_onItem (l : list FurnitureItem.t) :
  find (fun f => String.eqb (FurnitureItem.id f) fid) (map (Desktop.onItem fid upd) l)
  = option_map upd (find (fun f => String.eqb (FurnitureItem.id f) fid) l).
Proof.
  induction l as [| f rest IH]; [reflexivity |].
  cbn [map find].
  destruct (String.eqb (FurnitureItem.id f) fid) eqn:E.
  - assert (Hf : Desktop.onItem fid upd f = upd f) by (unfold Desktop.onItem; now rewrite E).
    rewrite Hf, upd_id, E. reflexivity.
  - assert (Hf : Desktop.onItem fid upd f = f) by (unfold Desktop.onItem; now rewrite E).
    rewrite Hf, E. exact IH.
Qed.

Lemma findFurniture_onItem (areas : list AreaData.t) :
  Desktop.findFurniture (Desktop.mapFurniture (Desktop.onItem fid upd) areas) fid
  = option_map upd (Desktop.findFurniture areas fid).
Proof.
  unfold Desktop.findFurniture. rewrite allFurniture_mapFurniture. apply find_onItem.
Qed.

End FurnitureMaps.

Lemma findArea_mapFurniture (g : FurnitureItem.t -> FurnitureItem.t)
    (areas : list AreaData.t) (aid : string) (area : AreaData.t) :
  Desktop.findArea areas aid = Some area ->
  exists area',
    Desktop.findArea (Desktop.mapFurniture g areas) aid = Some area'
    /\ AreaData.points area' = AreaData.points area.
Proof.
  unfold Desktop.findArea, Desktop.mapFurniture.
  induction areas as [| a rest IH]; [discriminate |].
  cbn [map find AreaData.id].
  destruct (String.eqb (AreaData.id a) aid).
  - intros [= <-]. eexists; split; reflexivity.
  - exact IH.
Qed.



Lemma areas_setAreas (v : list AreaData.t) (s : Desktop.State) :
  Desktop.areas (Desktop.setAreas v s) = v.
Proof. reflexivity. Qed.

Lemma setAreas_same (s : Desktop.State) : Desktop.setAreas (Desktop.areas s) s = s.
Proof. destruct s; reflexivity. Qed.

(** C10: [resizeFurniture(furnitureId, newSize)] carries no condition: in
    every state and for every size, the items with that id are afterwards
    the same items, in the same places of the furniture lists, with size
    [newSize]; every other item is untouched; no polygon is consulted. *)
Theorem C10_resizeFurniture_unconditional (furnitureId : string) (newSize : Size.t)
    (s : Desktop.State) :
  let s' := Desktop.resizeFurniture furnitureId newSize s in
  Desktop.allFurniture (Desktop.areas s')
  = map (fun f => if String.eqb (FurnitureItem.id f) furnitureId
                  then Desktop.withSize newSize f else f)
        (Desktop.allFurniture (Desktop.areas s))
  /\ Desktop.findFurniture (Desktop.areas s') furnitureId
     = option_map (Desktop.withSize newSize)
         (Desktop.findFurniture (Desktop.areas s) furnitureId)
  /\ map FurnitureItem.size
       (filter (fun f => String.eqb (FurnitureItem.id f) furnitureId)
          (Desktop.allFurniture (Desktop.areas s')))
     = map (fun _ => newSize)
         (filter (fun f => String.eqb (FurnitureItem.id f) furnitureId)
            (Desktop.allFurniture (Desktop.areas s))).
Proof.
  intro s'. subst s'. unfold Desktop.resizeFurniture. rewrite areas_setAreas.
  split; [| split].
  - apply allFurniture_mapFurniture.
  - apply findFurniture_onItem. reflexivity.
  - rewrite allFurniture_mapFurniture.
    induction (Desktop.allFurniture (Desktop.areas s)) as [| f rest IH]; [reflexivity |].
    cbn [map filter].
    destruct (String.eqb (FurnitureItem.id f) furnitureId) eqn:E.
    + assert (Hf : Desktop.onItem furnitureId (Desktop.withSize newSize) f
                   = Desktop.withSize newSize f)
        by (unfold Desktop.onItem; now rewrite E).
      rewrite Hf. cbn [Desktop.withSize FurnitureItem.id]. rewrite E.
      cbn [map FurnitureItem.size]. f_equal. exact IH.
    + assert (Hf : Desktop.onItem furnitureId (Desktop.withSize newSize) f = f)
        by (unfold Desktop.onItem; now rewrite E).
      rewrite Hf, E. exact IH.
Qed.

(** A toolbar resize that leaves the owning polygon is carried out. *)
Example resize_outside_polygon :
  let sofa := FurnitureItem.mk "f1" "sofa" (Point.mk 20 20) "a1" (Size.mk 30 30) None in
  let room := AreaData.mk "a1" "bedroom"
                [Point.mk 0 0; Point.mk 40 0; Point.mk 40 40; Point.mk 0 40] 4 "#3b82f6"
                (Some [sofa]) in
  let s := Desktop.setAreas [room] Desktop.initial in
  let s' := Desktop.resizeFurniture "f1" (Size.mk 300 300) s in
  contained (Desktop.areas s) "f1" = true
  /\ Desktop.findFurniture (Desktop.areas s') "f1"
     = Some (Desktop.withSize (Size.mk 300 300) sofa)
  /\ contained (Desktop.areas s') "f1" = false.
Proof. repeat split; vm_compute; reflexivity. Qed.

(** ** Pointer moves: drag and resize *)

Lemma find_hit {A : Type} (p : A -> bool) (l : list A) (a : A) :
  find p l = Some a -> p a = true.
Proof. intro H. apply (find_some _ _ H). Qed.

Lemma findFurniture_id (areas : list AreaData.t) (fid : string) (item : FurnitureItem.t) :
  Desktop.findFurniture areas fid = Some item -> FurnitureItem.id item = fid.
Proof.
  intro H. apply find_hit in H. apply String.eqb_eq. exact H.
Qed.

(** An accepted edit of the active item leaves it inside its polygon. *)
Lemma contained_after_edit (areas : list AreaData.t) (fid : string)
    (item : FurnitureItem.t) (area : AreaData.t)
    (upd : FurnitureItem.t -> FurnitureItem.t) :
  (forall f, FurnitureItem.id (upd f) = FurnitureItem.id f) ->
  FurnitureItem.areaId (upd item) = FurnitureItem.areaId item ->
  Desktop.findFurniture areas fid = Some item ->
  Desktop.findArea areas (FurnitureItem.areaId item) = Some area ->
  areCornersInsideArea (AreaData.points area) (FurnitureItem.position (upd item))
    (FurnitureItem.size (upd item)) = true ->
  contained (Desktop.mapFurniture (Desktop.onItem fid upd) areas) fid = true.
Proof.
  intros Hid Harea Hitem Hfind Hin. unfold contained.
  rewrite (findFurniture_onItem fid upd Hid), Hitem. cbn [option_map]. rewrite Harea.
  destruct (findArea_mapFurniture (Desktop.onItem fid upd) areas _ area Hfind)
    as (area' & Hfind' & Hpts).
  rewrite Hfind', Hpts. exact Hin.
Qed.

(** One pointer move: nothing changes, or the active item receives the
    proposal, which has passed the four-corner test. *)
Lemma move_step (point : Point.t) (s : Desktop.State) :
  let s' := Desktop.mouseMoveAt point s in
  s' = s
  \/ exists fid item,
       activeItem s = Some fid
       /\ Desktop.findFurniture (Desktop.areas s) fid = Some item
       /\ Desktop.findFurniture (Desktop.areas s') fid = Some (proposal s point item)
       /\ contained (Desktop.areas s') fid = true
       /\ s' = Desktop.setAreas (Desktop.areas s') s.
Proof.
  cbv zeta. unfold Desktop.mouseMoveAt, activeItem, proposal.
  destruct (Desktop.isResizingFurniture s) eqn:Hres;
    destruct (Desktop.truthy (Desktop.resizingFurnitureId s)) as [rid |] eqn:Hrid;
    destruct (Desktop.resizeHandle s) as [h |] eqn:Hh.
  1: {
    unfold Desktop.resizeMove.
    destruct (Desktop.findFurniture (Desktop.areas s) rid) as [item |] eqn:Hitem;
      [| left; reflexivity].
    destruct (Desktop.findArea (Desktop.areas s) (FurnitureItem.areaId item))
      as [area |] eqn:Harea; [| left; reflexivity].
    destruct (areCornersInsideArea (AreaData.points area) (FurnitureItem.position item)
                (Desktop.proposedSize h item point)) eqn:Hin; [| left; reflexivity].
    right. exists rid, item.
    rewrite (findFurniture_id _ _ _ Hitem).
    unfold Desktop.resizeFurniture. rewrite areas_setAreas.
    repeat split.
    - exact Hitem.
    - rewrite findFurniture_onItem by reflexivity. rewrite Hitem. reflexivity.
    - apply (contained_after_edit _ _ item area); try reflexivity; assumption.
  }
  all: destruct (Desktop.isDraggingFurniture s) eqn:Hdrag; [| left; reflexivity].
  all: destruct (Desktop.truthy (Desktop.draggedFurniture s)) as [did |] eqn:Hdid;
    [| left; reflexivity].
  all: unfold Desktop.dragMove.
  all: destruct (Desktop.findFurniture (Desktop.areas s) did) as [item |] eqn:Hitem;
    [| left; reflexivity].
  all: destruct (Desktop.findArea (Desktop.areas s) (FurnitureItem.areaId item))
    as [area |] eqn:Harea; [| left; reflexivity].
  all: destruct (areCornersInsideArea (AreaData.points area) point
                   (FurnitureItem.size item)) eqn:Hin; [| left; reflexivity].
  all: right; exists did, item; cbn [negb]; rewrite areas_setAreas.
  all: repeat split;
    [ exact Hitem
    | rewrite findFurniture_onItem by reflexivity; rewrite Hitem; reflexivity
    | apply (contained_after_edit _ _ item area); try reflexivity; assumption ].
Qed.

Lemma mouseMoveAt_frame (point : Point.t) (s : Desktop.State) :
  Desktop.mouseMoveAt point s
  = Desktop.setAreas (Desktop.areas (Desktop.mouseMoveAt point s)) s.
Proof.
  destruct (move_step point s) as [E | (fid & item & _ & _ & _ & _ & E)].
  - cbv zeta in E. rewrite E. symmetry. apply setAreas_same.
  - exact E.
Qed.




(** A drag inside the room is accepted, a drag across the wall is refused. *)
Example drag_accepted_then_refused :
  let s1 := Desktop.mouseMoveAt (Point.mk 60 40) demo_dragging in
  let s2 := Desktop.mouseMoveAt (Point.mk 200 40) s1 in
  option_map FurnitureItem.position (Desktop.findFurniture (Desktop.areas s1) "f1")
  = Some (Point.mk 60 40)
  /\ s2 = s1.
Proof. split; vm_compute; reflexivity. Qed.

(** A resize with the south-east handle: accepted inside, refused outside. *)
Example resize_accepted_then_refused :
  let s1 := Desktop.mouseMoveAt (Point.mk 140 120) demo_resizing in
  let s2 := Desktop.mouseMoveAt (Point.mk 240 120) s1 in
  option_map FurnitureItem.size (Desktop.findFurniture (Desktop.areas s1) "f1")
  = Some (Size.mk 80 40)
  /\ s2 = s1.
Proof. split; vm_compute; reflexivity. Qed.





(** ** Placement *)

(** C2, as stated, fails: in a triangular room a click at (40,40), which is
    inside the triangle, places a 30 x 30 bed whose corner (55,55) is outside. *)
Lemma C2_counterexample :
  let s' := Desktop.handleCanvasClick (mkRect 0 0) (mkClient 40 40) 1000 1000 placing_bed in
  Desktop.allFurniture (Desktop.areas placing_bed) = []
  /\ Desktop.allFurniture (Desktop.areas s')
     = [FurnitureItem.mk "furniture-1000" "bed" (Point.mk 40 40) "a1" (Size.mk 30 30)
          (Some "#8B4513")]
  /\ areCornersInsideArea (AreaData.points triangle_room) (Point.mk 40 40) (Size.mk 30 30)
     = false
  /\ isPointInPolygon (Point.mk 55 55) (AreaData.points triangle_room) = false.
Proof. repeat split; vm_compute; reflexivity. Qed.

Lemma placeFurniture_areas (position : Point.t) (now : Z) (s : Desktop.State) :
  let s' := Desktop.placeFurniture position now s in
  Desktop.areas s' = Desktop.areas s
  \/ exists sf sa area,
       Desktop.truthy (Desktop.selectedFurniture s) = Some sf
       /\ Desktop.truthy (Desktop.selectedArea s) = Some sa
       /\ Desktop.findArea (Desktop.areas s) sa = Some area
       /\ isPointInPolygon position (AreaData.points area) = true
       /\ Desktop.areas s'
          = Desktop.appendFurniture sa (Desktop.newFurnitureItem now sf position sa)
              (Desktop.areas s).
Proof.
  cbv zeta. unfold Desktop.placeFurniture.
  destruct (Desktop.truthy (Desktop.selectedFurniture s)) as [sf |] eqn:Hsf;
    [| left; reflexivity].
  destruct (Desktop.truthy (Desktop.selectedArea s)) as [sa |] eqn:Hsa;
    [| left; reflexivity].
  destruct (Desktop.findArea (Desktop.areas s) sa) as [area |] eqn:Harea;
    [| left; reflexivity].
  destruct (isPointInPolygon position (AreaData.points area)) eqn:Hin;
    [| left; reflexivity].
  right. exists sf, sa, area. repeat split; try assumption; reflexivity.
Qed.

Lemma placementTap_areas (p : MobileV2.Pending) (position : Point.t) (now : Z)
    (s : MobileV2.State) :
  let s' := MobileV2.placementTap p position now s in
  MobileV2.areas s' = MobileV2.areas s
  \/ exists area,
       find (fun a => String.eqb (AreaData.id a) (MobileV2.pendingAreaId p))
         (MobileV2.areas s) = Some area
       /\ isPointInPolygon position (AreaData.points area) = true
       /\ MobileV2.areas s'
          = MobileV2.appendFurniture (MobileV2.pendingAreaId p)
              (MobileV2.newFurniture now p position) (MobileV2.areas s).
Proof.
  cbv zeta. unfold MobileV2.placementTap.
  destruct (find _ (MobileV2.areas s)) as [area |] eqn:Harea; [| left; reflexivity].
  destruct (isPointInPolygon position (AreaData.points area)) eqn:Hin;
    [| left; reflexivity].
  right. exists area. repeat split; try assumption; reflexivity.
Qed.

(** C2, amended: a placement tap changes the registry only if the tapped
    point itself (the centre of the new item) is inside the polygon of the
    target area; then the new item, of the default size, is appended to the
    furniture list of the area with the target id; otherwise the registry is
    unchanged.  The four corners are not consulted.  Desktop
    [placeFurniture] and the placement branch of the mobile tap agree. *)
Theorem C2_placement_tests_the_tapped_point (position : Point.t) (now : Z) :
  (forall s : Desktop.State,
     let s' := Desktop.placeFurniture position now s in
     Desktop.areas s' = Desktop.areas s
     \/ exists sf sa area,
          Desktop.truthy (Desktop.selectedFurniture s) = Some sf
          /\ Desktop.truthy (Desktop.selectedArea s) = Some sa
          /\ Desktop.findArea (Desktop.areas s) sa = Some area
          /\ isPointInPolygon position (AreaData.points area) = true
          /\ Desktop.areas s'
             = Desktop.appendFurniture sa (Desktop.newFurnitureItem now sf position sa)
                 (Desktop.areas s))
  /\ (forall (p : MobileV2.Pending) (s : MobileV2.State),
        let s' := MobileV2.placementTap p position now s in
        MobileV2.areas s' = MobileV2.areas s
        \/ exists area,
             find (fun a => String.eqb (AreaData.id a) (MobileV2.pendingAreaId p))
               (MobileV2.areas s) = Some area
             /\ isPointInPolygon position (AreaData.points area) = true
             /\ MobileV2.areas s'
                = MobileV2.appendFurniture (MobileV2.pendingAreaId p)
                    (MobileV2.newFurniture now p position) (MobileV2.areas s)).
Proof.
  split.
  - intro s. apply placeFurniture_areas.
  - intros p s. apply placementTap_areas.
Qed.

(** ** Closing a polygon *)




(** The two mobile canvases close the same session on the same tap, with
    the same square footage. *)
Example mobile_close_13 :
  let m := MobileV2.setCurrentPolygon three_points
             (MobileV2.setIsDrawingPolygon true MobileV2.initial) in
  let p := MobilePolygon.setCurrentPolygonPoints three_points
             (MobilePolygon.setIsDrawingPolygon true (MobilePolygon.initial "area")) in
  map AreaData.areaSqFt
    (MobileV2.areas (MobileV2.stateOf (MobileV2.handleCanvasTap (Point.mk 5 5) 1000 m)))
  = [13]
  /\ match MobilePolygon.handleCanvasTap (Point.mk 5 5) 1000 p with
     | MobilePolygon.Completed p' | MobilePolygon.Aborted p' =>
         map AreaData.areaSqFt (MobilePolygon.areas p') = [13]
     end.
Proof. split; vm_compute; reflexivity. Qed.

(** ** The three-point invariant of the registry *)

(** C4, as stated, fails: importing a file whose only area has two points
    puts that area in the registry. *)
Lemma C4_counterexample :
  option_map Desktop.areas
    (Desktop.handleImportFile some_entropy true two_point_file Desktop.initial)
  = Some [AreaData.mk "a1" "bedroom" [Point.mk 0 0; Point.mk 100 100] 0 "#3b82f6" (Some [])]
  /\ option_map (fun s => allPolygons (Desktop.areas s))
       (Desktop.handleImportFile some_entropy true two_point_file Desktop.initial)
     = Some false.
Proof. split; vm_compute; reflexivity. Qed.

Lemma allPolygons_points (l l' : list AreaData.t) :
  map AreaData.points l' = map AreaData.points l -> allPolygons l' = allPolygons l.
Proof.
  unfold allPolygons. revert l'.
  induction l as [| a rest IH]; intros [| a' rest'] H; try discriminate; [reflexivity |].
  cbn [map] in H. injection H as Hp Hrest.
  cbn [forallb]. rewrite Hp, (IH rest' Hrest). reflexivity.
Qed.

Lemma points_mapFurniture (g : FurnitureItem.t -> FurnitureItem.t) (l : list AreaData.t) :
  map AreaData.points (Desktop.mapFurniture g l) = map AreaData.points l.
Proof. unfold Desktop.mapFurniture. rewrite map_map. reflexivity. Qed.

Lemma points_appendFurniture (aid : string) (item : FurnitureItem.t) (l : list AreaData.t) :
  map AreaData.points (Desktop.appendFurniture aid item l) = map AreaData.points l.
Proof.
  unfold Desktop.appendFurniture. rewrite map_map. apply map_ext. intro a.
  destruct (String.eqb (AreaData.id a) aid); reflexivity.
Qed.

Lemma points_appendFurniture_mobile (aid : string) (item : FurnitureItem.t)
    (l : list AreaData.t) :
  map AreaData.points (MobileV2.appendFurniture aid item l) = map AreaData.points l.
Proof.
  unfold MobileV2.appendFurniture. rewrite map_map. apply map_ext. intro a.
  destruct (String.eqb (AreaData.id a) aid); reflexivity.
Qed.

Lemma allPolygons_snoc (l : list AreaData.t) (a : AreaData.t) :
  allPolygons l = true -> (3 <= List.length (AreaData.points a))%nat ->
  allPolygons (l ++ [a]) = true.
Proof.
  intros Hl Ha. unfold allPolygons in *. rewrite forallb_app, Hl. cbn [forallb andb].
  rewrite andb_true_r. apply Nat.leb_le. exact Ha.
Qed.

Lemma closesPolygon_three (poly : list Point.t) (point : Point.t) :
  Desktop.closesPolygon poly point = true -> (3 <= List.length poly)%nat.
Proof.
  unfold Desktop.closesPolygon. intro H. apply andb_prop in H. destruct H as [H _].
  apply Nat.ltb_lt in H. lia.
Qed.

(** The drawing session's click: the registry changes only on a close. *)
Lemma drawingClick_areas (point : Point.t) (now : Z) (s : Desktop.State) :
  let s' := Desktop.drawingClick point now s in
  Desktop.areas s' = Desktop.areas s
  \/ (Desktop.isDrawingPolygon s = true
      /\ Desktop.closesPolygon (Desktop.currentPolygon s) point = true
      /\ Desktop.areas s'
         = Desktop.areas s
           ++ [Desktop.newArea now (Desktop.selectedAreaType s) (Desktop.currentPolygon s)]).
Proof.
  cbv zeta. unfold Desktop.drawingClick.
  destruct (Desktop.isDrawingPolygon s) eqn:Hd; [| left; reflexivity].
  destruct (Desktop.closesPolygon (Desktop.currentPolygon s) point) eqn:Hc;
    [| left; reflexivity].
  right. repeat split; reflexivity.
Qed.

Lemma clickAt_keeps_polygons (point : Point.t) (currentTime now : Z) (s : Desktop.State) :
  allPolygons (Desktop.areas s) = true ->
  allPolygons (Desktop.areas (Desktop.clickAt point currentTime now s)) = true.
Proof.
  intro Hinv. unfold Desktop.clickAt.
  destruct (Desktop.isPlacingFurniture s).
  - destruct (placeFurniture_areas point now (Desktop.setLastClickTime currentTime s))
      as [E | (sf & sa & area & _ & _ & _ & _ & E)]; rewrite E.
    + exact Hinv.
    + cbn [Desktop.areas Desktop.setLastClickTime].
      rewrite (allPolygons_points (Desktop.areas s)); [exact Hinv |].
      apply points_appendFurniture.
  - destruct (Desktop.getFurnitureAtPoint (Desktop.areas s) point) as [f |].
    + destruct (_ && _); exact Hinv.
    + destruct (Desktop.interactionMode s); try exact Hinv.
      match goal with |- context [Desktop.drawingClick point now ?t] =>
        destruct (drawingClick_areas point now t) as [E | (_ & Hc & E)]; rewrite E
      end.
      * exact Hinv.
      * apply allPolygons_snoc; [exact Hinv |].
        apply closesPolygon_three in Hc. exact Hc.
Qed.

Lemma mouseMoveAt_points (point : Point.t) (s : Desktop.State) :
  map AreaData.points (Desktop.areas (Desktop.mouseMoveAt point s))
  = map AreaData.points (Desktop.areas s).
Proof.
  rewrite mouseMoveAt_frame, areas_setAreas.
  unfold Desktop.mouseMoveAt, Desktop.resizeMove, Desktop.dragMove, Desktop.resizeFurniture.
  repeat match goal with
         | |- context [match ?x with _ => _ end] => destruct x
         end;
    rewrite ?areas_setAreas, ?points_mapFurniture; reflexivity.
Qed.

Lemma deleteFurniture_points (fid : string) (s : Desktop.State) :
  map AreaData.points (Desktop.areas (Desktop.deleteFurniture fid s))
  = map AreaData.points (Desktop.areas s).
Proof. unfold Desktop.deleteFurniture. cbn. rewrite map_map. reflexivity. Qed.

(** The registry after the handler has the polygons of the registry before. *)
Ltac same_polygons s Hinv lem :=
  rewrite (allPolygons_points (Desktop.areas s)); [exact Hinv | apply lem].

Lemma step_keeps_polygons (ev : Desktop.Event) (s : Desktop.State) :
  allPolygons (Desktop.areas s) = true ->
  allPolygons (Desktop.areas (Desktop.step ev s)) = true.
Proof.
  intro Hinv.
  destruct ev; cbn [Desktop.step]; try exact Hinv.
  - apply clickAt_keeps_polygons. exact Hinv.
  - unfold Desktop.handleCanvasMouseDown, Desktop.mouseDownAt.
    destruct (Desktop.getResizeHandleHit s _) as [[fid h] |]; [exact Hinv |].
    destruct (Desktop.getFurnitureAtPoint _ _); exact Hinv.
  - unfold Desktop.handleCanvasMouseMove. same_polygons s Hinv mouseMoveAt_points.
  - same_polygons s Hinv points_mapFurniture.
  - same_polygons s Hinv points_mapFurniture.
  - same_polygons s Hinv points_mapFurniture.
  - same_polygons s Hinv deleteFurniture_points.
  - unfold Desktop.undoLastVertex.
    destruct (0 <? _)%nat; [| exact Hinv]. destruct (_ =? 1)%nat; exact Hinv.
  - unfold Desktop.undoMultipleVertices.
    destruct (0 <? _)%nat; [| exact Hinv]. destruct (_ =? 0)%nat; exact Hinv.
  - reflexivity.
Qed.

Lemma drawingClick_short (point : Point.t) (now : Z) (s : Desktop.State) :
  Desktop.isDrawingPolygon s = true ->
  (List.length (Desktop.currentPolygon s) < 3)%nat ->
  Desktop.drawingClick point now s
  = Desktop.setCurrentPolygon (Desktop.currentPolygon s ++ [point]) s.
Proof.
  intros Hd Hlen. unfold Desktop.drawingClick, Desktop.closesPolygon. rewrite Hd.
  assert (E : (2 <? List.length (Desktop.currentPolygon s))%nat = false)
    by (apply Nat.ltb_ge; lia).
  rewrite E. reflexivity.
Qed.

Lemma mobileTap_keeps_polygons (point : Point.t) (now : Z) (s : MobileV2.State) :
  allPolygons (MobileV2.areas s) = true ->
  allPolygons (MobileV2.areas (MobileV2.stateOf (MobileV2.handleCanvasTap point now s)))
  = true.
Proof.
  intro Hinv. unfold MobileV2.handleCanvasTap.
  assert (Hdraw : allPolygons
            (MobileV2.areas
               (MobileV2.stateOf
                  (MobileV2.drawingTap point now (MobileV2.setSelectedFurnitureItem None s))))
          = true).
  { unfold MobileV2.drawingTap.
    cbn [MobileV2.isDrawingPolygon MobileV2.currentPolygon MobileV2.setSelectedFurnitureItem].
    destruct (MobileV2.isDrawingPolygon s); cbn [negb]; [| exact Hinv].
    destruct (MobileV2.currentPolygon s) as [| firstPoint rest] eqn:Hpoly; [exact Hinv |].
    destruct (Qlt_bool _ _ && _) eqn:Hclose; [| exact Hinv].
    apply andb_prop in Hclose. destruct Hclose as [_ Hlen]. apply Nat.leb_le in Hlen.
    cbn [MobileV2.stateOf MobileV2.areas MobileV2.toast MobileV2.setToasts
         MobileV2.setIsDrawingPolygon MobileV2.setCurrentPolygon MobileV2.setAreas
         MobileV2.setSelectedFurnitureItem].
    apply allPolygons_snoc; [exact Hinv | exact Hlen]. }
  destruct (MobileV2.isPlacingFurniture s); [| destruct (MobileV2.furnitureUnder _ _);
                                               [exact Hinv | exact Hdraw]].
  destruct (MobileV2.pendingFurniture s) as [p |];
    [| destruct (MobileV2.furnitureUnder _ _); [exact Hinv | exact Hdraw]].
  cbn [MobileV2.stateOf].
  destruct (placementTap_areas p point now s) as [E | (area & _ & _ & E)]; rewrite E.
  - exact Hinv.
  - rewrite (allPolygons_points (MobileV2.areas s)); [exact Hinv |].
    apply points_appendFurniture_mobile.
Qed.

(** C4, amended: every interactive event of the desktop designer (click,
    pointer down, move and up, furniture rename, resize, recolour and
    delete, selection, cancel, undo, clear, zoom) and every tap of the mobile
    designer keeps "each area of the registry has at least three points".
    A click changes the registry through the drawing session only by
    closing it, which needs at least three working points and a click
    nearer than the threshold to the first of them; with fewer than three
    working points the click appends its point and creates no area.  Areas
    installed by the JSON import are not covered. *)
Theorem C4_events_keep_three_points (ev : Desktop.Event) (point : Point.t) (now : Z)
    (s : Desktop.State) :
  allPolygons (Desktop.areas s) = true ->
  allPolygons (Desktop.areas (Desktop.step ev s)) = true
  /\ (Desktop.areas (Desktop.drawingClick point now s) = Desktop.areas s
      \/ (Desktop.isDrawingPolygon s = true
          /\ (3 <= List.length (Desktop.currentPolygon s))%nat
          /\ Qlt_bool (dist2 point (hd point (Desktop.currentPolygon s))) (10 * 10) = true
          /\ Desktop.areas (Desktop.drawingClick point now s)
             = Desktop.areas s
               ++ [Desktop.newArea now (Desktop.selectedAreaType s)
                     (Desktop.currentPolygon s)]))
  /\ (Desktop.isDrawingPolygon s = true ->
      (List.length (Desktop.currentPolygon s) < 3)%nat ->
      Desktop.drawingClick point now s
      = Desktop.setCurrentPolygon (Desktop.currentPolygon s ++ [point]) s)
  /\ (forall m : MobileV2.State,
        allPolygons (MobileV2.areas m) = true ->
        allPolygons (MobileV2.areas (MobileV2.stateOf (MobileV2.handleCanvasTap point now m)))
        = true).
Proof.
  intro Hinv. split; [| split; [| split]].
  - apply step_keeps_polygons. exact Hinv.
  - destruct (drawingClick_areas point now s) as [E | (Hd & Hc & E)];
      [left; exact E | right].
    repeat split; try assumption.
    + apply closesPolygon_three in Hc. exact Hc.
    + unfold Desktop.closesPolygon in Hc. apply andb_prop in Hc. destruct Hc as [_ Hc].
      destruct (Desktop.currentPolygon s); [discriminate | exact Hc].
  - apply drawingClick_short.
  - intros m Hm. apply mobileTap_keeps_polygons. exact Hm.
Qed.

Lemma C4_events_keep_three_points_witness :
  let s := Desktop.setAreas [demo_room] drawing_three in
  let ev := Desktop.Click (mkRect 0 0) (mkClient 5 5) 1000 1001 in
  allPolygons (Desktop.areas s) = true
  /\ List.length (Desktop.areas (Desktop.step ev s)) = 2%nat
  /\ allPolygons (Desktop.areas (Desktop.step ev s)) = true.
Proof.
  intros s ev.
  split; [reflexivity | split; [vm_compute; reflexivity |]].
  apply (C4_events_keep_three_points ev (Point.mk 5 5) 1001 s). reflexivity.
Defined.

(** ** JSON import *)

(** The desktop import validates: when [data] is not [null] and
    [data.areas] is falsy or not an array, the only effect is the
    invalid-format toast. *)
Lemma desktop_import_rejects (rnd : Desktop.Entropy) (alive : bool) (data dataAreas : Js.value)
    (s : Desktop.State) :
  Js.get "areas" data = Js.Done dataAreas ->
  Js.truthy dataAreas && Js.isArray dataAreas = false ->
  Desktop.handleImportFile rnd alive (Desktop.Text (Some data)) s
  = Some (Desktop.toast "Invalid file format" s).
Proof.
  intros Hget Hbad. cbn [Desktop.handleImportFile]. unfold Desktop.importParsed.
  rewrite Hget.
  destruct (Js.truthy dataAreas); destruct dataAreas; cbn in Hbad |- *;
    try reflexivity; discriminate.
Qed.


(** C7 fails on the mobile designer: a file whose [areas] is the string
    "kitchen" is imported, the registry cell is set to that string and the
    success toast is shown; a file without [areas] is dropped without any
    message.  The desktop designer rejects both with "Invalid file format"
    and keeps its registry. *)
Theorem C7_mobile_import_skips_validation :
  MobileV2.handleImportJSON (Some (Js.Obj [("areas", Js.Str "kitchen")]))
  = [MobileV2.SetAreas (Js.Str "kitchen"); MobileV2.Toast "Floor plan imported"]
  /\ MobileV2.handleImportJSON (Some (Js.Obj [("zoomLevel", Js.Num 2)])) = []
  /\ (forall rnd alive s,
        Desktop.handleImportFile rnd alive
          (Desktop.Text (Some (Js.Obj [("areas", Js.Str "kitchen")]))) s
        = Some (Desktop.toast "Invalid file format" s))
  /\ (forall rnd alive s,
        Desktop.handleImportFile rnd alive
          (Desktop.Text (Some (Js.Obj [("zoomLevel", Js.Num 2)]))) s
        = Some (Desktop.toast "Invalid file format" s)).
Proof.
  repeat split.
Qed.

(** ** The long-press timer *)

(** C9 fails in both touch handlers.  In [MobileCanvasDesignerV2] the
    touch-end of a single finger returns at [e.touches.length !== 1], before
    the [clearTimeout]: the callback of the touch-start runs at 600 ms.  In
    [MobilePolygonCanvas] a touch-move never reaches a [clearTimeout]: the
    callback runs as well. *)
Theorem C9_long_press_runs_after_competing_event :
  MobileV2.longPressRuns v2_tap_trace = [Point.mk 100 0]
  /\ MobileV2.longPressRuns
       (MobileV2.deliver 100 canvas_rect (MobileV2.TouchEvent MobileV2.PEnd [] [finger])
          (MobileV2.deliver 0 canvas_rect
             (MobileV2.TouchEvent MobileV2.PStart [finger] [finger]) MobileV2.boot)) = []
  /\ MobilePolygon.longPressRuns polygon_move_trace = 1%nat.
Proof. repeat split; vm_compute; reflexivity. Qed.

(** The paths that do cancel: a single-finger touch-move in
    [MobileCanvasDesignerV2] removes the timer held in [longPressTimer]. *)
Lemma v2_touch_move_cancels (now : Z) (rect : DOMRect) (c : ClientPoint)
    (w : MobileV2.World) (h : positive) :
  MobileV2.longPressTimer (MobileV2.cells w) = Some h ->
  let w' := MobileV2.handleCanvasTouch now rect
              (MobileV2.TouchEvent MobileV2.PMove [c] [c]) w in
  MobileV2.longPressTimer (MobileV2.cells w') = None
  /\ Forall (fun t => Timers.handle t <> h) (MobileV2.pending w').
Proof.
  intros Hh. cbv zeta. cbn [MobileV2.handleCanvasTouch MobileV2.touchBody].
  unfold MobileV2.cancelLongPress. rewrite Hh. split; [reflexivity |].
  cbn [MobileV2.pending MobileV2.onCells MobileV2.clearTimeout].
  unfold Timers.clearTimeout. apply Forall_forall. intros t Ht.
  apply filter_In in Ht. destruct Ht as [_ Ht].
  apply negb_true_iff, Pos.eqb_neq in Ht. exact Ht.
Qed.

(** A single-finger touch-end in [MobilePolygonCanvas], read from
    [changedTouches], removes the timer held in [longPressTimer]. *)
Lemma polygon_touch_end_cancels (now : Z) (rect : DOMRect) (c : ClientPoint)
    (w : MobilePolygon.World) (h : positive) :
  MobilePolygon.activeTool (MobilePolygon.cells w) = "area" ->
  MobilePolygon.longPressTimer (MobilePolygon.cells w) = Some h ->
  let w' := MobilePolygon.handleCanvasTouch now rect
              (MobilePolygon.TouchEvent MobilePolygon.PEnd [] [c]) w in
  Forall (fun t => Timers.handle t <> h) (MobilePolygon.pending w').
Proof.
  intros Htool Hh. cbv zeta. unfold MobilePolygon.handleCanvasTouch. rewrite Htool.
  cbn [String.eqb Ascii.eqb Bool.eqb negb MobilePolygon.touchBody].
  assert (Hcancel : Forall (fun t => Timers.handle t <> h)
                      (MobilePolygon.pending (MobilePolygon.cancelLongPress w))).
  { unfold MobilePolygon.cancelLongPress. rewrite Hh.
    cbn [MobilePolygon.pending MobilePolygon.onCells MobilePolygon.clearTimeout].
    unfold Timers.clearTimeout. apply Forall_forall. intros t Ht.
    apply filter_In in Ht. destruct Ht as [_ Ht].
    apply negb_true_iff, Pos.eqb_neq in Ht. exact Ht. }
  destruct (Qlt_bool _ _ && _); [| exact Hcancel].
  destruct (MobilePolygon.handleCanvasTap _ _ _); exact Hcancel.
Qed.

(** * Further properties of the code *)

(** ** Grid snapping *)


Lemma Qfloor_plus_half (k : Z) : Qfloor (inject_Z k + (1 # 2)) = k.
Proof.
  pose proof (Qfloor_le (inject_Z k + (1 # 2))) as Hlo.
  pose proof (Qlt_floor (inject_Z k + (1 # 2))) as Hhi.
  set (f := Qfloor (inject_Z k + (1 # 2))) in *.
  assert (H1 : inject_Z f < inject_Z (k + 1)).
  { rewrite inject_Z_plus. change (inject_Z 1) with 1. lra. }
  assert (H2 : inject_Z k < inject_Z (f + 1)) by lra.
  rewrite <- Zlt_Qlt in H1, H2. lia.
Qed.

Lemma snapToGrid_on_grid (v : Q) :
  snapToGrid v = inject_Z (Qfloor (v / GRID_SIZE + (1 # 2))) * GRID_SIZE.
Proof. reflexivity. Qed.

Lemma snapToGrid_multiple (k : Z) :
  snapToGrid (inject_Z k * GRID_SIZE) = inject_Z k * GRID_SIZE.
Proof.
  unfold snapToGrid. f_equal. unfold Math_round. f_equal.
  rewrite <- (Qfloor_plus_half k) at 2.
  apply Qfloor_comp. unfold GRID_SIZE. field.
Qed.

Lemma snapToGrid_idempotent (v : Q) : snapToGrid (snapToGrid v) = snapToGrid v.
Proof. rewrite (snapToGrid_on_grid v). apply snapToGrid_multiple. Qed.

(** X1: every point that [getMousePos] hands to the handlers is a grid
    point: both coordinates are integer multiples of [GRID_SIZE], and
    snapping them again changes nothing. *)
Theorem X1_getMousePos_on_grid (s : Desktop.State) (rect : DOMRect) (e : ClientPoint) :
  let p := Desktop.getMousePos s rect e in
  (exists kx ky : Z,
      Point.x p = inject_Z kx * GRID_SIZE /\ Point.y p = inject_Z ky * GRID_SIZE)
  /\ snapToGrid (Point.x p) = Point.x p
  /\ snapToGrid (Point.y p) = Point.y p.
Proof.
  cbv zeta. unfold Desktop.getMousePos. cbn [Point.x Point.y].
  split; [| split; apply snapToGrid_idempotent].
  eexists; eexists; split; apply snapToGrid_on_grid.
Qed.

(** ** The crossing test on rectangles *)

Lemma Qle_bool_comp_r (a b b' : Q) : b == b' -> Qle_bool a b = Qle_bool a b'.
Proof. intro E. rewrite E. reflexivity. Qed.

Lemma Qle_bool_comp_l (a a' b : Q) : a == a' -> Qle_bool a b = Qle_bool a' b.
Proof. intro E. rewrite E. reflexivity. Qed.

(** Decide a goal on [Qle_bool] atoms by cases, with [lra] on the facts. *)
Ltac qle_cases :=
  repeat match goal with
         | |- context [Qle_bool ?a ?b] =>
             let H := fresh "H" in
             destruct (Qle_bool a b) eqn:H;
             [apply Qle_bool_iff in H | apply Qle_bool_false_lt in H]
         end;
  cbn; try reflexivity; exfalso; lra.

Lemma edge_vertical (p : Point.t) (xv ya yb : Q) :
  edge_crossed p (Point.mk xv ya) (Point.mk xv yb)
  = negb (Bool.eqb (Qgt_bool ya (Point.y p)) (Qgt_bool yb (Point.y p)))
    && Qlt_bool (Point.x p) xv.
Proof.
  unfold edge_crossed. cbn [Point.x Point.y]. f_equal.
  unfold Qlt_bool. f_equal. apply Qle_bool_comp_l. unfold Qdiv. ring.
Qed.

Lemma edge_horizontal (p : Point.t) (xa xb yh : Q) :
  edge_crossed p (Point.mk xa yh) (Point.mk xb yh) = false.
Proof.
  unfold edge_crossed. cbn [Point.x Point.y]. rewrite Bool.eqb_reflx. reflexivity.
Qed.

Lemma isPointInPolygon_rectangle (x0 y0 x1 y1 : Q) (p : Point.t) :
  x0 <= x1 -> y0 < y1 ->
  isPointInPolygon p (rectangle x0 y0 x1 y1)
  = Qle_bool x0 (Point.x p) && Qlt_bool (Point.x p) x1
    && Qle_bool y0 (Point.y p) && Qlt_bool (Point.y p) y1.
Proof.
  intros Hx Hy. unfold isPointInPolygon, rectangle.
  cbn [last crossing_loop].
  rewrite (edge_vertical p x0 y0 y1), (edge_horizontal p x1 x0 y0),
    (edge_vertical p x1 y1 y0), (edge_horizontal p x0 x1 y1).
  unfold Qgt_bool, Qlt_bool.
  destruct p as [px py]. cbn [Point.x Point.y].
  qle_cases.
Qed.

(** X2: on an axis-aligned rectangle the crossing test is exactly the
    half-open box test: a point is inside when [x0 <= x < x1] and
    [y0 <= y < y1].  Points on the left and top sides count as inside,
    points on the right and bottom sides as outside. *)
Theorem X2_rectangle_is_half_open_box (x0 y0 x1 y1 : Q) (p : Point.t) :
  x0 <= x1 -> y0 < y1 ->
  isPointInPolygon p (rectangle x0 y0 x1 y1)
  = Qle_bool x0 (Point.x p) && Qlt_bool (Point.x p) x1
    && Qle_bool y0 (Point.y p) && Qlt_bool (Point.y p) y1.
Proof. apply isPointInPolygon_rectangle. Qed.

Lemma X2_rectangle_is_half_open_box_witness :
  isPointInPolygon (Point.mk 0 40) (rectangle 0 0 200 100) = true
  /\ isPointInPolygon (Point.mk 200 40) (rectangle 0 0 200 100) = false.
Proof.
  split.
  - rewrite (X2_rectangle_is_half_open_box 0 0 200 100 (Point.mk 0 40));
      [reflexivity | vm_compute; discriminate | vm_compute; reflexivity].
  - rewrite (X2_rectangle_is_half_open_box 0 0 200 100 (Point.mk 200 40));
      [reflexivity | vm_compute; discriminate | vm_compute; reflexivity].
Defined.

(** X3: in a rectangular room an item of non-negative size passes the
    four-corner test exactly when its left and top edges are on or inside
    the walls and its right and bottom edges are strictly inside: an item
    may touch the left and top walls but not the right and bottom ones. *)
Theorem X3_corners_in_rectangular_room (x0 y0 x1 y1 : Q) (center : Point.t) (size : Size.t) :
  x0 <= x1 -> y0 < y1 -> 0 <= Size.width size -> 0 <= Size.height size ->
  areCornersInsideArea (rectangle x0 y0 x1 y1) center size
  = Qle_bool x0 (Point.x center - Size.width size / 2)
    && Qlt_bool (Point.x center + Size.width size / 2) x1
    && Qle_bool y0 (Point.y center - Size.height size / 2)
    && Qlt_bool (Point.y center + Size.height size / 2) y1.
Proof.
  intros Hx Hy Hw Hh. unfold areCornersInsideArea, getFurnitureCorners.
  cbn [forallb].
  rewrite !isPointInPolygon_rectangle by assumption.
  cbn [Point.x Point.y]. unfold Qlt_bool.
  destruct center as [cx cy], size as [w h]. cbn [Point.x Point.y Size.width Size.height] in *.
  assert (Hw2 : 0 <= w / 2) by (unfold Qdiv; apply Qmult_le_0_compat; [exact Hw | discriminate]).
  assert (Hh2 : 0 <= h / 2) by (unfold Qdiv; apply Qmult_le_0_compat; [exact Hh | discriminate]).
  generalize dependent (w / 2). generalize dependent (h / 2). intros hh Hhh hw Hhw.
  qle_cases.
Qed.

Lemma X3_corners_in_rectangular_room_witness :
  areCornersInsideArea (rectangle 0 0 200 100) (Point.mk 15 15) (Size.mk 30 30) = true
  /\ areCornersInsideArea (rectangle 0 0 200 100) (Point.mk 185 15) (Size.mk 30 30) = false.
Proof.
  split.
  - rewrite (X3_corners_in_rectangular_room 0 0 200 100 (Point.mk 15 15) (Size.mk 30 30));
      [reflexivity | vm_compute; discriminate | vm_compute; reflexivity
       | vm_compute; discriminate | vm_compute; discriminate].
  - rewrite (X3_corners_in_rectangular_room 0 0 200 100 (Point.mk 185 15) (Size.mk 30 30));
      [reflexivity | vm_compute; discriminate | vm_compute; reflexivity
       | vm_compute; discriminate | vm_compute; discriminate].
Defined.

(** ** The shoelace area *)














(** ** Zoom *)

Lemma Math_min_le_l (a b : Q) : Math_min a b <= a.
Proof.
  unfold Math_min. destruct (Qle_bool a b) eqn:E.
  - apply Qle_refl.
  - apply Qlt_le_weak, Qle_bool_false_lt, E.
Qed.

Lemma Math_min_le_r (a b : Q) : Math_min a b <= b.
Proof.
  unfold Math_min. destruct (Qle_bool a b) eqn:E.
  - apply Qle_bool_iff, E.
  - apply Qle_refl.
Qed.

Lemma Math_max_ge_l (a b : Q) : a <= Math_max a b.
Proof.
  unfold Math_max. destruct (Qle_bool a b) eqn:E.
  - apply Qle_bool_iff, E.
  - apply Qle_refl.
Qed.

Lemma Math_max_ge_r (a b : Q) : b <= Math_max a b.
Proof.
  unfold Math_max. destruct (Qle_bool a b) eqn:E.
  - apply Qle_refl.
  - apply Qlt_le_weak, Qle_bool_false_lt, E.
Qed.

Lemma Math_min_glb (a b c : Q) : c <= a -> c <= b -> c <= Math_min a b.
Proof. intros Ha Hb. unfold Math_min. destruct (Qle_bool a b); assumption. Qed.

Lemma Math_max_lub (a b c : Q) : a <= c -> b <= c -> Math_max a b <= c.
Proof. intros Ha Hb. unfold Math_max. destruct (Qle_bool a b); assumption. Qed.

(** X7: a wheel event always leaves the zoom level between 0.3 and 3, and
    it keeps the world point under the pointer where it is: the unsnapped
    world coordinates of the pointer are the same before and after. *)
Theorem X7_wheel_zoom_is_anchored (rect : DOMRect) (e : ClientPoint) (zoomFactor : Q)
    (s : Desktop.State) :
  0 < Desktop.zoomLevel s ->
  let s' := Desktop.handleWheel rect e zoomFactor s in
  (3 # 10) <= Desktop.zoomLevel s' /\ Desktop.zoomLevel s' <= 3
  /\ Desktop.worldX (Desktop.zoomLevel s') (Desktop.panOffset s') rect e
     == Desktop.worldX (Desktop.zoomLevel s) (Desktop.panOffset s) rect e
  /\ Desktop.worldY (Desktop.zoomLevel s') (Desktop.panOffset s') rect e
     == Desktop.worldY (Desktop.zoomLevel s) (Desktop.panOffset s) rect e.
Proof.
  intros Hz s'. subst s'. unfold Desktop.handleWheel, Desktop.worldX, Desktop.worldY.
  cbn [Desktop.zoomLevel Desktop.panOffset Desktop.setPanOffset Desktop.setZoomLevel
       Point.x Point.y].
  repeat split.
  - apply Math_min_glb; [discriminate | apply Math_max_ge_l].
  - apply Math_min_le_l.
  - unfold Qdiv. ring.
  - unfold Qdiv. ring.
Qed.

Lemma X7_wheel_zoom_is_anchored_witness :
  let s' := Desktop.handleWheel (mkRect 0 0) (mkClient 300 200) (2 # 1) Desktop.initial in
  Desktop.zoomLevel s' <= 3
  /\ Desktop.worldX (Desktop.zoomLevel s') (Desktop.panOffset s') (mkRect 0 0)
       (mkClient 300 200) == 300.
Proof.
  destruct (X7_wheel_zoom_is_anchored (mkRect 0 0) (mkClient 300 200) (2 # 1)
              Desktop.initial) as (_ & H2 & H3 & _).
  - vm_compute. reflexivity.
  - split; [exact H2 | rewrite H3; vm_compute; reflexivity].
Defined.

(** ** Invariants of the desktop events *)

(** Split on every [match] and [if] of the goal. *)
Ltac split_matches :=
  repeat match goal with
         | |- context [match ?x with _ => _ end] => destruct x eqn:?
         end.

Ltac unfold_handlers :=
  unfold Desktop.step, Desktop.handleCanvasClick, Desktop.clickAt, Desktop.placeFurniture,
    Desktop.drawingClick, Desktop.closePolygon, Desktop.handleCanvasMouseDown,
    Desktop.mouseDownAt, Desktop.handleCanvasMouseMove, Desktop.mouseMoveAt,
    Desktop.resizeMove, Desktop.dragMove, Desktop.handleCanvasMouseUp,
    Desktop.renameFurniture, Desktop.resizeFurniture, Desktop.changeFurnitureColor,
    Desktop.deleteFurniture, Desktop.handleFurnitureSelect, Desktop.handleRoomTypeSelect,
    Desktop.cancelPlacement, Desktop.cancelCurrentPolygon, Desktop.undoLastVertex,
    Desktop.undoMultipleVertices, Desktop.clearCanvas, Desktop.toast.

Lemma step_zoom_frame (ev : Desktop.Event) (s : Desktop.State) :
  ev <> Desktop.ZoomIn -> ev <> Desktop.ZoomOut ->
  Desktop.zoomLevel (Desktop.step ev s) = Desktop.zoomLevel s
  /\ Desktop.panOffset (Desktop.step ev s) = Desktop.panOffset s.
Proof.
  intros Hin Hout.
  destruct ev; try congruence; unfold_handlers; split; split_matches; reflexivity.
Qed.

(** X8: every interactive event keeps the zoom level between 0.3 and 3:
    the zoom buttons clamp, and no other event writes the zoom level. *)
Theorem X8_zoom_stays_in_range (ev : Desktop.Event) (s : Desktop.State) :
  (3 # 10) <= Desktop.zoomLevel s <= 3 ->
  (3 # 10) <= Desktop.zoomLevel (Desktop.step ev s) <= 3.
Proof.
  intros [Hlo Hhi].
  destruct ev;
    match goal with
    | |- context [Desktop.step ?e s] =>
        try (destruct (step_zoom_frame e s) as [E _];
             [discriminate | discriminate | rewrite E; split; assumption])
    end.
  - cbn [Desktop.step]. unfold Desktop.handleZoomIn. cbn [Desktop.zoomLevel Desktop.setZoomLevel].
    split; [apply Math_min_glb; lra | apply Math_min_le_r].
  - cbn [Desktop.step]. unfold Desktop.handleZoomOut. cbn [Desktop.zoomLevel Desktop.setZoomLevel].
    split; [apply Math_max_ge_r | apply Math_max_lub; [| lra]].
    assert (E : Desktop.zoomLevel s / (12 # 10) == Desktop.zoomLevel s * (10 # 12)) by field.
    rewrite E. lra.
Qed.

Lemma X8_zoom_stays_in_range_witness :
  (3 # 10) <= Desktop.zoomLevel (Desktop.step Desktop.ZoomIn Desktop.initial) <= 3.
Proof.
  apply (X8_zoom_stays_in_range Desktop.ZoomIn Desktop.initial).
  split; vm_compute; discriminate.
Defined.

(** X9: every interactive event keeps the drawing flag and the working
    point list in step: [isDrawingPolygon] is true exactly when
    [currentPolygon] is not empty (start, add, close, cancel, both undo
    buttons and clear all restore this). *)
Theorem X9_session_flag_matches_points (ev : Desktop.Event) (s : Desktop.State) :
  sessionConsistent s -> sessionConsistent (Desktop.step ev s).
Proof.
  unfold sessionConsistent. intro Hs.
  destruct ev; unfold_handlers; unfold Desktop.slice0; split_matches;
    cbn [Desktop.isDrawingPolygon Desktop.currentPolygon Desktop.setToasts
         Desktop.setIsDrawingPolygon Desktop.setCurrentPolygon Desktop.setAreas
         Desktop.setShowResizeHandles Desktop.setSelectedFurnitureItem
         Desktop.setLastClickTime Desktop.setIsPlacingFurniture Desktop.setSelectedArea
         Desktop.setSelectedFurniture Desktop.setInteractionMode Desktop.setResizeHandle
         Desktop.setResizingFurnitureId Desktop.setIsResizingFurniture
         Desktop.setDragStartPos Desktop.setDraggedFurniture Desktop.setIsDraggingFurniture
         Desktop.setSelectedAreaType Desktop.handleZoomIn Desktop.handleZoomOut
         Desktop.setZoomLevel] in *;
    try assumption; try reflexivity.
  all: try (match goal with
            | H : Desktop.currentPolygon _ = _, Hs : Desktop.isDrawingPolygon _ = _ |- _ =>
                rewrite H in Hs; cbn in Hs; congruence
            end).
  all: try (match goal with
            | H : _ ++ [_] = [] |- _ => apply app_eq_nil in H; destruct H; discriminate
            end).
  all: try discriminate.
  all: destruct (Desktop.currentPolygon s) as [| a [| b [| c r]]];
    cbn in *; try discriminate; try assumption.
Qed.

Lemma X9_session_flag_matches_points_witness :
  sessionConsistent
    (Desktop.step (Desktop.Click (mkRect 0 0) (mkClient 40 40) 1000 1000) Desktop.initial).
Proof.
  apply (X9_session_flag_matches_points _ Desktop.initial). reflexivity.
Defined.

(** ** Handle resize, hit test, delete, placement *)

Lemma clampSize_range (v : Q) : 20 <= Desktop.clampSize v /\ Desktop.clampSize v <= 300.
Proof.
  unfold Desktop.clampSize. split.
  - apply Math_max_ge_l.
  - apply Math_max_lub; [discriminate | apply Math_min_le_l].
Qed.

(** X10: whatever the handle, the item and the pointer position, the size
    that a handle resize proposes has both dimensions between 20 and 300:
    each corner handle recomputes the width and the height and clamps both. *)
Theorem X10_handle_resize_is_clamped (h : Desktop.Handle) (item : FurnitureItem.t)
    (point : Point.t) :
  let sz := Desktop.proposedSize h item point in
  20 <= Size.width sz /\ Size.width sz <= 300
  /\ 20 <= Size.height sz /\ Size.height sz <= 300.
Proof.
  cbv zeta. unfold Desktop.proposedSize.
  destruct h; cbn [Desktop.includes_e Desktop.includes_w Desktop.includes_s
                   Desktop.includes_n Size.width Size.height];
    repeat split; apply clampSize_range.
Qed.

Lemma find_app_first {A : Type} (p : A -> bool) (l1 l2 : list A) :
  find p (l1 ++ l2) = match find p l1 with Some a => Some a | None => find p l2 end.
Proof.
  induction l1 as [| a l1 IH]; [reflexivity |].
  cbn [app find]. destruct (p a); [reflexivity | exact IH].
Qed.

Lemma getFurnitureAtPoint_flat (areas : list AreaData.t) (point : Point.t) :
  Desktop.getFurnitureAtPoint areas point
  = find (Desktop.rectContains point) (Desktop.allFurniture areas).
Proof.
  unfold Desktop.allFurniture.
  induction areas as [| a rest IH]; [reflexivity |].
  cbn [Desktop.getFurnitureAtPoint flat_map]. rewrite find_app_first.
  destruct (find (Desktop.rectContains point) (furniture_or_empty a)); [reflexivity | exact IH].
Qed.

(** X11: the hit test returns the first item, in area order and then in
    furniture-list order, whose rectangle contains the point, and [None]
    exactly when no item of any area contains it. *)
Theorem X11_hit_test_is_first_match (areas : list AreaData.t) (point : Point.t) :
  Desktop.getFurnitureAtPoint areas point
  = find (Desktop.rectContains point) (Desktop.allFurniture areas)
  /\ (Desktop.getFurnitureAtPoint areas point = None
      <-> forallb (fun f => negb (Desktop.rectContains point f))
            (Desktop.allFurniture areas) = true).
Proof.
  split; [apply getFurnitureAtPoint_flat |].
  rewrite getFurnitureAtPoint_flat.
  induction (Desktop.allFurniture areas) as [| f l IH]; cbn [find forallb].
  - split; reflexivity.
  - destruct (Desktop.rectContains point f); cbn [negb andb].
    + split; discriminate.
    + exact IH.
Qed.

Lemma allFurniture_delete (fid : string) (s : Desktop.State) :
  Desktop.allFurniture (Desktop.areas (Desktop.deleteFurniture fid s))
  = filter (fun f => negb (String.eqb (FurnitureItem.id f) fid))
      (Desktop.allFurniture (Desktop.areas s)).
Proof.
  unfold Desktop.deleteFurniture. cbn [Desktop.areas Desktop.toast Desktop.setToasts
    Desktop.setSelectedFurnitureItem Desktop.setAreas].
  unfold Desktop.allFurniture.
  induction (Desktop.areas s) as [| a rest IH]; [reflexivity |].
  cbn [map flat_map]. rewrite filter_app, IH. f_equal.
  unfold furniture_or_empty. cbn [AreaData.furniture].
  destruct (AreaData.furniture a); reflexivity.
Qed.

(** X12: deleting a furniture id removes every item with that id from every
    area and keeps all other items in order; afterwards the id is not found,
    no hit test returns an item with that id, and nothing is selected. *)
Theorem X12_delete_removes_the_item (fid : string) (s : Desktop.State) (point : Point.t) :
  let s' := Desktop.deleteFurniture fid s in
  Desktop.allFurniture (Desktop.areas s')
  = filter (fun f => negb (String.eqb (FurnitureItem.id f) fid))
      (Desktop.allFurniture (Desktop.areas s))
  /\ Desktop.findFurniture (Desktop.areas s') fid = None
  /\ match Desktop.getFurnitureAtPoint (Desktop.areas s') point with
     | Some f => FurnitureItem.id f <> fid
     | None => True
     end
  /\ Desktop.selectedFurnitureItem s' = None.
Proof.
  cbv zeta. split; [apply allFurniture_delete | split; [| split; [| reflexivity]]].
  - unfold Desktop.findFurniture. rewrite allFurniture_delete.
    destruct (find _ (filter _ _)) as [f |] eqn:E; [| reflexivity].
    apply find_some in E. destruct E as [Hin Hid].
    apply filter_In in Hin. destruct Hin as [_ Hne].
    rewrite Hid in Hne. discriminate.
  - rewrite getFurnitureAtPoint_flat, allFurniture_delete.
    destruct (find _ (filter _ _)) as [f |] eqn:E; [| exact I].
    apply find_some in E. destruct E as [Hin _].
    apply filter_In in Hin. destruct Hin as [_ Hne].
    apply negb_true_iff, String.eqb_neq in Hne. exact Hne.
Qed.

Lemma rectContains_center (f : FurnitureItem.t) :
  0 <= Size.width (FurnitureItem.size f) -> 0 <= Size.height (FurnitureItem.size f) ->
  Desktop.rectContains (FurnitureItem.position f) f = true.
Proof.
  intros Hw Hh. unfold Desktop.rectContains, Qge_bool.
  destruct f as [fid fname [px py] aid [w h] c].
  cbn [FurnitureItem.position FurnitureItem.size Size.width Size.height Point.x Point.y] in *.
  assert (Hw2 : 0 <= w / 2) by (unfold Qdiv; apply Qmult_le_0_compat; [exact Hw | discriminate]).
  assert (Hh2 : 0 <= h / 2) by (unfold Qdiv; apply Qmult_le_0_compat; [exact Hh | discriminate]).
  generalize dependent (w / 2). generalize dependent (h / 2). intros hh Hhh hw Hhw.
  qle_cases.
Qed.

Lemma appendFurniture_In (aid : string) (item : FurnitureItem.t) (areas : list AreaData.t)
    (area : AreaData.t) :
  Desktop.findArea areas aid = Some area ->
  In item (Desktop.allFurniture (Desktop.appendFurniture aid item areas)).
Proof.
  unfold Desktop.findArea, Desktop.allFurniture, Desktop.appendFurniture.
  induction areas as [| a rest IH]; [discriminate |].
  cbn [find map flat_map]. intro H. apply in_or_app.
  destruct (String.eqb (AreaData.id a) aid).
  - left. unfold furniture_or_empty at 1. cbn [AreaData.furniture].
    apply in_or_app. right. left. reflexivity.
  - right. apply IH. exact H.
Qed.

(** X13: a placement either leaves the registry as it is, or it ends
    placement mode and the new item is then under the tapped point: the hit
    test at that point finds a furniture item. *)
Theorem X13_placed_item_is_under_the_tap (position : Point.t) (now : Z) (s : Desktop.State) :
  let s' := Desktop.placeFurniture position now s in
  Desktop.areas s' = Desktop.areas s
  \/ (Desktop.isPlacingFurniture s' = false
      /\ Desktop.selectedFurniture s' = None
      /\ Desktop.selectedArea s' = None
      /\ exists f, Desktop.getFurnitureAtPoint (Desktop.areas s') position = Some f).
Proof.
  cbv zeta.
  destruct (placeFurniture_areas position now s)
    as [E | (sf & sa & area & Hsf & Hsa & Harea & Hin & E)]; [left; exact E | right].
  assert (Hs' : Desktop.placeFurniture position now s
                = Desktop.toast
                    (String.append sf
                       (String.append " placed in " (getAreaName (AreaData.type area))))
                    (Desktop.setIsPlacingFurniture false
                       (Desktop.setSelectedArea None
                          (Desktop.setSelectedFurniture None
                             (Desktop.setAreas
                                (Desktop.appendFurniture sa
                                   (Desktop.newFurnitureItem now sf position sa)
                                   (Desktop.areas s)) s))))).
  { unfold Desktop.placeFurniture. rewrite Hsf, Hsa, Harea, Hin. reflexivity. }
  rewrite Hs'. repeat split.
  cbn [Desktop.areas Desktop.toast Desktop.setToasts Desktop.setIsPlacingFurniture
       Desktop.setSelectedArea Desktop.setSelectedFurniture Desktop.setAreas].
  rewrite getFurnitureAtPoint_flat.
  destruct (find _ _) as [f |] eqn:Hfind; [exists f; reflexivity |].
  exfalso.
  pose proof (find_none _ _ Hfind _ (appendFurniture_In sa _ _ area Harea)) as Hno.
  assert (Hc : Desktop.rectContains position (Desktop.newFurnitureItem now sf position sa)
               = true)
    by (apply (rectContains_center (Desktop.newFurnitureItem now sf position sa));
        discriminate).
  rewrite Hc in Hno. discriminate.
Qed.

(** ** Pointer up *)

Lemma mouseMoveAt_idle (point : Point.t) (s : Desktop.State) :
  Desktop.isResizingFurniture s = false ->
  Desktop.isDraggingFurniture s = false ->
  Desktop.mouseMoveAt point s = s.
Proof.
  intros Hr Hd. unfold Desktop.mouseMoveAt. rewrite Hr, Hd.
  destruct (Desktop.truthy (Desktop.resizingFurnitureId s));
    destruct (Desktop.truthy (Desktop.draggedFurniture s)); reflexivity.
Qed.

(** X14: after a pointer-up no drag or resize goes on: however the pointer
    moves afterwards, nothing in the component changes. *)
Theorem X14_no_move_after_pointer_up (events : list (DOMRect * ClientPoint))
    (s : Desktop.State) :
  moves events (Desktop.handleCanvasMouseUp s) = Desktop.handleCanvasMouseUp s.
Proof.
  unfold moves.
  induction events as [| ev rest IH]; [reflexivity |].
  cbn [fold_left]. unfold Desktop.handleCanvasMouseMove at 2.
  rewrite mouseMoveAt_idle by reflexivity. exact IH.
Qed.

(** ** Undo *)

(** X15: undoing right after a click that did not close the polygon brings
    the drawing session back to where it was: the same working points and
    the same drawing flag (also when the click had started the session), and
    the registry untouched. *)
Theorem X15_undo_reverts_a_click (point : Point.t) (now : Z) (s : Desktop.State) :
  sessionConsistent s ->
  Desktop.closesPolygon (Desktop.currentPolygon s) point = false ->
  let s' := Desktop.undoLastVertex (Desktop.drawingClick point now s) in
  Desktop.currentPolygon s' = Desktop.currentPolygon s
  /\ Desktop.isDrawingPolygon s' = Desktop.isDrawingPolygon s
  /\ Desktop.areas s' = Desktop.areas s.
Proof.
  unfold sessionConsistent. intros Hs Hc. cbv zeta.
  unfold Desktop.drawingClick. rewrite Hc.
  destruct (Desktop.currentPolygon s) as [| p rest] eqn:Hpoly.
  - rewrite Hs. unfold Desktop.undoLastVertex. cbn. repeat split.
  - rewrite Hs. unfold Desktop.undoLastVertex, Desktop.slice0.
    cbn [Desktop.currentPolygon Desktop.setCurrentPolygon].
    assert (Hlen : (List.length ((p :: rest) ++ [point]) - 1 = List.length (p :: rest))%nat)
      by (rewrite length_app; cbn; lia).
    assert (Hpos : (0 <? List.length ((p :: rest) ++ [point]))%nat = true)
      by (rewrite length_app; cbn; reflexivity).
    assert (Hne : (List.length ((p :: rest) ++ [point]) =? 1)%nat = false)
      by (rewrite length_app; cbn; apply Nat.eqb_neq; lia).
    rewrite Hpos, Hne, Hlen.
    rewrite firstn_app, firstn_all, Nat.sub_diag. cbn [firstn].
    rewrite app_nil_r.
    cbn [Desktop.currentPolygon Desktop.isDrawingPolygon Desktop.areas Desktop.toast
         Desktop.setToasts Desktop.setCurrentPolygon].
    rewrite Hs. repeat split.
Qed.

Lemma X15_undo_reverts_a_click_witness :
  let s := drawing_three in
  let s' := Desktop.undoLastVertex (Desktop.drawingClick (Point.mk 200 200) 1000 s) in
  Desktop.currentPolygon s' = three_points /\ Desktop.isDrawingPolygon s' = true.
Proof.
  destruct (X15_undo_reverts_a_click (Point.mk 200 200) 1000 drawing_three)
    as (H1 & H2 & _); [reflexivity | reflexivity |].
  split; [exact H1 | exact H2].
Defined.

(** ** The long-press timer, where it is cancelled *)

Lemma v2_advance_idle (now : Z) (w : MobileV2.World) :
  MobileV2.pending w = [] -> MobileV2.advance now w = w.
Proof.
  intro H. unfold MobileV2.advance. rewrite H. cbn. rewrite <- H. destruct w; reflexivity.
Qed.

(** X16: in [MobileCanvasDesignerV2], when a single-finger touch-move
    follows a touch-start within 600 ms (no other timer pending), the
    long-press timer is removed and its callback never runs, however much
    time passes afterwards. *)
Theorem X16_v2_touch_move_cancels_long_press (rect : DOMRect) (c c' : ClientPoint)
    (start moved later : Z) (w : MobileV2.World) :
  MobileV2.pending w = [] ->
  (moved < start + 600)%Z ->
  let w1 := MobileV2.deliver start rect (MobileV2.TouchEvent MobileV2.PStart [c] [c]) w in
  let w2 := MobileV2.deliver moved rect (MobileV2.TouchEvent MobileV2.PMove [c'] [c']) w1 in
  MobileV2.pending w2 = []
  /\ MobileV2.longPressTimer (MobileV2.cells w2) = None
  /\ MobileV2.longPressRuns (MobileV2.advance later w2) = MobileV2.longPressRuns w.
Proof.
  intros Hidle Hsoon. cbv zeta.
  destruct w as [cs pend nh runs]. cbn [MobileV2.pending] in Hidle. subst pend.
  unfold MobileV2.deliver, MobileV2.advance.
  cbn -[MobileV2.getCanvasPoint Z.add Z.leb].
  assert (Hnot : (start + 600 <=? moved)%Z = false) by (apply Z.leb_gt; exact Hsoon).
  rewrite Hnot.
  cbn -[MobileV2.getCanvasPoint Z.add Z.leb].
  rewrite Pos.eqb_refl.
  cbn -[MobileV2.getCanvasPoint Z.add Z.leb].
  repeat split.
Qed.

(** X17: in [MobilePolygonCanvas] with the area tool, when the finger is
    lifted within 600 ms of the touch-start (no other timer pending), the
    long-press timer is removed and its callback never runs afterwards,
    whether or not the release counts as a tap. *)
Theorem X17_polygon_touch_end_cancels_long_press (rect : DOMRect) (c c' : ClientPoint)
    (start ended later : Z) (w : MobilePolygon.World) :
  MobilePolygon.activeTool (MobilePolygon.cells w) = "area" ->
  MobilePolygon.pending w = [] ->
  (ended < start + 600)%Z ->
  let w1 := MobilePolygon.deliver start rect
              (MobilePolygon.TouchEvent MobilePolygon.PStart [c] [c]) w in
  let w2 := MobilePolygon.deliver ended rect
              (MobilePolygon.TouchEvent MobilePolygon.PEnd [] [c']) w1 in
  MobilePolygon.pending w2 = []
  /\ MobilePolygon.longPressRuns (MobilePolygon.advance later w2)
     = MobilePolygon.longPressRuns w.
Proof.
  intros Htool Hidle Hsoon. cbv zeta.
  destruct w as [cs pend nh runs]. cbn [MobilePolygon.pending MobilePolygon.cells] in *.
  subst pend.
  unfold MobilePolygon.deliver, MobilePolygon.advance, MobilePolygon.dispatch,
    MobilePolygon.handleCanvasTouch.
  cbn [MobilePolygon.pending MobilePolygon.cells Timers.takeDue fold_left].
  rewrite Htool. cbn [String.eqb Ascii.eqb Bool.eqb negb andb].
  cbn -[MobilePolygon.getCanvasPoint Z.add Z.leb Z.sub Z.ltb dist2 Qlt_bool
        MobilePolygon.handleCanvasTap String.eqb].
  assert (Hnot : (start + 600 <=? ended)%Z = false) by (apply Z.leb_gt; exact Hsoon).
  rewrite Hnot.
  cbn -[MobilePolygon.getCanvasPoint Z.add Z.leb Z.sub Z.ltb dist2 Qlt_bool
        MobilePolygon.handleCanvasTap String.eqb].
  rewrite Htool.
  cbn -[MobilePolygon.getCanvasPoint Z.add Z.leb Z.sub Z.ltb dist2 Qlt_bool
        MobilePolygon.handleCanvasTap].
  destruct (Qlt_bool _ _ && _); [destruct (MobilePolygon.handleCanvasTap _ _ _) |];
    unfold MobilePolygon.clearTimeout, Timers.clearTimeout;
    cbn [MobilePolygon.onCells MobilePolygon.pending MobilePolygon.cells filter
         Timers.handle MobilePolygon.nextHandle MobilePolygon.longPressRuns];
    rewrite Pos.eqb_refl; cbn; split; reflexivity.
Qed.

Lemma X16_v2_touch_move_cancels_long_press_witness :
  MobileV2.longPressRuns
    (MobileV2.advance 5000
       (MobileV2.deliver 100 canvas_rect
          (MobileV2.TouchEvent MobileV2.PMove [mkClient 300 200] [mkClient 300 200])
          (MobileV2.deliver 0 canvas_rect
             (MobileV2.TouchEvent MobileV2.PStart [finger] [finger]) MobileV2.boot)))
  = [].
Proof.
  apply (X16_v2_touch_move_cancels_long_press canvas_rect finger (mkClient 300 200)
           0 100 5000 MobileV2.boot); reflexivity.
Defined.

Lemma X17_polygon_touch_end_cancels_long_press_witness :
  MobilePolygon.longPressRuns
    (MobilePolygon.advance 5000
       (MobilePolygon.deliver 100 canvas_rect
          (MobilePolygon.TouchEvent MobilePolygon.PEnd [] [finger])
          (MobilePolygon.deliver 0 canvas_rect
             (MobilePolygon.TouchEvent MobilePolygon.PStart [finger] [finger])
             (MobilePolygon.boot "area"))))
  = 0%nat.
Proof.
  apply (X17_polygon_touch_end_cancels_long_press canvas_rect finger finger
           0 100 5000 (MobilePolygon.boot "area")); reflexivity.
Defined.

(** ** The drawing session of the mobile canvases *)

Lemma v2_tap_completes (point : Point.t) (now : Z) (s : MobileV2.State) :
  sessionConsistentV2 s ->
  exists s', MobileV2.handleCanvasTap point now s = MobileV2.Completed s'
             /\ sessionConsistentV2 s'.
Proof.
  unfold sessionConsistentV2. intro Hs.
  unfold MobileV2.handleCanvasTap, MobileV2.placementTap, MobileV2.drawingTap.
  cbn [MobileV2.isDrawingPolygon MobileV2.currentPolygon MobileV2.setSelectedFurnitureItem
       MobileV2.selectedAreaType MobileV2.areas].
  repeat match goal with
         | |- context [match ?x with _ => _ end] => destruct x eqn:?
         end;
    try (eexists; split; [reflexivity |]);
    cbn [MobileV2.isDrawingPolygon MobileV2.currentPolygon MobileV2.toast MobileV2.setToasts
         MobileV2.setIsDrawingPolygon MobileV2.setCurrentPolygon MobileV2.setAreas
         MobileV2.setSelectedFurnitureItem MobileV2.setPendingFurniture
         MobileV2.setIsPlacingFurniture] in *;
    try reflexivity; try congruence.
  all: try (match goal with
            | H : _ ++ [_] = [] |- _ => apply app_eq_nil in H; destruct H; discriminate
            end).
  all: try (rewrite Hs in *; cbn in *; congruence).
  all: try (cbn; assumption).
Qed.

Lemma polygon_tap_completes (point : Point.t) (now : Z) (s : MobilePolygon.State) :
  sessionConsistentPolygon s ->
  exists s', MobilePolygon.handleCanvasTap point now s = MobilePolygon.Completed s'
             /\ sessionConsistentPolygon s'.
Proof.
  unfold sessionConsistentPolygon. intro Hs.
  unfold MobilePolygon.handleCanvasTap.
  repeat match goal with
         | |- context [match ?x with _ => _ end] => destruct x eqn:?
         end;
    try (eexists; split; [reflexivity |]);
    cbn [MobilePolygon.isDrawingPolygon MobilePolygon.currentPolygonPoints
         MobilePolygon.toast MobilePolygon.setToasts MobilePolygon.setIsDrawingPolygon
         MobilePolygon.setCurrentPolygonPoints MobilePolygon.setAreas] in *;
    try reflexivity; try congruence.
  all: try (match goal with
            | H : _ ++ [_] = [] |- _ => apply app_eq_nil in H; destruct H; discriminate
            end).
  all: try (rewrite Hs in *; cbn in *; congruence).
  all: try (cbn; assumption).
Qed.


Lemma v2_runCallback_session (cb : MobileV2.Callback) (w : MobileV2.World) :
  MobileV2.isDrawingPolygon (MobileV2.cells (MobileV2.runCallback cb w))
  = MobileV2.isDrawingPolygon (MobileV2.cells w)
  /\ MobileV2.currentPolygon (MobileV2.cells (MobileV2.runCallback cb w))
     = MobileV2.currentPolygon (MobileV2.cells w).
Proof.
  destruct cb as [point seen |]; cbn [MobileV2.runCallback MobileV2.cells MobileV2.onCells].
  - unfold MobileV2.handleLongPress. destruct (MobileV2.furnitureUnder seen point);
      split; reflexivity.
  - split; reflexivity.
Qed.

Lemma v2_fire_session (timers : list (Timers.Timer MobileV2.Callback)) (w : MobileV2.World) :
  let w' := fold_left (fun acc t => MobileV2.runCallback (Timers.callback t) acc) timers w in
  MobileV2.isDrawingPolygon (MobileV2.cells w') = MobileV2.isDrawingPolygon (MobileV2.cells w)
  /\ MobileV2.currentPolygon (MobileV2.cells w') = MobileV2.currentPolygon (MobileV2.cells w).
Proof.
  cbv zeta. revert w. induction timers as [| t rest IH]; intro w; cbn [fold_left].
  - split; reflexivity.
  - destruct (IH (MobileV2.runCallback (Timers.callback t) w)) as [H1 H2].
    destruct (v2_runCallback_session (Timers.callback t) w) as [H3 H4].
    split; congruence.
Qed.

Lemma v2_advance_session (now : Z) (w : MobileV2.World) :
  sessionConsistentV2 (MobileV2.cells w) ->
  sessionConsistentV2 (MobileV2.cells (MobileV2.advance now w)).
Proof.
  unfold sessionConsistentV2, MobileV2.advance. intro Hs.
  destruct (Timers.takeDue now (MobileV2.pending w)) as [dueNow later].
  match goal with |- context [fold_left ?f dueNow ?w0] =>
    destruct (v2_fire_session dueNow w0) as [H1 H2] end.
  cbv zeta in H1, H2. rewrite H1, H2. exact Hs.
Qed.

Lemma v2_touch_session (now : Z) (rect : DOMRect) (e : MobileV2.CanvasEvent)
    (w : MobileV2.World) :
  sessionConsistentV2 (MobileV2.cells w) ->
  sessionConsistentV2 (MobileV2.cells (MobileV2.handleCanvasTouch now rect e w)).
Proof.
  intro Hs.
  assert (Hbody : forall isTouch phase point,
             sessionConsistentV2
               (MobileV2.cells (MobileV2.touchBody isTouch phase point now w))).
  { intros isTouch phase point. unfold MobileV2.touchBody.
    assert (Hcancel : sessionConsistentV2 (MobileV2.cells (MobileV2.cancelLongPress w))).
    { unfold MobileV2.cancelLongPress.
      destruct (MobileV2.longPressTimer (MobileV2.cells w)); exact Hs. }
    destruct phase.
    - destruct isTouch; exact Hs.
    - exact Hcancel.
    - destruct (Qlt_bool _ _ && _); [| exact Hcancel].
      destruct (v2_tap_completes point now _ Hcancel) as (s' & E & Hs').
      rewrite E. exact Hs'. }
  destruct e as [phase touches changed | phase pos]; cbn [MobileV2.handleCanvasTouch].
  - destruct touches as [| t [| t' rest]]; [exact Hs | apply Hbody | exact Hs].
  - apply Hbody.
Qed.

(** X18: in [MobileCanvasDesignerV2] every delivered touch or mouse event,
    with the timers that fire before it, and the clear-canvas action keep the
    drawing flag true exactly when the working list is not empty; under that
    agreement a tap always runs to completion: reading the first working
    point never fails. *)
Theorem X18_v2_session_stays_consistent (now : Z) (rect : DOMRect) (e : MobileV2.CanvasEvent)
    (point : Point.t) (w : MobileV2.World) :
  sessionConsistentV2 (MobileV2.cells w) ->
  sessionConsistentV2 (MobileV2.cells (MobileV2.deliver now rect e w))
  /\ sessionConsistentV2 (MobileV2.handleClearCanvas (MobileV2.cells w))
  /\ exists s', MobileV2.handleCanvasTap point now (MobileV2.cells w) = MobileV2.Completed s'.
Proof.
  intro Hs. split; [| split].
  - unfold MobileV2.deliver. apply v2_touch_session, v2_advance_session, Hs.
  - reflexivity.
  - destruct (v2_tap_completes point now _ Hs) as (s' & E & _). exists s'. exact E.
Qed.

Lemma polygon_fire_session (timers : list (Timers.Timer MobilePolygon.Callback))
    (w : MobilePolygon.World) :
  MobilePolygon.cells
    (fold_left (fun acc t => MobilePolygon.runCallback (Timers.callback t) acc) timers w)
  = MobilePolygon.cells w.
Proof.
  revert w. induction timers as [| t rest IH]; intro w; cbn [fold_left]; [reflexivity |].
  rewrite IH. destruct (Timers.callback t). reflexivity.
Qed.

Lemma polygon_advance_cells (now : Z) (w : MobilePolygon.World) :
  MobilePolygon.cells (MobilePolygon.advance now w) = MobilePolygon.cells w.
Proof.
  unfold MobilePolygon.advance.
  destruct (Timers.takeDue now (MobilePolygon.pending w)) as [dueNow later].
  rewrite polygon_fire_session. reflexivity.
Qed.

Lemma polygon_touch_session (now : Z) (rect : DOMRect) (e : MobilePolygon.CanvasEvent)
    (w : MobilePolygon.World) :
  sessionConsistentPolygon (MobilePolygon.cells w) ->
  sessionConsistentPolygon (MobilePolygon.cells (MobilePolygon.dispatch now rect e w)).
Proof.
  intro Hs.
  assert (Hbody : forall isTouch phase point,
             sessionConsistentPolygon
               (MobilePolygon.cells (MobilePolygon.touchBody isTouch phase point now w))).
  { intros isTouch phase point. unfold MobilePolygon.touchBody.
    assert (Hcancel : sessionConsistentPolygon
                        (MobilePolygon.cells (MobilePolygon.cancelLongPress w))).
    { unfold MobilePolygon.cancelLongPress.
      destruct (MobilePolygon.longPressTimer (MobilePolygon.cells w)); exact Hs. }
    destruct phase.
    - destruct isTouch; exact Hs.
    - exact Hs.
    - destruct (Qlt_bool _ _ && _); [| exact Hcancel].
      destruct (polygon_tap_completes point now _ Hcancel) as (s' & E & Hs').
      rewrite E. exact Hs'. }
  assert (Hhandler : sessionConsistentPolygon
                       (MobilePolygon.cells (MobilePolygon.handleCanvasTouch now rect e w))).
  { unfold MobilePolygon.handleCanvasTouch.
    destruct (negb _); [exact Hs |].
    destruct e as [phase touches changed | phase pos]; [| apply Hbody].
    destruct (match phase with MobilePolygon.PEnd => changed | _ => touches end)
      as [| t [| t' rest]]; [exact Hs | apply Hbody | exact Hs]. }
  destruct e as [[| |] touches changed | [| |] pos]; cbn [MobilePolygon.dispatch];
    first [exact Hhandler | exact Hs].
Qed.

(** X19: the same for [MobilePolygonCanvas]: every delivered event keeps
    the drawing flag and the working list in agreement, and then a tap
    always runs to completion. *)
Theorem X19_polygon_session_stays_consistent (now : Z) (rect : DOMRect)
    (e : MobilePolygon.CanvasEvent) (point : Point.t) (w : MobilePolygon.World) :
  sessionConsistentPolygon (MobilePolygon.cells w) ->
  sessionConsistentPolygon (MobilePolygon.cells (MobilePolygon.deliver now rect e w))
  /\ exists s', MobilePolygon.handleCanvasTap point now (MobilePolygon.cells w)
                = MobilePolygon.Completed s'.
Proof.
  intro Hs. split.
  - unfold MobilePolygon.deliver. apply polygon_touch_session.
    rewrite polygon_advance_cells. exact Hs.
  - destruct (polygon_tap_completes point now _ Hs) as (s' & E & _). exists s'. exact E.
Qed.

(** X20: in [MobilePolygonCanvas] a release 40 px or more (in world
    units) away from the touch-down point, or 800 ms or more after it, is not
    a tap: it adds no point, creates no area and shows no message. *)
Theorem X20_far_or_late_release_draws_nothing (now : Z) (rect : DOMRect) (c : ClientPoint)
    (w : MobilePolygon.World) :
  let s := MobilePolygon.cells w in
  let point := MobilePolygon.getCanvasPoint s rect c in
  40 * 40 <= dist2 point (MobilePolygon.touchStartPos s)
  \/ (800 <= now - MobilePolygon.touchStartTime s)%Z ->
  let s' := MobilePolygon.cells
              (MobilePolygon.handleCanvasTouch now rect
                 (MobilePolygon.TouchEvent MobilePolygon.PEnd [] [c]) w) in
  MobilePolygon.areas s' = MobilePolygon.areas s
  /\ MobilePolygon.currentPolygonPoints s' = MobilePolygon.currentPolygonPoints s
  /\ MobilePolygon.isDrawingPolygon s' = MobilePolygon.isDrawingPolygon s
  /\ MobilePolygon.toasts s' = MobilePolygon.toasts s.
Proof.
  intros s point Hfar s'. subst s'.
  unfold MobilePolygon.handleCanvasTouch.
  destruct (negb _); [repeat split |].
  cbn [MobilePolygon.touchBody]. fold s. fold point.
  assert (Hno : Qlt_bool (dist2 point (MobilePolygon.touchStartPos s)) (40 * 40)
                && (now - MobilePolygon.touchStartTime s <? 800)%Z = false).
  { destruct Hfar as [Hd | Ht].
    - unfold Qlt_bool. apply Qle_bool_iff in Hd. rewrite Hd. reflexivity.
    - apply Z.ltb_ge in Ht. rewrite Ht. apply andb_false_r. }
  rewrite Hno. unfold MobilePolygon.cancelLongPress. fold s.
  destruct (MobilePolygon.longPressTimer s); repeat split.
Qed.

Lemma X18_v2_session_stays_consistent_witness :
  let w := MobileV2.deliver 0 canvas_rect (MobileV2.MouseEvent MobileV2.PStart finger)
             MobileV2.boot in
  let w' := MobileV2.deliver 100 canvas_rect (MobileV2.MouseEvent MobileV2.PEnd finger) w in
  MobileV2.currentPolygon (MobileV2.cells w') = [Point.mk 100 0]
  /\ sessionConsistentV2 (MobileV2.cells w').
Proof.
  intros w w'. split; [vm_compute; reflexivity |].
  apply (X18_v2_session_stays_consistent 100 canvas_rect
           (MobileV2.MouseEvent MobileV2.PEnd finger) (Point.mk 0 0) w).
  reflexivity.
Defined.

Lemma X19_polygon_session_stays_consistent_witness :
  let w := MobilePolygon.deliver 0 canvas_rect
             (MobilePolygon.TouchEvent MobilePolygon.PStart [finger] [finger])
             (MobilePolygon.boot "area") in
  let w' := MobilePolygon.deliver 100 canvas_rect
              (MobilePolygon.TouchEvent MobilePolygon.PEnd [] [finger]) w in
  MobilePolygon.currentPolygonPoints (MobilePolygon.cells w') = [Point.mk 100 0]
  /\ sessionConsistentPolygon (MobilePolygon.cells w').
Proof.
  intros w w'. split; [vm_compute; reflexivity |].
  apply (X19_polygon_session_stays_consistent 100 canvas_rect
           (MobilePolygon.TouchEvent MobilePolygon.PEnd [] [finger]) (Point.mk 0 0) w).
  reflexivity.
Defined.

Lemma X20_far_or_late_release_draws_nothing_witness :
  let w := MobilePolygon.deliver 0 canvas_rect
             (MobilePolygon.TouchEvent MobilePolygon.PStart [finger] [finger])
             (MobilePolygon.boot "area") in
  MobilePolygon.currentPolygonPoints
    (MobilePolygon.cells
       (MobilePolygon.handleCanvasTouch 100 canvas_rect
          (MobilePolygon.TouchEvent MobilePolygon.PEnd [] [mkClient 300 200]) w))
  = [].
Proof.
  intro w.
  destruct (X20_far_or_late_release_draws_nothing 100 canvas_rect (mkClient 300 200) w)
    as (_ & H & _).
  - left. vm_compute. discriminate.
  - rewrite H. reflexivity.
Defined.

(** ** The layout generator *)

Lemma steps_range (step bound v : Q) :
  0 < step -> In v (MapGenerator.steps step bound) -> 0 <= v /\ v <= bound.
Proof.
  intros Hstep Hin. unfold MapGenerator.steps in Hin.
  destruct (Qlt_bool bound 0) eqn:Hb; [contradiction |].
  unfold Qlt_bool in Hb. apply negb_false_iff, Qle_bool_iff in Hb.
  apply in_map_iff in Hin. destruct Hin as (k & <- & Hk).
  apply in_seq in Hk.
  assert (Hdiv : 0 <= bound / step).
  { unfold Qdiv. apply Qmult_le_0_compat; [exact Hb |].
    apply Qlt_le_weak, Qinv_lt_0_compat, Hstep. }
  assert (Hfl : (0 <= Qfloor (bound / step))%Z).
  { change 0%Z with (Qfloor 0). apply Qfloor_resp_le. exact Hdiv. }
  assert (Hkz : (Z.of_nat k <= Qfloor (bound / step))%Z) by lia.
  assert (Hkq : inject_Z (Z.of_nat k) <= bound / step).
  { apply Qle_trans with (inject_Z (Qfloor (bound / step))).
    - rewrite <- Zle_Qle. exact Hkz.
    - apply Qfloor_le. }
  split.
  - apply Qmult_le_0_compat; [| apply Qlt_le_weak; exact Hstep].
    change 0 with (inject_Z 0). rewrite <- Zle_Qle. lia.
  - assert (E : bound == bound / step * step).
    { field. intro E. rewrite E in Hstep. apply (Qlt_irrefl 0 Hstep). }
    rewrite E. apply Qmult_le_compat_r; [exact Hkq | apply Qlt_le_weak; exact Hstep].
Qed.

Lemma firstFree_spec (step cw ch rw rh : Q) (occ : list MapGenerator.Occupied)
    (pos : Q * Q) :
  0 < step ->
  MapGenerator.firstFree step cw ch rw rh occ = Some pos ->
  (0 <= fst pos /\ fst pos + rw <= cw) /\ (0 <= snd pos /\ snd pos + rh <= ch)
  /\ Forall (fun area => MapGenerator.overlapsArea (fst pos) (snd pos) rw rh area = false) occ.
Proof.
  intros Hstep Hfind. unfold MapGenerator.firstFree in Hfind.
  apply find_some in Hfind. destruct Hfind as [Hin Hfree].
  apply in_flat_map in Hin. destruct Hin as (y & Hy & Hin).
  apply in_map_iff in Hin. destruct Hin as (x & <- & Hx).
  cbn [fst snd] in *.
  apply (steps_range _ _ _ Hstep) in Hx, Hy.
  split; [split; [tauto | lra] | split; [split; [tauto | lra] |]].
  apply negb_true_iff in Hfree.
  apply Forall_forall. intros area Harea.
  destruct (MapGenerator.overlapsArea x y rw rh area) eqn:E; [| reflexivity].
  assert (Hex : existsb (MapGenerator.overlapsArea x y rw rh) occ = true)
    by (apply existsb_exists; exists area; split; assumption).
  congruence.
Qed.

Lemma FOP_snoc {A : Type} (R : A -> A -> Prop) (l : list A) (a : A) :
  ForallOrdPairs R l -> Forall (fun b => R b a) l -> ForallOrdPairs R (l ++ [a]).
Proof.
  induction l as [| b l IH]; intros Hl Ha; cbn [app].
  - constructor; constructor.
  - inversion Hl as [| ? ? Hb Hrest]; subst. inversion Ha as [| ? ? Hba Hla]; subst.
    constructor.
    + apply Forall_app. split; [exact Hb | constructor; [exact Hba | constructor]].
    + apply IH; assumption.
Qed.

Lemma placeRoom_inv (tw th : Q) (acc : list MapGenerator.GeneratedRoom * list MapGenerator.Occupied)
    (r : MapGenerator.Room) :
  layoutInv tw th acc ->
  layoutInv tw th
    (MapGenerator.placeRoom (tw * MapGenerator.scale) (th * MapGenerator.scale) acc r).
Proof.
  intros (Hocc & Hcanvas & Hfree).
  assert (Hput : forall step pos, 0 < step ->
            MapGenerator.firstFree step (tw * MapGenerator.scale) (th * MapGenerator.scale)
              (MapGenerator.width r * MapGenerator.scale)
              (MapGenerator.height r * MapGenerator.scale) (snd acc) = Some pos ->
            layoutInv tw th
              (fst acc ++ [MapGenerator.mkGenerated r (fst pos) (snd pos)
                             (MapGenerator.roomColor (MapGenerator.type r))],
               snd acc ++ [MapGenerator.mkOccupied (fst pos) (snd pos)
                             (MapGenerator.width r * MapGenerator.scale)
                             (MapGenerator.height r * MapGenerator.scale)])).
  { intros step pos Hstep Hfind.
    destruct (firstFree_spec _ _ _ _ _ _ _ Hstep Hfind) as (Hx & Hy & Hclear).
    unfold layoutInv. cbn [fst snd]. split; [| split].
    - rewrite map_app, Hocc. reflexivity.
    - apply Forall_app. split; [exact Hcanvas |].
      constructor; [| constructor]. unfold onCanvas. cbn. tauto.
    - apply FOP_snoc; [exact Hfree |].
      rewrite Hocc in Hclear. apply Forall_map in Hclear. exact Hclear. }
  unfold MapGenerator.placeRoom.
  destruct (MapGenerator.firstFree MapGenerator.scale _ _ _ _ _) as [pos |] eqn:Hgrid.
  - apply (Hput MapGenerator.scale pos); [reflexivity | exact Hgrid].
  - destruct (MapGenerator.firstFree 5 _ _ _ _ _) as [pos |] eqn:Hfine.
    + apply (Hput 5 pos); [reflexivity | exact Hfine].
    + split; [exact Hocc | split; [exact Hcanvas | exact Hfree]].
Qed.

Lemma fold_placeRoom_inv (tw th : Q) (rooms : list MapGenerator.Room)
    (acc : list MapGenerator.GeneratedRoom * list MapGenerator.Occupied) :
  layoutInv tw th acc ->
  layoutInv tw th
    (fold_left (MapGenerator.placeRoom (tw * MapGenerator.scale) (th * MapGenerator.scale))
       rooms acc).
Proof.
  revert acc. induction rooms as [| r rest IH]; intros acc Hinv; cbn [fold_left].
  - exact Hinv.
  - apply IH, placeRoom_inv, Hinv.
Qed.

(** X21: every room that [generateBasicLayout] returns lies within the
    canvas of the requested size, and no returned room overlaps a room
    placed before it, by the generator's own overlap test. *)
Theorem X21_layout_on_canvas_without_overlap (rooms : list MapGenerator.Room)
    (totalWidth totalHeight : Q) :
  let placed := MapGenerator.generateBasicLayout rooms totalWidth totalHeight in
  Forall (onCanvas totalWidth totalHeight) placed /\ noOverlap placed.
Proof.
  cbv zeta. unfold MapGenerator.generateBasicLayout.
  destruct (fold_placeRoom_inv totalWidth totalHeight
              (MapGenerator.stableSort MapGenerator.largerFirst rooms) ([], []))
    as (_ & Hcanvas & Hfree).
  - split; [reflexivity | split; constructor].
  - split; assumption.
Qed.

Lemma insertSorted_In {A : Type} (before : A -> A -> bool) (a b : A) (l : list A) :
  In b (MapGenerator.insertSorted before a l) <-> b = a \/ In b l.
Proof.
  induction l as [| e rest IH]; cbn [MapGenerator.insertSorted].
  - cbn. intuition congruence.
  - destruct (before a e); cbn [In]; [| rewrite IH]; intuition congruence.
Qed.

Lemma insertSorted_length {A : Type} (before : A -> A -> bool) (a : A) (l : list A) :
  List.length (MapGenerator.insertSorted before a l) = S (List.length l).
Proof.
  induction l as [| e rest IH]; cbn [MapGenerator.insertSorted]; [reflexivity |].
  destruct (before a e); cbn [List.length]; [reflexivity | now rewrite IH].
Qed.

Lemma stableSort_In {A : Type} (before : A -> A -> bool) (b : A) (l : list A) :
  In b (MapGenerator.stableSort before l) <-> In b l.
Proof.
  induction l as [| a l IH]; [reflexivity |].
  change (MapGenerator.stableSort before (a :: l))
    with (MapGenerator.insertSorted before a (MapGenerator.stableSort before l)).
  rewrite insertSorted_In, IH. cbn [In]. intuition congruence.
Qed.

Lemma stableSort_length {A : Type} (before : A -> A -> bool) (l : list A) :
  List.length (MapGenerator.stableSort before l) = List.length l.
Proof.
  induction l as [| a l IH]; [reflexivity |].
  change (MapGenerator.stableSort before (a :: l))
    with (MapGenerator.insertSorted before a (MapGenerator.stableSort before l)).
  rewrite insertSorted_length, IH. reflexivity.
Qed.

(** One turn of the loop appends at most one room, and that room is the
    one of the turn with its catalogue colour. *)
Lemma placeRoom_grows (cw ch : Q)
    (acc : list MapGenerator.GeneratedRoom * list MapGenerator.Occupied)
    (r : MapGenerator.Room) :
  fst (MapGenerator.placeRoom cw ch acc r) = fst acc
  \/ exists px py,
       fst (MapGenerator.placeRoom cw ch acc r)
       = fst acc ++ [MapGenerator.mkGenerated r px py
                       (MapGenerator.roomColor (MapGenerator.type r))].
Proof.
  unfold MapGenerator.placeRoom.
  destruct (MapGenerator.firstFree MapGenerator.scale _ _ _ _ _) as [pos |].
  - right. exists (fst pos), (snd pos). reflexivity.
  - destruct (MapGenerator.firstFree 5 _ _ _ _ _) as [pos |].
    + right. exists (fst pos), (snd pos). reflexivity.
    + left. reflexivity.
Qed.

Lemma fold_placeRoom_rooms (cw ch : Q) (rooms : list MapGenerator.Room)
    (acc : list MapGenerator.GeneratedRoom * list MapGenerator.Occupied) :
  exists added,
    fst (fold_left (MapGenerator.placeRoom cw ch) rooms acc) = fst acc ++ added
    /\ (List.length added <= List.length rooms)%nat
    /\ Forall (fun g => In (MapGenerator.room g) rooms
                        /\ MapGenerator.color g
                           = MapGenerator.roomColor (MapGenerator.type (MapGenerator.room g)))
              added.
Proof.
  revert acc. induction rooms as [| r rest IH]; intros acc; cbn [fold_left].
  - exists []. rewrite app_nil_r. repeat split; [cbn; lia | constructor].
  - destruct (IH (MapGenerator.placeRoom cw ch acc r)) as (added & Heq & Hlen & Hall).
    assert (Hrest : Forall (fun g => In (MapGenerator.room g) (r :: rest)
                        /\ MapGenerator.color g
                           = MapGenerator.roomColor (MapGenerator.type (MapGenerator.room g)))
              added).
    { eapply Forall_impl; [| exact Hall]. cbn. intros g [Hin Hc]. split; [right |]; assumption. }
    destruct (placeRoom_grows cw ch acc r) as [Hsame | (px & py & Hput)].
    + exists added. rewrite Heq, Hsame. repeat split; [cbn; lia | exact Hrest].
    + exists (MapGenerator.mkGenerated r px py (MapGenerator.roomColor (MapGenerator.type r))
              :: added).
      rewrite Heq, Hput, <- app_assoc. repeat split; [cbn; lia |].
      constructor; [| exact Hrest]. cbn. split; [left |]; reflexivity.
Qed.

(** X22: [generateBasicLayout] invents no room: it returns at most as many
    rooms as were requested, each returned room is one of the requested
    ones, and its colour is the one the catalogue gives its type. *)
Theorem X22_layout_returns_requested_rooms (rooms : list MapGenerator.Room)
    (totalWidth totalHeight : Q) :
  let placed := MapGenerator.generateBasicLayout rooms totalWidth totalHeight in
  (List.length placed <= List.length rooms)%nat
  /\ Forall (fun g => In (MapGenerator.room g) rooms
                      /\ MapGenerator.color g
                         = MapGenerator.roomColor (MapGenerator.type (MapGenerator.room g)))
            placed.
Proof.
  cbv zeta. unfold MapGenerator.generateBasicLayout.
  destruct (fold_placeRoom_rooms (totalWidth * MapGenerator.scale)
              (totalHeight * MapGenerator.scale)
              (MapGenerator.stableSort MapGenerator.largerFirst rooms) ([], []))
    as (added & Heq & Hlen & Hall).
  rewrite Heq. cbn [fst app]. rewrite stableSort_length in Hlen. split; [exact Hlen |].
  eapply Forall_impl; [| exact Hall]. cbn. intros g [Hin Hc].
  split; [apply (stableSort_In MapGenerator.largerFirst), Hin | exact Hc].
Qed.

(** The first room of the sorted list is one of largest area. *)
Lemma stableSort_largest (rooms : list MapGenerator.Room) (r : MapGenerator.Room)
    (rest : list MapGenerator.Room) :
  MapGenerator.stableSort MapGenerator.largerFirst rooms = r :: rest ->
  Forall (fun r' => roomArea r' <= roomArea r) rooms.
Proof.
  revert r rest. induction rooms as [| a l IH]; intros r rest Hsort; [constructor |].
  change (MapGenerator.stableSort MapGenerator.largerFirst (a :: l))
    with (MapGenerator.insertSorted MapGenerator.largerFirst a
            (MapGenerator.stableSort MapGenerator.largerFirst l)) in Hsort.
  destruct (MapGenerator.stableSort MapGenerator.largerFirst l) as [| e tail] eqn:Hl.
  - assert (l = []) as ->.
    { apply length_zero_iff_nil. rewrite <- (stableSort_length MapGenerator.largerFirst), Hl.
      reflexivity. }
    cbn in Hsort. injection Hsort as <- _. constructor; [apply Qle_refl | constructor].
  - specialize (IH e tail eq_refl). cbn [MapGenerator.insertSorted] in Hsort.
    destruct (MapGenerator.largerFirst a e) eqn:Hcmp.
    + injection Hsort as <- _. unfold MapGenerator.largerFirst in Hcmp.
      apply Qle_bool_iff in Hcmp. fold (roomArea e) in Hcmp. fold (roomArea a) in Hcmp.
      constructor; [apply Qle_refl |].
      eapply Forall_impl; [| exact IH]. cbn. intros r' Hr'. lra.
    + injection Hsort as <- _. unfold MapGenerator.largerFirst in Hcmp.
      apply Qle_bool_false_lt in Hcmp. fold (roomArea e) in Hcmp. fold (roomArea a) in Hcmp.
      constructor; [lra | exact IH].
Qed.

Lemma steps_first (step bound : Q) :
  0 <= bound -> exists tail, MapGenerator.steps step bound = inject_Z 0 * step :: tail.
Proof.
  intros Hb. unfold MapGenerator.steps.
  destruct (Qlt_bool bound 0) eqn:Hneg.
  - unfold Qlt_bool in Hneg. apply negb_true_iff, Qle_bool_false_lt in Hneg. lra.
  - rewrite Nat.add_comm. cbn [Nat.add seq map]. eexists. reflexivity.
Qed.

Lemma fold_placeRoom_prefix (cw ch : Q) (rooms : list MapGenerator.Room)
    (acc : list MapGenerator.GeneratedRoom * list MapGenerator.Occupied) :
  exists added, fst (fold_left (MapGenerator.placeRoom cw ch) rooms acc) = fst acc ++ added.
Proof.
  destruct (fold_placeRoom_rooms cw ch rooms acc) as (added & Heq & _). exists added. exact Heq.
Qed.

(** X23: when the first room of the generator's order fits the canvas, it
    is a room of largest area among the requested ones, and the generator
    returns it first, with its corner at the origin of the canvas. *)
Theorem X23_largest_room_at_origin (rooms rest : list MapGenerator.Room)
    (r : MapGenerator.Room) (totalWidth totalHeight : Q) :
  MapGenerator.stableSort MapGenerator.largerFirst rooms = r :: rest ->
  MapGenerator.width r <= totalWidth ->
  MapGenerator.height r <= totalHeight ->
  Forall (fun r' => roomArea r' <= roomArea r) rooms
  /\ exists others,
       MapGenerator.generateBasicLayout rooms totalWidth totalHeight
       = MapGenerator.mkGenerated r 0 0 (MapGenerator.roomColor (MapGenerator.type r))
         :: others.
Proof.
  intros Hsort Hw Hh. split; [exact (stableSort_largest _ _ _ Hsort) |].
  unfold MapGenerator.generateBasicLayout. rewrite Hsort. cbn [fold_left].
  assert (Hfirst : MapGenerator.placeRoom (totalWidth * MapGenerator.scale)
                     (totalHeight * MapGenerator.scale) ([], []) r
                   = ([MapGenerator.mkGenerated r 0 0
                         (MapGenerator.roomColor (MapGenerator.type r))],
                      [MapGenerator.mkOccupied 0 0 (MapGenerator.width r * MapGenerator.scale)
                         (MapGenerator.height r * MapGenerator.scale)])).
  { unfold MapGenerator.placeRoom, MapGenerator.firstFree. cbn [snd fst].
    destruct (steps_first MapGenerator.scale
                (totalWidth * MapGenerator.scale - MapGenerator.width r * MapGenerator.scale))
      as (xs & ->); [unfold MapGenerator.scale; lra |].
    destruct (steps_first MapGenerator.scale
                (totalHeight * MapGenerator.scale - MapGenerator.height r * MapGenerator.scale))
      as (ys & ->); [unfold MapGenerator.scale; lra |].
    reflexivity. }
  rewrite Hfirst.
  destruct (fold_placeRoom_prefix (totalWidth * MapGenerator.scale)
              (totalHeight * MapGenerator.scale) rest
              ([MapGenerator.mkGenerated r 0 0 (MapGenerator.roomColor (MapGenerator.type r))],
               [MapGenerator.mkOccupied 0 0 (MapGenerator.width r * MapGenerator.scale)
                  (MapGenerator.height r * MapGenerator.scale)]))
    as (added & ->).
  exists added. reflexivity.
Qed.

Lemma X23_largest_room_at_origin_witness :
  exists others,
    MapGenerator.generateBasicLayout [strip "a"; strip "b"] 10 10
    = MapGenerator.mkGenerated (strip "a") 0 0 "#64748b" :: others.
Proof.
  apply (X23_largest_room_at_origin [strip "a"; strip "b"] [strip "b"] (strip "a") 10 10).
  - reflexivity.
  - vm_compute. discriminate.
  - vm_compute. discriminate.
Defined.

Lemma alignFrom_movedUp (c c0 : MapGenerator.GeneratedRoom)
    (rest : list MapGenerator.GeneratedRoom) :
  movedUp c0 c -> Forall2 movedUp (c0 :: rest) (MapGenerator.alignFrom c rest).
Proof.
  revert c c0. induction rest as [| n rest IH]; intros c c0 Hc; cbn [MapGenerator.alignFrom].
  - constructor; [exact Hc | constructor].
  - destruct Hc as (Hr & Hx & Hcol & Hy).
    destruct (Qlt_bool _ 30).
    + constructor.
      * unfold movedUp, MapGenerator.withY. cbn. repeat split; try assumption.
        pose proof (Math_min_le_l (MapGenerator.y c) (MapGenerator.y n)). lra.
      * apply IH. unfold movedUp, MapGenerator.withY. cbn. repeat split.
        apply Math_min_le_r.
    + constructor; [repeat split; assumption |].
      apply IH. repeat split. apply Qle_refl.
Qed.

(** X24: [optimizeLayout] returns the rooms in their order by [y], each
    with its room data, abscissa and colour unchanged and never lower than
    it was: the pass only ever moves a room up. *)
Theorem X24_optimize_only_moves_up (rooms : list MapGenerator.GeneratedRoom) :
  Forall2 movedUp (MapGenerator.stableSort MapGenerator.higherFirst rooms)
    (MapGenerator.optimizeLayout rooms).
Proof.
  unfold MapGenerator.optimizeLayout, MapGenerator.alignRows.
  destruct (MapGenerator.stableSort MapGenerator.higherFirst rooms) as [| first rest].
  - constructor.
  - apply alignFrom_movedUp. repeat split. apply Qle_refl.
Qed.

(** X25: the alignment pass does not keep the generator's guarantee: there
    is a request whose rooms are free of overlap as [generateBasicLayout]
    returns them and overlap once [optimizeLayout] has aligned them, so the
    composition that the canvases call is not overlap-free. *)
Theorem X25_optimize_can_make_rooms_overlap :
  exists (rooms : list MapGenerator.Room) (totalWidth totalHeight : Q),
    let placed := MapGenerator.generateBasicLayout rooms totalWidth totalHeight in
    noOverlap placed /\ ~ noOverlap (MapGenerator.optimizeLayout placed).
Proof.
  exists [strip "a"; strip "b"], 10, 10. cbv zeta. split.
  - destruct (fold_placeRoom_inv 10 10
                (MapGenerator.stableSort MapGenerator.largerFirst [strip "a"; strip "b"])
                ([], [])) as (_ & _ & Hfree).
    + split; [reflexivity | split; constructor].
    + exact Hfree.
  - intros Hall. unfold noOverlap in Hall.
    remember (MapGenerator.optimizeLayout
                (MapGenerator.generateBasicLayout [strip "a"; strip "b"] 10 10)) as out eqn:Hout.
    vm_compute in Hout. subst out.
    inversion Hall as [| ? ? Hfirst _]; subst.
    inversion Hfirst as [| ? ? Hpair _]; subst.
    vm_compute in Hpair. discriminate Hpair.
Qed.

(** ** Export and import of the desktop designer *)

















(** ** The gesture wrapper *)

Lemma clamp_between (v lo hi : Q) :
  lo <= hi -> lo <= Math_min (Math_max v lo) hi /\ Math_min (Math_max v lo) hi <= hi.
Proof.
  intros Hle. split.
  - apply Math_min_glb; [apply Math_max_ge_r | exact Hle].
  - apply Math_min_le_r.
Qed.

Lemma clamp_inside (v lo hi : Q) :
  lo <= v -> v <= hi -> Math_min (Math_max v lo) hi == v.
Proof.
  intros Hlo Hhi. unfold Math_min, Math_max.
  destruct (Qle_bool v lo) eqn:E1.
  - apply Qle_bool_iff in E1. destruct (Qle_bool lo hi) eqn:E2.
    + lra.
    + apply Qle_bool_false_lt in E2. lra.
  - destruct (Qle_bool v hi) eqn:E2; [reflexivity |].
    apply Qle_bool_false_lt in E2. lra.
Qed.

Lemma pan_limits_ordered (zoom : Q) : 0 < zoom -> (-2500) / zoom <= 2500 / zoom.
Proof.
  intros Hz. apply Qle_shift_div_l; [exact Hz |].
  assert (H : (-2500) / zoom * zoom == -2500) by (field; lra). lra.
Qed.

(** X28: under a positive zoom, a drag either reports nothing (the wrapper
    is disabled or the gesture is not a two-finger one, and the dragging
    flag is kept) or reports an offset both of whose coordinates lie
    between -2500/zoom and 2500/zoom; an offset already within these
    limits is reported with its value unchanged. *)
Theorem X28_drag_reports_pan_within_limits (props : TouchCanvasWrapper.Props)
    (g : TouchCanvasWrapper.DragState) (isDragging : bool) :
  0 < TouchCanvasWrapper.zoomLevel props ->
  let zoom := TouchCanvasWrapper.zoomLevel props in
  let asked :=
    Point.mk
      (Point.x (TouchCanvasWrapper.panOffset props)
       + (TouchCanvasWrapper.mx g * (15 # 10)) / zoom)
      (Point.y (TouchCanvasWrapper.panOffset props)
       + (TouchCanvasWrapper.my g * (15 # 10)) / zoom) in
  match snd (TouchCanvasWrapper.onDrag props g isDragging) with
  | None =>
      (TouchCanvasWrapper.disabled props = true \/ TouchCanvasWrapper.touches g <> 2%nat)
      /\ fst (TouchCanvasWrapper.onDrag props g isDragging) = isDragging
  | Some p =>
      TouchCanvasWrapper.disabled props = false
      /\ TouchCanvasWrapper.touches g = 2%nat
      /\ ((-2500) / zoom <= Point.x p /\ Point.x p <= 2500 / zoom)
      /\ ((-2500) / zoom <= Point.y p /\ Point.y p <= 2500 / zoom)
      /\ ((-2500) / zoom <= Point.x asked /\ Point.x asked <= 2500 / zoom ->
          Point.x p == Point.x asked)
      /\ ((-2500) / zoom <= Point.y asked /\ Point.y asked <= 2500 / zoom ->
          Point.y p == Point.y asked)
  end.
Proof.
  intros Hz. cbv zeta. unfold TouchCanvasWrapper.onDrag.
  destruct (TouchCanvasWrapper.disabled props) eqn:Hd; cbn [snd fst].
  - split; [left |]; reflexivity.
  - destruct (Nat.eqb (TouchCanvasWrapper.touches g) 2) eqn:Ht; cbn [negb snd fst].
    + apply Nat.eqb_eq in Ht. unfold TouchCanvasWrapper.constrainPan. cbn [Point.x Point.y].
      pose proof (pan_limits_ordered _ Hz) as Hord.
      split; [reflexivity | split; [exact Ht |]].
      split; [apply clamp_between, Hord |].
      split; [apply clamp_between, Hord |].
      split; intros [Hlo Hhi]; apply clamp_inside; assumption.
    + apply Nat.eqb_neq in Ht. split; [right; exact Ht | reflexivity].
Qed.

Lemma X28_drag_reports_pan_within_limits_witness :
  0 < TouchCanvasWrapper.zoomLevel two_finger_props
  /\ match snd (TouchCanvasWrapper.onDrag two_finger_props two_finger_drag false) with
     | None => False
     | Some p => Point.x p <= 2500 / TouchCanvasWrapper.zoomLevel two_finger_props
     end.
Proof.
  split; [reflexivity |].
  pose proof (X28_drag_reports_pan_within_limits two_finger_props two_finger_drag false
                eq_refl) as H.
  cbv zeta in H.
  destruct (snd (TouchCanvasWrapper.onDrag two_finger_props two_finger_drag false)) as [p |].
  - destruct H as (_ & _ & [_ Hx] & _). exact Hx.
  - destruct H as [[Hd | Ht] _]; [discriminate Hd | apply Ht; reflexivity].
Defined.

(** ** The edit panel of the mobile designer *)

Lemma filter_after_replace (u : FurnitureItem.t) (l : list FurnitureItem.t) :
  filter (fun f => negb (String.eqb (FurnitureItem.id f) (FurnitureItem.id u)))
    (map (fun f => if String.eqb (FurnitureItem.id f) (FurnitureItem.id u) then u else f) l)
  = filter (fun f => negb (String.eqb (FurnitureItem.id f) (FurnitureItem.id u))) l.
Proof.
  induction l as [| f l IH]; [reflexivity |]. cbn [map filter].
  destruct (String.eqb (FurnitureItem.id f) (FurnitureItem.id u)) eqn:E.
  - rewrite String.eqb_refl. cbn [negb]. exact IH.
  - rewrite E. cbn [negb]. rewrite IH. reflexivity.
Qed.

Lemma replace_twice (u : FurnitureItem.t) (l : list FurnitureItem.t) :
  map (fun f => if String.eqb (FurnitureItem.id f) (FurnitureItem.id u) then u else f)
    (map (fun f => if String.eqb (FurnitureItem.id f) (FurnitureItem.id u) then u else f) l)
  = map (fun f => if String.eqb (FurnitureItem.id f) (FurnitureItem.id u) then u else f) l.
Proof.
  induction l as [| f l IH]; [reflexivity |]. cbn [map]. rewrite IH. f_equal.
  destruct (String.eqb (FurnitureItem.id f) (FurnitureItem.id u)) eqn:E.
  - rewrite String.eqb_refl. reflexivity.
  - rewrite E. reflexivity.
Qed.

Lemma find_after_delete (fid : string) (areas : list AreaData.t) :
  Desktop.findFurniture
    (map (fun area =>
            AreaData.mk (AreaData.id area) (AreaData.type area) (AreaData.points area)
              (AreaData.areaSqFt area) (AreaData.color area)
              (option_map
                 (filter (fun f => negb (String.eqb (FurnitureItem.id f) fid)))
                 (AreaData.furniture area)))
         areas) fid
  = None.
Proof.
  unfold Desktop.findFurniture, Desktop.allFurniture.
  induction areas as [| a areas IH]; [reflexivity |].
  cbn [map flat_map]. unfold furniture_or_empty at 1. cbn [AreaData.furniture].
  destruct (AreaData.furniture a) as [l |]; cbn [option_map app]; [| exact IH].
  induction l as [| f l IHl]; [exact IH |].
  cbn [filter]. destruct (String.eqb (FurnitureItem.id f) fid) eqn:E; cbn [negb].
  - exact IHl.
  - cbn [app find]. rewrite E. exact IHl.
Qed.

(** X29: in the mobile designer, deleting an item after an update of that
    item gives the state that deleting it alone gives, a second identical
    update changes nothing, and after the deletion no area lists an item
    with that id and nothing is selected. *)
Theorem X29_v2_delete_forgets_update (u : FurnitureItem.t) (s : MobileV2.State) :
  MobileV2.handleFurnitureDelete (FurnitureItem.id u) (MobileV2.handleFurnitureUpdate u s)
  = MobileV2.handleFurnitureDelete (FurnitureItem.id u) s
  /\ MobileV2.handleFurnitureUpdate u (MobileV2.handleFurnitureUpdate u s)
     = MobileV2.handleFurnitureUpdate u s
  /\ Desktop.findFurniture
       (MobileV2.areas (MobileV2.handleFurnitureDelete (FurnitureItem.id u) s))
       (FurnitureItem.id u) = None
  /\ MobileV2.selectedFurnitureItem
       (MobileV2.handleFurnitureDelete (FurnitureItem.id u) s) = None.
Proof.
  split; [| split; [| split]].
  - unfold MobileV2.handleFurnitureDelete, MobileV2.handleFurnitureUpdate,
      MobileV2.setSelectedFurnitureItem, MobileV2.setAreas.
    destruct s; cbn. f_equal. rewrite map_map. apply map_ext. intros a. cbn. f_equal.
    destruct (AreaData.furniture a) as [l |]; [| reflexivity].
    cbn [option_map]. f_equal. apply filter_after_replace.
  - unfold MobileV2.handleFurnitureUpdate, MobileV2.setAreas.
    destruct s; cbn. f_equal. rewrite map_map. apply map_ext. intros a. cbn. f_equal.
    destruct (AreaData.furniture a) as [l |]; [| reflexivity].
    cbn [option_map]. f_equal. apply replace_twice.
  - unfold MobileV2.handleFurnitureDelete. destruct s; cbn [MobileV2.areas
      MobileV2.setAreas MobileV2.setSelectedFurnitureItem]. apply find_after_delete.
  - reflexivity.
Qed.

(** X30: in the mobile designer the three zoom buttons keep a zoom level
    that lies between 0.1 and 3 within that range; zooming in never lowers
    the level and zooming out never raises it, and neither button touches
    the pan offset. *)
Theorem X30_v2_zoom_buttons_stay_in_range (s : MobileV2.State) :
  (1 # 10) <= MobileV2.zoomLevel s <= 3 ->
  ((1 # 10) <= MobileV2.zoomLevel (MobileV2.handleZoomIn s) <= 3
   /\ MobileV2.zoomLevel s <= MobileV2.zoomLevel (MobileV2.handleZoomIn s)
   /\ MobileV2.panOffset (MobileV2.handleZoomIn s) = MobileV2.panOffset s)
  /\ ((1 # 10) <= MobileV2.zoomLevel (MobileV2.handleZoomOut s) <= 3
      /\ MobileV2.zoomLevel (MobileV2.handleZoomOut s) <= MobileV2.zoomLevel s
      /\ MobileV2.panOffset (MobileV2.handleZoomOut s) = MobileV2.panOffset s)
  /\ (1 # 10) <= MobileV2.zoomLevel (MobileV2.handleResetZoom s) <= 3.
Proof.
  intros [Hlo Hhi].
  assert (Hdiv : MobileV2.zoomLevel s / (12 # 10) == MobileV2.zoomLevel s * (10 # 12))
    by (field).
  unfold MobileV2.handleZoomIn, MobileV2.handleZoomOut, MobileV2.handleResetZoom.
  destruct s as [ar z pan ty dr cur sel pl pend ed edf lp tsp tst hl ts].
  cbn [MobileV2.zoomLevel MobileV2.panOffset MobileV2.setZoomLevel MobileV2.setPanOffset
       MobileV2.toast] in *.
  split; [| split].
  - split; [split |]; [| | split; [| reflexivity]].
    + apply Math_min_glb; lra.
    + apply Math_min_le_r.
    + apply Math_min_glb; lra.
  - split; [split |]; [| | split; [| reflexivity]].
    + apply Math_max_ge_r.
    + apply Math_max_lub; lra.
    + apply Math_max_lub; lra.
  - cbn. split; discriminate.
Qed.

Lemma X30_v2_zoom_buttons_stay_in_range_witness :
  (1 # 10) <= MobileV2.zoomLevel v2_zoomed_in <= 3
  /\ MobileV2.zoomLevel (MobileV2.handleZoomIn v2_zoomed_in) <= 3.
Proof.
  assert (H : (1 # 10) <= MobileV2.zoomLevel v2_zoomed_in <= 3)
    by (split; vm_compute; discriminate).
  split; [exact H |].
  destruct (X30_v2_zoom_buttons_stay_in_range v2_zoomed_in H) as [[[_ Hin] _] _].
  exact Hin.
Defined.
